(** * dt-route-planner: manifest store and batch ingestion pipeline

    A shallow embedding of [database-service.js] (class [DatabaseService])
    and of the route handlers and the background batch processor of
    [server.js], together with the properties of the specification that
    were checked against them.

    Layout: the JavaScript values ([JS]), the extracted payloads
    ([Payload]), the relational schema ([Schema]), the process state and its
    effects ([Runtime]), the database service ([DatabaseService]), the HTTP
    server ([Server]); then the properties, claim by claim, and further
    properties of the service and of the handlers. *)

From Stdlib Require Import ZArith Bool Ascii String List Lia QArith.
From Stdlib Require Import DecimalString Sorted.
From Stdlib Require DecimalN.
From stdpp Require Import base option list gmap strings.

Local Open Scope Z_scope.

(* ===================================================================== *)
(** * JavaScript primitives used by the service *)
(* ===================================================================== *)

Module JS.

(** A JavaScript number.  Finite values are kept as exact decimals
    [m * 10^e] (normalised: [m] has no trailing zero digit, zero is
    [Dec 0 0]); binary64 rounding and the sign of zero are not modelled. *)
Inductive number : Type :=
| NaN
| PInf
| NInf
| Dec (m e : Z).

(** The primitive values an extracted field can hold. *)
Inductive value : Type :=
| Undefined
| Null
| Bool (b : bool)
| Num (n : number)
| Str (s : string).

(** A [Date] object: its time value in milliseconds, or an invalid date. *)
Inductive date : Type :=
| InvalidDate
| ValidDate (t : Z).

(** An [Error] object as far as the service looks at it. *)
Record error : Type := Error { message : string }.

Definition number_eqb (a b : number) : bool :=
  match a, b with
  | NaN, NaN => true
  | PInf, PInf => true
  | NInf, NInf => true
  | Dec m e, Dec m' e' => (m =? m') && (e =? e')
  | _, _ => false
  end.

Definition date_eqb (a b : date) : bool :=
  match a, b with
  | InvalidDate, InvalidDate => true
  | ValidDate t, ValidDate t' => t =? t'
  | _, _ => false
  end.

Definition value_eqb (a b : value) : bool :=
  match a, b with
  | Undefined, Undefined => true
  | Null, Null => true
  | Bool x, Bool y => Bool.eqb x y
  | Num x, Num y => number_eqb x y
  | Str x, Str y => String.eqb x y
  | _, _ => false
  end.

(** ** Exact decimals *)

Fixpoint strip_zeros (fuel : nat) (m e : Z) : number :=
  match fuel with
  | O => Dec m e
  | S fuel' =>
      if (m mod 10 =? 0) then strip_zeros fuel' (m / 10) (e + 1)
      else Dec m e
  end.

Definition mkDec (m e : Z) : number :=
  if m =? 0 then Dec 0 0
  else strip_zeros (S (Z.to_nat (Z.log2 (Z.abs m)))) m e.

Definition zero : number := Dec 0 0.
Definition of_Z (z : Z) : number := mkDec z 0.

(** [a - b] on numbers. *)
Definition sub (a b : number) : number :=
  match a, b with
  | NaN, _ | _, NaN => NaN
  | PInf, PInf | NInf, NInf => NaN
  | PInf, _ => PInf
  | NInf, _ => NInf
  | _, PInf => NInf
  | _, NInf => PInf
  | Dec m1 e1, Dec m2 e2 =>
      let e := Z.min e1 e2 in
      mkDec (m1 * 10 ^ (e1 - e) - m2 * 10 ^ (e2 - e)) e
  end.

(** ToIntegerOrInfinity on a finite number: truncation towards zero. *)
Definition trunc (m e : Z) : Z :=
  if 0 <=? e then m * 10 ^ e else Z.quot m (10 ^ (- e)).

(** ** Characters and digit strings *)

(** A string is the sequence of its code units, all below 256; its
    [length] is [String.length]. *)

Definition code (c : ascii) : Z := Z.of_nat (nat_of_ascii c).

(** StrWhiteSpaceChar, on code units below 256: TAB, LF, VT, FF, CR, SP,
    NBSP. *)
Definition is_space (c : ascii) : bool :=
  let n := code c in
  ((9 <=? n) && (n <=? 13)) || (n =? 32) || (n =? 160).

(** The value of [c] as a digit of the given radix, if it is one. *)
Definition digit_of (radix : Z) (c : ascii) : option Z :=
  let n := code c in
  let d :=
    if (48 <=? n) && (n <=? 57) then n - 48
    else if (97 <=? n) && (n <=? 122) then n - 87
    else if (65 <=? n) && (n <=? 90) then n - 55
    else 36 in
  if d <? radix then Some d else None.

Fixpoint skip_space (s : string) : string :=
  match s with
  | String c r => if is_space c then skip_space r else s
  | EmptyString => s
  end.

Fixpoint all_space (s : string) : bool :=
  match s with
  | String c r => is_space c && all_space r
  | EmptyString => true
  end.

(** The longest prefix of digits of the radix, read left to right:
    accumulated value, number of digits, and the rest of the string. *)
Fixpoint take_digits (radix : Z) (acc : Z) (n : nat) (s : string)
  : Z * nat * string :=
  match s with
  | String c r =>
      match digit_of radix c with
      | Some d => take_digits radix (acc * radix + d) (S n) r
      | None => (acc, n, s)
      end
  | EmptyString => (acc, n, s)
  end.

(** An optional sign: its factor and the rest. *)
Definition take_sign (s : string) : Z * string :=
  match s with
  | String "+" r => (1, r)
  | String "-" r => (-1, r)
  | _ => (1, s)
  end.

(** ExponentPart, consumed only when at least one digit follows. *)
Definition take_exponent (s : string) : Z * string :=
  match s with
  | String c r =>
      if (Ascii.eqb c "e" || Ascii.eqb c "E")%bool then
        let '(sg, r1) := take_sign r in
        let '(v, n, r2) := take_digits 10 0 O r1 in
        match n with
        | O => (0, s)
        | S _ => (sg * v, r2)
        end
      else (0, s)
  | EmptyString => (0, s)
  end.

(** StrUnsignedDecimalLiteral as a prefix of [s]: the number and the rest,
    or [None] when no prefix of [s] is one. *)
Definition take_unsigned_decimal (s : string) : option (number * string) :=
  if String.prefix "Infinity" s then
    Some (PInf, String.substring 8 (String.length s - 8) s)
  else
    let '(ip, ni, r1) := take_digits 10 0 O s in
    let '(m, nf, r2) :=
      match r1 with
      | String "." r => take_digits 10 ip O r
      | _ => (ip, O, r1)
      end in
    match ni, nf with
    | O, O => None
    | _, _ =>
        let '(ex, r3) := take_exponent r2 in
        Some (mkDec m (ex - Z.of_nat nf), r3)
    end.

Definition negate (n : number) : number :=
  match n with
  | NaN => NaN
  | PInf => NInf
  | NInf => PInf
  | Dec m e => Dec (- m) e
  end.

Definition take_signed_decimal (s : string) : option (number * string) :=
  let '(sg, r) := take_sign s in
  match take_unsigned_decimal r with
  | Some (n, rest) => Some (if sg =? 1 then n else negate n, rest)
  | None => None
  end.

(** ** Conversions *)

(** ToBoolean. *)
Definition truthy (v : value) : bool :=
  match v with
  | Undefined | Null => false
  | Bool b => b
  | Num NaN => false
  | Num (Dec m _) => negb (m =? 0)
  | Num _ => true
  | Str s => negb (String.eqb s "")
  end.

(** [a || b]. *)
Definition or (a b : value) : value := if truthy a then a else b.

Definition digits_of_Z (z : Z) : string :=
  NilZero.string_of_uint (N.to_uint (Z.to_N (Z.abs z))).

Fixpoint zeros (n : nat) : string :=
  match n with
  | O => ""
  | S n' => String "0" (zeros n')
  end.

(** Number::toString(x), radix 10, on the exact decimal. *)
Definition number_to_string (x : number) : string :=
  match x with
  | NaN => "NaN"
  | PInf => "Infinity"
  | NInf => "-Infinity"
  | Dec m e =>
      if m =? 0 then "0"
      else
        let ds := digits_of_Z m in
        let k := Z.of_nat (String.length ds) in
        let n := k + e in
        let body :=
          if (k <=? n) && (n <=? 21) then
            ds +:+ zeros (Z.to_nat (n - k))
          else if (0 <? n) && (n <=? 21) then
            String.substring 0 (Z.to_nat n) ds +:+ "." +:+
            String.substring (Z.to_nat n) (Z.to_nat (k - n)) ds
          else if (-6 <? n) && (n <=? 0) then
            "0." +:+ zeros (Z.to_nat (- n)) +:+ ds
          else
            let ex := n - 1 in
            let sg := if 0 <=? ex then "+" else "-" in
            let mant :=
              if k =? 1 then ds
              else String.substring 0 1 ds +:+ "." +:+
                   String.substring 1 (Z.to_nat (k - 1)) ds in
            mant +:+ "e" +:+ sg +:+ digits_of_Z ex in
        if m <? 0 then "-" +:+ body else body
  end.

(** ToString on primitives. *)
Definition to_string (v : value) : string :=
  match v with
  | Undefined => "undefined"
  | Null => "null"
  | Bool true => "true"
  | Bool false => "false"
  | Num n => number_to_string n
  | Str s => s
  end.

(** [v + s] for a string [s]: string concatenation after ToString. *)
Definition concat (v : value) (s : string) : string := to_string v +:+ s.

(** StringToNumber: the whole string, white space trimmed at both ends,
    must be a StrNumericLiteral; the empty string is 0. *)
Definition radix_literal (radix : Z) (s : string) : number :=
  let '(v, n, rest) := take_digits radix 0 O s in
  match n with
  | O => NaN
  | S _ => if all_space rest then of_Z v else NaN
  end.

Definition string_to_number (s : string) : number :=
  let t := skip_space s in
  match t with
  | EmptyString => zero
  | String "0" (String c r) =>
      if (Ascii.eqb c "x" || Ascii.eqb c "X")%bool then radix_literal 16 r
      else if (Ascii.eqb c "o" || Ascii.eqb c "O")%bool then radix_literal 8 r
      else if (Ascii.eqb c "b" || Ascii.eqb c "B")%bool then radix_literal 2 r
      else
        match take_signed_decimal t with
        | Some (n, rest) => if all_space rest then n else NaN
        | None => NaN
        end
  | _ =>
      match take_signed_decimal t with
      | Some (n, rest) => if all_space rest then n else NaN
      | None => NaN
      end
  end.

(** ToNumber on primitives. *)
Definition to_number (v : value) : number :=
  match v with
  | Undefined => NaN
  | Null => zero
  | Bool true => of_Z 1
  | Bool false => zero
  | Num n => n
  | Str s => string_to_number s
  end.

(** [parseFloat(v)]: ToString, skip leading white space, then the longest
    prefix that is a StrDecimalLiteral; [NaN] when there is none. *)
Definition parseFloat (v : value) : number :=
  match take_signed_decimal (skip_space (to_string v)) with
  | Some (n, _) => n
  | None => NaN
  end.

(** [parseInt(v)] with no radix argument: ToString, skip leading white
    space, optional sign, radix 16 after a [0x] prefix and 10 otherwise,
    then the longest prefix of digits; [NaN] when there is none. *)
Definition parseInt (v : value) : number :=
  let '(sg, r) := take_sign (skip_space (to_string v)) in
  let '(radix, r1) :=
    match r with
    | String "0" (String c r') =>
        if (Ascii.eqb c "x" || Ascii.eqb c "X")%bool then (16, r') else (10, r)
    | _ => (10, r)
    end in
  let '(v, n, _) := take_digits radix 0 O r1 in
  match n with
  | O => NaN
  | S _ => of_Z (sg * v)
  end.

(** ** [String.prototype.split] and [includes] with a one-character
    separator *)

Fixpoint split_go (sep : ascii) (cur : string) (s : string) : list string :=
  match s with
  | EmptyString => [String.rev cur]
  | String c r =>
      if Ascii.eqb c sep then String.rev cur :: split_go sep "" r
      else split_go sep (String c cur) r
  end.

Definition split (sep : ascii) (s : string) : list string := split_go sep "" s.

Fixpoint includes (c : ascii) (s : string) : bool :=
  match s with
  | EmptyString => false
  | String d r => Ascii.eqb d c || includes c r
  end.

(** Array destructuring reads a missing element as [undefined]. *)
Definition nth_value (l : list string) (i : nat) : value :=
  match nth_error l i with
  | Some s => Str s
  | None => Undefined
  end.

(** ** [new Date(year, monthIndex, day)] *)

(** Day number of the first day of month [mn] (0-based, in 0..11) of the
    proleptic Gregorian year [y], counted from 1 January 1970. *)
Definition day_from_year_month (y mn : Z) : Z :=
  let m := mn + 1 in
  let y' := if m <=? 2 then y - 1 else y in
  let era := y' / 400 in
  let yoe := y' - era * 400 in
  let mp := if 2 <? m then m - 3 else m + 9 in
  let doy := (153 * mp + 2) / 5 in
  let doe := yoe * 365 + yoe / 4 - yoe / 100 + doy in
  era * 146097 + doe - 719468.

Definition msPerDay : Z := 86400000.

(** MakeDay on finite arguments. *)
Definition MakeDay (year month dt : Z) : Z :=
  let ym := year + month / 12 in
  let mn := month mod 12 in
  day_from_year_month ym mn + dt - 1.

(** TimeClip. *)
Definition TimeClip (t : Z) : date :=
  if Z.abs t <=? 8640000000000000 then ValidDate t else InvalidDate.

(** The Date constructor called with three arguments; hours, minutes,
    seconds and milliseconds are zero.  The local time zone is taken to be
    UTC. *)
Definition new_Date (year month day : value) : date :=
  match to_number year, to_number month, to_number day with
  | Dec ym ye, Dec mm me, Dec dm de =>
      let yi := trunc ym ye in
      let yr := if (0 <=? yi) && (yi <=? 99) then 1900 + yi else yi in
      TimeClip (MakeDay yr (trunc mm me) (trunc dm de) * msPerDay)
  | _, _, _ => InvalidDate
  end.

(** ** [toLowerCase], [endsWith] and [startsWith] *)

(** The lower-case form of a code unit below 256: the letters [A]-[Z] and
    the capitals U+00C0-U+00DE, the multiplication sign U+00D7 apart, move
    up by 32. *)
Definition lower_unit (c : ascii) : ascii :=
  let n := code c in
  if ((65 <=? n) && (n <=? 90)) ||
     ((192 <=? n) && (n <=? 222) && negb (n =? 215))
  then ascii_of_nat (Z.to_nat (n + 32)) else c.

Fixpoint toLowerCase (s : string) : string :=
  match s with
  | EmptyString => EmptyString
  | String c r => String (lower_unit c) (toLowerCase r)
  end.

(** [s.endsWith(suffix)]. *)
Definition endsWith (suffix s : string) : bool :=
  let n := String.length s in
  let k := String.length suffix in
  (k <=? n)%nat && String.eqb (String.substring (n - k) k s) suffix.

(** [s.startsWith(prefix)]. *)
Definition startsWith (prefix s : string) : bool := String.prefix prefix s.

End JS.

(* ===================================================================== *)
(** * Extracted payloads *)
(* ===================================================================== *)

(** What the extractor hands over, and what [server.js] attaches to it. *)
Module Payload.

Record TimeWindow : Type := {
  start : JS.value;
  end_ : JS.value
}.

Record Delivery : Type := {
  contact_name : JS.value;
  address : JS.value;
  postcode : JS.value;
  booking_ref : JS.value;
  arc_number : JS.value;
  contact_phone : JS.value;
  est_weight_kg : JS.value;
  total_cases : JS.value;
  time_window : option TimeWindow;
  delivery_instructions : JS.value;
  delivery_type : JS.value
}.

Record Depot : Type := {
  name : JS.value;
  depot_postcode : JS.value
}.

(** [processingInfo] of [server.js]. *)
Record ProcessingInfo : Type := {
  filename : string;
  file_size_bytes : Z;
  processed_at : Z;
  delivery_count : nat
}.

(** [extractedData] / [manifestData].  [collection_depot] and [deliveries]
    are [None] when the property is absent; the last three fields are the
    ones the server adds. *)
Record Manifest : Type := {
  manifest_id : JS.value;
  planned_delivery_date : JS.value;
  vehicle_driver : JS.value;
  report_time_loading : JS.value;
  collection_depot : option Depot;
  deliveries : option (list Delivery);
  processing_info : option ProcessingInfo;
  database_id : option string;
  database_error : option string
}.

Definition set_processing_info (pi : ProcessingInfo) (m : Manifest) : Manifest :=
  {| manifest_id := manifest_id m;
     planned_delivery_date := planned_delivery_date m;
     vehicle_driver := vehicle_driver m;
     report_time_loading := report_time_loading m;
     collection_depot := collection_depot m;
     deliveries := deliveries m;
     processing_info := Some pi;
     database_id := database_id m;
     database_error := database_error m |}.

Definition set_database_id (id : string) (m : Manifest) : Manifest :=
  {| manifest_id := manifest_id m;
     planned_delivery_date := planned_delivery_date m;
     vehicle_driver := vehicle_driver m;
     report_time_loading := report_time_loading m;
     collection_depot := collection_depot m;
     deliveries := deliveries m;
     processing_info := processing_info m;
     database_id := Some id;
     database_error := database_error m |}.

Definition set_database_error (msg : string) (m : Manifest) : Manifest :=
  {| manifest_id := manifest_id m;
     planned_delivery_date := planned_delivery_date m;
     vehicle_driver := vehicle_driver m;
     report_time_loading := report_time_loading m;
     collection_depot := collection_depot m;
     deliveries := deliveries m;
     processing_info := processing_info m;
     database_id := database_id m;
     database_error := Some msg |}.

(** [(m.deliveries || [])]. *)
Definition deliveries_or_empty (m : Manifest) : list Delivery :=
  match deliveries m with
  | Some l => l
  | None => []
  end.

End Payload.

(* ===================================================================== *)
(** * The relational schema *)
(* ===================================================================== *)

Module Schema.

(** A row of [manifests].  Text columns hold the bound parameter after the
    driver's conversion to text; [created_at] and [processed_at] are filled
    in by the store. *)
Record manifests_row : Type := {
  id : string;
  manifest_id : string;
  planned_delivery_date : option JS.date;
  vehicle_driver : string;
  report_time_loading : option string;
  collection_depot_name : string;
  collection_depot_postcode : string;
  original_filename : string;
  file_size_bytes : Z;
  delivery_count : nat;
  raw_manifest_data : Payload.Manifest;
  created_at : Z;
  processed_at : Z
}.

(** A row of [deliveries]. *)
Record deliveries_row : Type := {
  d_id : string;
  d_manifest_id : string;
  contact_name : string;
  address : string;
  postcode : string;
  booking_ref : string;
  arc_number : string;
  contact_phone : option string;
  est_weight_kg : JS.number;
  total_cases : JS.number;
  time_window_start : option string;
  time_window_end : option string;
  delivery_instructions : string;
  delivery_type : string;
  delivery_order : nat;
  raw_delivery_data : Payload.Delivery
}.

(** An item-level error record of a batch job. *)
Record error_info : Type := {
  filename : string;
  error : string;
  timestamp : Z
}.

(** A row of [batch_jobs]. *)
Record batch_jobs_row : Type := {
  b_id : string;
  job_id : string;
  total_files : nat;
  processed_files : nat;
  successful_files : nat;
  failed_files : nat;
  status : string;
  results : list Payload.Manifest;
  errors : list error_info;
  error_message : option string;
  started_at : Z;
  completed_at : option Z
}.

(** A row of [batch_job_manifests]. *)
Record batch_job_manifests_row : Type := {
  batch_job_id : string;
  l_manifest_id : string;
  processing_order : nat
}.

Record Db : Type := {
  manifests : list manifests_row;
  deliveries : list deliveries_row;
  batch_jobs : list batch_jobs_row;
  batch_job_manifests : list batch_job_manifests_row
}.

Definition empty : Db :=
  {| manifests := []; deliveries := []; batch_jobs := [];
     batch_job_manifests := [] |}.

Definition with_manifests (l : list manifests_row) (d : Db) : Db :=
  {| manifests := l; deliveries := deliveries d; batch_jobs := batch_jobs d;
     batch_job_manifests := batch_job_manifests d |}.

Definition with_deliveries (l : list deliveries_row) (d : Db) : Db :=
  {| manifests := manifests d; deliveries := l; batch_jobs := batch_jobs d;
     batch_job_manifests := batch_job_manifests d |}.

Definition with_batch_jobs (l : list batch_jobs_row) (d : Db) : Db :=
  {| manifests := manifests d; deliveries := deliveries d; batch_jobs := l;
     batch_job_manifests := batch_job_manifests d |}.

Definition with_batch_job_manifests (l : list batch_job_manifests_row) (d : Db)
  : Db :=
  {| manifests := manifests d; deliveries := deliveries d;
     batch_jobs := batch_jobs d; batch_job_manifests := l |}.

Definition has_manifest (i : string) (d : Db) : bool :=
  existsb (fun r => String.eqb (id r) i) (manifests d).

Definition has_delivery (i : string) (d : Db) : bool :=
  existsb (fun r => String.eqb (d_id r) i) (deliveries d).

Definition has_batch_job (i : string) (d : Db) : bool :=
  existsb (fun r => String.eqb (b_id r) i) (batch_jobs d).

Definition has_job_id (j : string) (d : Db) : bool :=
  existsb (fun r => String.eqb (job_id r) j) (batch_jobs d).

End Schema.

(* ===================================================================== *)
(** * The process state and its effects *)
(* ===================================================================== *)

Module Runtime.

(** The job object kept in the in-memory [batchJobs] map. *)
Record JobStatus : Type := {
  status : string;
  total_files : nat;
  processed_files : nat;
  results : list Payload.Manifest;
  errors : list Schema.error_info;
  started_at : Z;
  store_in_db : bool;
  completed_at : option Z;
  error : option string;
  failed_at : option Z
}.

(** One line written to the console. *)
Inductive console_entry : Type :=
| ConsoleLog (msg : string)
| ConsoleWarn (msg : string)
| ConsoleError (msg : string) (err : JS.error).

(** What lies outside the process.  External calls are numbered in the
    order they are made ([tick]); [fault k] is the error with which the
    [k]-th one fails, if it does; [gen_id k] is the key the store generates
    and [clock k] the time read at that point; [processPDF] is the
    extractor, looked up by file path. *)
Class Env : Type := {
  fault : nat -> option string;
  gen_id : nat -> string;
  clock : nat -> Z;
  processPDF : string -> Payload.Manifest + JS.error
}.

(** The local variables of [processBatchInBackground] that are assigned
    inside its [try] blocks; [extractedData] is the object of the item at
    hand. *)
Record Frame : Type := {
  successfulFiles : nat;
  failedFiles : nat;
  extractedData : option Payload.Manifest
}.

(** The state of the process and of the store behind it.  [db] is the
    committed content of the store, [txn] the working copy of the
    transaction open on the checked-out connection, [in_use] the number of
    connections checked out of the pool, [heap] the job objects,
    [batchJobs] the map from job id to job object, [files] the uploaded
    files on disk. *)
Record World : Type := {
  db : Schema.Db;
  txn : option Schema.Db;
  in_use : nat;
  tick : nat;
  heap : gmap nat JobStatus;
  batchJobs : gmap string nat;
  files : gset string;
  console : list console_entry;
  frame : Frame
}.

Definition with_db (d : Schema.Db) (w : World) : World :=
  {| db := d; txn := txn w; in_use := in_use w; tick := tick w;
     heap := heap w; batchJobs := batchJobs w; files := files w;
     console := console w; frame := frame w |}.

Definition with_txn (t : option Schema.Db) (w : World) : World :=
  {| db := db w; txn := t; in_use := in_use w; tick := tick w;
     heap := heap w; batchJobs := batchJobs w; files := files w;
     console := console w; frame := frame w |}.

Definition with_in_use (n : nat) (w : World) : World :=
  {| db := db w; txn := txn w; in_use := n; tick := tick w;
     heap := heap w; batchJobs := batchJobs w; files := files w;
     console := console w; frame := frame w |}.

Definition with_tick (n : nat) (w : World) : World :=
  {| db := db w; txn := txn w; in_use := in_use w; tick := n;
     heap := heap w; batchJobs := batchJobs w; files := files w;
     console := console w; frame := frame w |}.

Definition with_heap (h : gmap nat JobStatus) (w : World) : World :=
  {| db := db w; txn := txn w; in_use := in_use w; tick := tick w;
     heap := h; batchJobs := batchJobs w; files := files w;
     console := console w; frame := frame w |}.

Definition with_batchJobs (b : gmap string nat) (w : World) : World :=
  {| db := db w; txn := txn w; in_use := in_use w; tick := tick w;
     heap := heap w; batchJobs := b; files := files w;
     console := console w; frame := frame w |}.

Definition with_files (f : gset string) (w : World) : World :=
  {| db := db w; txn := txn w; in_use := in_use w; tick := tick w;
     heap := heap w; batchJobs := batchJobs w; files := f;
     console := console w; frame := frame w |}.

Definition with_console (c : list console_entry) (w : World) : World :=
  {| db := db w; txn := txn w; in_use := in_use w; tick := tick w;
     heap := heap w; batchJobs := batchJobs w; files := files w;
     console := c; frame := frame w |}.

Definition with_frame (f : Frame) (w : World) : World :=
  {| db := db w; txn := txn w; in_use := in_use w; tick := tick w;
     heap := heap w; batchJobs := batchJobs w; files := files w;
     console := console w; frame := f |}.

(** ** Computations that may throw *)

Inductive outcome (A : Type) : Type :=
| Return (a : A)
| Throw (e : JS.error).
Arguments Return {A} a.
Arguments Throw {A} e.

Definition M (A : Type) : Type := World -> outcome A * World.

Definition ret {A} (a : A) : M A := fun w => (Return a, w).

Definition throw {A} (e : JS.error) : M A := fun w => (Throw e, w).

Definition bind {A B} (m : M A) (k : A -> M B) : M B :=
  fun w =>
    match m w with
    | (Return a, w') => k a w'
    | (Throw e, w') => (Throw e, w')
    end.

(** [try { body } catch (e) { handler e }]. *)
Definition try_catch {A} (body : M A) (handler : JS.error -> M A) : M A :=
  fun w =>
    match body w with
    | (Return a, w') => (Return a, w')
    | (Throw e, w') => handler e w'
    end.

(** [try { body } finally { fin }]: [fin] runs on every exit of [body]; if
    it throws, its error replaces the completion of [body]. *)
Definition try_finally {A} (body : M A) (fin : M unit) : M A :=
  fun w =>
    match body w with
    | (r, w') =>
        match fin w' with
        | (Return _, w'') => (r, w'')
        | (Throw e, w'') => (Throw e, w'')
        end
    end.

Declare Scope js_scope.
Delimit Scope js_scope with js.
Notation "'let*' x ':=' m 'in' k" :=
  (bind m (fun x => k))
  (at level 10, x name, m at level 100, k at level 200) : js_scope.
Notation "m ';;' k" :=
  (bind m (fun _ => k))
  (at level 100, k at level 200, right associativity) : js_scope.
Local Open Scope js_scope.

(** A call to an async function that is not awaited: the task runs, the
    caller does not see how it ends. *)
Definition detached (task : M unit) : M unit :=
  fun w => (Return tt, snd (task w)).

(** [for (let i = start; i < l.length; i++) body(i, l[i])]. *)
Fixpoint for_each {A} (i : nat) (l : list A) (body : nat -> A -> M unit)
  : M unit :=
  match l with
  | [] => ret tt
  | x :: l' => body i x ;; for_each (S i) l' body
  end.

Definition console_log (msg : string) : M unit :=
  fun w => (Return tt, with_console (console w ++ [ConsoleLog msg]) w).

Definition console_warn (msg : string) : M unit :=
  fun w => (Return tt, with_console (console w ++ [ConsoleWarn msg]) w).

Definition console_error (msg : string) (e : JS.error) : M unit :=
  fun w => (Return tt, with_console (console w ++ [ConsoleError msg e]) w).

(** ** The connection pool and the store *)

Section WithEnv.
Context {E : Env}.

(** The next external call: its number, and the fault injected there.  A
    call that fails has no effect beyond being counted. *)
Definition external : M nat :=
  fun w =>
    let k := tick w in
    match fault k with
    | Some msg => (Throw (JS.Error msg), with_tick (S k) w)
    | None => (Return k, with_tick (S k) w)
    end.

(** [new Date()]: the time now. *)
Definition now : M Z := fun w => (Return (clock (tick w)), w).

(** [uuidv4()]. *)
Definition uuidv4 : M string :=
  fun w => (Return (gen_id (tick w)), with_tick (S (tick w)) w).

(** A checked-out connection. *)
Inductive client : Type := Client.

(** [pool.connect()]: a connection with no transaction open. *)
Definition pool_connect : M client :=
  external ;;
  fun w => (Return Client, with_txn None (with_in_use (S (in_use w)) w)).

(** [client.release()].  Work of a transaction that was neither committed
    nor rolled back is lost with the connection. *)
Definition release (c : client) : M unit :=
  fun w => (Return tt, with_txn None (with_in_use (Nat.pred (in_use w)) w)).

(** A statement: given the number of the call, it maps the content the
    connection sees to a result and a new content, or violates a
    constraint. *)
Definition statement (A : Type) : Type :=
  nat -> Schema.Db -> option (A * Schema.Db).

Definition visible (w : World) : Schema.Db :=
  match txn w with
  | Some d => d
  | None => db w
  end.

Definition write (d : Schema.Db) (w : World) : World :=
  match txn w with
  | Some _ => with_txn (Some d) w
  | None => with_db d w
  end.

(** [client.query(...)] for a data statement.  Outside a transaction the
    statement commits by itself. *)
Definition query {A} (c : client) (stmt : statement A) : M A :=
  let* k := external in
  fun w =>
    match stmt k (visible w) with
    | Some (a, d) => (Return a, write d w)
    | None => (Throw (JS.Error "constraint violation"), w)
    end.

(** [client.query('BEGIN')]. *)
Definition BEGIN (c : client) : M unit :=
  external ;;
  fun w => (Return tt, with_txn (Some (visible w)) w).

(** [client.query('COMMIT')]. *)
Definition COMMIT (c : client) : M unit :=
  external ;;
  fun w => (Return tt, with_txn None (with_db (visible w) w)).

(** [client.query('ROLLBACK')]. *)
Definition ROLLBACK (c : client) : M unit :=
  external ;;
  fun w => (Return tt, with_txn None w).

(** [fs.unlink(path)]. *)
Definition unlink (path : string) : M unit :=
  external ;;
  fun w =>
    if decide (path ∈ files w) then
      (Return tt, with_files (files w ∖ {[path]}) w)
    else (Throw (JS.Error "ENOENT: no such file or directory"), w).

(** [processPDF(path)]. *)
Definition extract (path : string) : M Payload.Manifest :=
  fun w =>
    match processPDF path with
    | inl data => (Return data, w)
    | inr e => (Throw e, w)
    end.

End WithEnv.

End Runtime.

(* ===================================================================== *)
(** * database-service.js *)
(* ===================================================================== *)

Module DatabaseService.

Import Runtime.
Local Open Scope js_scope.

(** ** Helpers of the query language *)

(** Insertion into a list ordered by [le]; [sort_by] is stable. *)
Fixpoint insert_by {A} (le : A -> A -> bool) (x : A) (l : list A) : list A :=
  match l with
  | [] => [x]
  | y :: l' => if le x y then x :: l else y :: insert_by le x l'
  end.

Definition sort_by {A} (le : A -> A -> bool) (l : list A) : list A :=
  fold_right (insert_by le) [] l.

(** A parameter bound to a text column. *)
Definition text (v : JS.value) : string := JS.to_string v.

(** [v || null] bound to a nullable text column. *)
Definition text_or_null (v : JS.value) : option string :=
  if JS.truthy v then Some (JS.to_string v) else None.

(** [v + ':00'] when [v] is truthy, [null] otherwise. *)
Definition add_seconds (v : JS.value) : option string :=
  if JS.truthy v then Some (JS.concat v ":00") else None.

Definition decimal (n : nat) : string := JS.digits_of_Z (Z.of_nat n).

Section WithEnv.
Context {E : Env}.

(** ** The statements of [storeManifest] and [storeDelivery] *)

(** Modelled from the spec: the schema is not part of the sources; section
    6 gives [manifests(id PK surrogate, ..., created_at, processed_at)].
    The store generates [id], refuses a key already in use, and stamps both
    times.  [INSERT INTO manifests (...) VALUES ($1..$10) RETURNING id]. *)
Definition INSERT_manifests
    (manifest_id : string) (planned_delivery_date : option JS.date)
    (vehicle_driver : string) (report_time_loading : option string)
    (collection_depot_name collection_depot_postcode original_filename : string)
    (file_size_bytes : Z) (delivery_count : nat)
    (raw_manifest_data : Payload.Manifest) : statement string :=
  fun k d =>
    let i := gen_id k in
    if Schema.has_manifest i d then None
    else
      let row :=
        {| Schema.id := i;
           Schema.manifest_id := manifest_id;
           Schema.planned_delivery_date := planned_delivery_date;
           Schema.vehicle_driver := vehicle_driver;
           Schema.report_time_loading := report_time_loading;
           Schema.collection_depot_name := collection_depot_name;
           Schema.collection_depot_postcode := collection_depot_postcode;
           Schema.original_filename := original_filename;
           Schema.file_size_bytes := file_size_bytes;
           Schema.delivery_count := delivery_count;
           Schema.raw_manifest_data := raw_manifest_data;
           Schema.created_at := clock k;
           Schema.processed_at := clock k |} in
      Some (i, Schema.with_manifests (Schema.manifests d ++ [row]) d).

(** Modelled from the spec: [deliveries(id PK, manifest_id FK->manifests.id,
    ...)].  The store generates [id] and refuses a row whose manifest does
    not exist.  [INSERT INTO deliveries (...) VALUES ($1..$15)]. *)
Definition INSERT_deliveries
    (manifest_id contact_name address postcode booking_ref arc_number : string)
    (contact_phone : option string) (est_weight_kg total_cases : JS.number)
    (time_window_start time_window_end : option string)
    (delivery_instructions delivery_type : string) (delivery_order : nat)
    (raw_delivery_data : Payload.Delivery) : statement unit :=
  fun k d =>
    let i := gen_id k in
    if Schema.has_delivery i d || negb (Schema.has_manifest manifest_id d)
    then None
    else
      let row :=
        {| Schema.d_id := i;
           Schema.d_manifest_id := manifest_id;
           Schema.contact_name := contact_name;
           Schema.address := address;
           Schema.postcode := postcode;
           Schema.booking_ref := booking_ref;
           Schema.arc_number := arc_number;
           Schema.contact_phone := contact_phone;
           Schema.est_weight_kg := est_weight_kg;
           Schema.total_cases := total_cases;
           Schema.time_window_start := time_window_start;
           Schema.time_window_end := time_window_end;
           Schema.delivery_instructions := delivery_instructions;
           Schema.delivery_type := delivery_type;
           Schema.delivery_order := delivery_order;
           Schema.raw_delivery_data := raw_delivery_data |} in
      Some (tt, Schema.with_deliveries (Schema.deliveries d ++ [row]) d).

(** ** [storeDelivery] *)

Definition storeDelivery (client : client) (manifestId : string)
    (delivery : Payload.Delivery) (order : nat) : M unit :=
  let timeWindow := Payload.time_window delivery in
  let startTime :=
    match timeWindow with
    | Some tw => add_seconds (Payload.start tw)
    | None => None
    end in
  let endTime :=
    match timeWindow with
    | Some tw => add_seconds (Payload.end_ tw)
    | None => None
    end in
  query client (INSERT_deliveries
    manifestId
    (text (JS.or (Payload.contact_name delivery) (JS.Str "")))
    (text (JS.or (Payload.address delivery) (JS.Str "")))
    (text (JS.or (Payload.postcode delivery) (JS.Str "")))
    (text (JS.or (Payload.booking_ref delivery) (JS.Str "")))
    (text (JS.or (Payload.arc_number delivery) (JS.Str "")))
    (text_or_null (Payload.contact_phone delivery))
    (JS.parseFloat (JS.or (Payload.est_weight_kg delivery) (JS.Num JS.zero)))
    (JS.parseInt (JS.or (Payload.total_cases delivery) (JS.Num JS.zero)))
    startTime
    endTime
    (text (JS.or (Payload.delivery_instructions delivery) (JS.Str "")))
    (text (JS.or (Payload.delivery_type delivery) (JS.Str "")))
    order
    delivery).

(** ** [storeManifest] *)

(** The block that parses the planned delivery date.  [split] exists on
    strings only; on any other truthy value the call throws a TypeError,
    which the [catch] turns into a warning. *)
Definition parse_planned_date (planned_delivery_date : JS.value)
  : M (option JS.date) :=
  if JS.truthy planned_delivery_date then
    try_catch
      (match planned_delivery_date with
       | JS.Str s =>
           let parts := JS.split "/" s in
           let day := JS.nth_value parts 0 in
           let month := JS.nth_value parts 1 in
           let year := JS.nth_value parts 2 in
           ret (Some (JS.new_Date year
                        (JS.Num (JS.sub (JS.to_number month) (JS.of_Z 1)))
                        day))
       | _ =>
           throw (JS.Error
             "manifestData.planned_delivery_date.split is not a function")
       end)
      (fun error =>
         console_warn ("Could not parse date: " +:+
                       JS.to_string planned_delivery_date) ;;
         ret None)
  else ret None.

Definition depot_field (f : Payload.Depot -> JS.value)
    (collectionDepot : option Payload.Depot) : JS.value :=
  match collectionDepot with
  | Some dp => f dp
  | None => JS.Undefined
  end.

Definition storeManifest (manifestData : Payload.Manifest)
    (processingInfo : Payload.ProcessingInfo) : M string :=
  let* client := pool_connect in
  try_finally
    (try_catch
       (BEGIN client ;;
        let collectionDepot := Payload.collection_depot manifestData in
        let* plannedDate :=
          parse_planned_date (Payload.planned_delivery_date manifestData) in
        let reportTime :=
          add_seconds (Payload.report_time_loading manifestData) in
        let* manifestId :=
          query client (INSERT_manifests
            (text (JS.or (Payload.manifest_id manifestData) (JS.Str "")))
            plannedDate
            (text (JS.or (Payload.vehicle_driver manifestData) (JS.Str "")))
            reportTime
            (text (JS.or (depot_field Payload.name collectionDepot)
                         (JS.Str "")))
            (text (JS.or (depot_field Payload.depot_postcode collectionDepot)
                         (JS.Str "")))
            (Payload.filename processingInfo)
            (Payload.file_size_bytes processingInfo)
            (length (Payload.deliveries_or_empty manifestData))
            manifestData) in
        let deliveries := Payload.deliveries_or_empty manifestData in
        for_each 0 deliveries
          (fun order delivery =>
             storeDelivery client manifestId delivery (order + 1)) ;;
        COMMIT client ;;
        console_log ("Stored manifest " +:+
                     JS.to_string (Payload.manifest_id manifestData) +:+
                     " with " +:+ decimal (length deliveries) +:+
                     " deliveries") ;;
        ret manifestId)
       (fun error =>
          ROLLBACK client ;;
          console_error "Error storing manifest:" error ;;
          throw error))
    (release client).

(** ** [getManifestById] and [getManifestByRef] *)

(** A manifest row with its [deliveries] property attached. *)
Record manifest : Type := {
  row : Schema.manifests_row;
  deliveries : list Schema.deliveries_row
}.

(** [SELECT * FROM manifests WHERE id = $1]. *)
Definition SELECT_manifest_by_id (i : string)
  : statement (list Schema.manifests_row) :=
  fun _ d =>
    Some (List.filter (fun r => String.eqb (Schema.id r) i) (Schema.manifests d), d).

(** [SELECT * FROM deliveries WHERE manifest_id = $1 ORDER BY
    delivery_order]. *)
Definition SELECT_deliveries_of (i : string)
  : statement (list Schema.deliveries_row) :=
  fun _ d =>
    Some (sort_by
            (fun a b => Nat.leb (Schema.delivery_order a)
                                (Schema.delivery_order b))
            (List.filter (fun r => String.eqb (Schema.d_manifest_id r) i)
                    (Schema.deliveries d)),
          d).

(** [SELECT * FROM manifests WHERE manifest_id = $1 ORDER BY created_at
    DESC LIMIT 1]. *)
Definition SELECT_manifest_by_ref (ref : string)
  : statement (list Schema.manifests_row) :=
  fun _ d =>
    Some (firstn 1
            (sort_by
               (fun a b => Z.leb (Schema.created_at b) (Schema.created_at a))
               (List.filter (fun r => String.eqb (Schema.manifest_id r) ref)
                       (Schema.manifests d))),
          d).

Definition getManifestById (manifestId : string) : M (option manifest) :=
  let* client := pool_connect in
  try_finally
    (let* manifestResult := query client (SELECT_manifest_by_id manifestId) in
     match manifestResult with
     | [] => ret None
     | r :: _ =>
         let* deliveriesResult :=
           query client (SELECT_deliveries_of manifestId) in
         ret (Some {| row := r; deliveries := deliveriesResult |})
     end)
    (release client).

Definition getManifestByRef (manifestRef : string) : M (option manifest) :=
  let* client := pool_connect in
  try_finally
    (let* manifestResult := query client (SELECT_manifest_by_ref manifestRef) in
     match manifestResult with
     | [] => ret None
     | r :: _ =>
         let* deliveriesResult :=
           query client (SELECT_deliveries_of (Schema.id r)) in
         ret (Some {| row := r; deliveries := deliveriesResult |})
     end)
    (release client).

(** ** [searchDeliveries] *)

Record delivery_filters : Type := {
  postcode : option string;
  contactName : option string;
  bookingRef : option string;
  limit : option Z;
  offset : option Z
}.

(** A value pushed on [params]. *)
Inductive param : Type :=
| PText (s : string)
| PInt (z : Z)
| PNat (n : nat)
| PTime (t : Z)
| PResults (l : list Payload.Manifest)
| PErrors (l : list Schema.error_info).

Inductive delivery_column : Type :=
| col_postcode
| col_contact_name
| col_booking_ref.

(** An entry of [conditions]: [col LIKE $n], [col = $n], [col ILIKE $n]. *)
Inductive condition : Type :=
| LIKE (col : delivery_column) (n : nat)
| EQ (col : delivery_column) (n : nat)
| ILIKE (col : delivery_column) (n : nat).

(** Modelled from the spec: the view [deliveries_with_manifest] is not part
    of the sources; section 6 calls it the deliveries joined with their
    manifest. *)
Definition deliveries_with_manifest (d : Schema.Db)
  : list (Schema.deliveries_row * Schema.manifests_row) :=
  flat_map
    (fun r =>
       map (fun m => (r, m))
           (List.filter (fun m => String.eqb (Schema.id m) (Schema.d_manifest_id r))
                   (Schema.manifests d)))
    (Schema.deliveries d).

(** The pattern language of [LIKE]: [%] stands for any run of characters,
    [_] for any single one, a backslash takes the next character
    literally. *)
Inductive token : Type :=
| AnyRun
| AnyOne
| Lit (c : ascii).

Fixpoint tokens (p : string) : option (list token) :=
  match p with
  | EmptyString => Some []
  | String c r =>
      if Ascii.eqb c "\" then
        match r with
        | EmptyString => None
        | String c' r' => option_map (cons (Lit c')) (tokens r')
        end
      else
        option_map
          (cons (if Ascii.eqb c "%" then AnyRun
                 else if Ascii.eqb c "_" then AnyOne
                 else Lit c))
          (tokens r)
  end.

Fixpoint like_tokens (ts : list token) (s : string) : bool :=
  match ts with
  | [] => String.eqb s ""
  | Lit c :: ts' =>
      match s with
      | String d r => Ascii.eqb c d && like_tokens ts' r
      | EmptyString => false
      end
  | AnyOne :: ts' =>
      match s with
      | String _ r => like_tokens ts' r
      | EmptyString => false
      end
  | AnyRun :: ts' =>
      (fix run (s : string) : bool :=
         like_tokens ts' s ||
         match s with
         | String _ r => run r
         | EmptyString => false
         end) s
  end.

(** [s LIKE p]; [None] when the pattern is ill-formed. *)
Definition like (s p : string) : option bool :=
  option_map (fun ts => like_tokens ts s) (tokens p).

Definition lower (c : ascii) : ascii :=
  let n := JS.code c in
  if (65 <=? n) && (n <=? 90) then ascii_of_nat (Z.to_nat (n + 32)) else c.

Fixpoint lowercase (s : string) : string :=
  match s with
  | EmptyString => EmptyString
  | String c r => String (lower c) (lowercase r)
  end.

(** [s ILIKE p]. *)
Definition ilike (s p : string) : option bool :=
  like (lowercase s) (lowercase p).

Definition column_of (col : delivery_column)
    (r : Schema.deliveries_row * Schema.manifests_row) : string :=
  match col with
  | col_postcode => Schema.postcode (fst r)
  | col_contact_name => Schema.contact_name (fst r)
  | col_booking_ref => Schema.booking_ref (fst r)
  end.

(** [$n] among [params], as text. *)
Definition text_param (params : list param) (n : nat) : option string :=
  match nth_error params (Nat.pred n) with
  | Some (PText s) => Some s
  | _ => None
  end.

Definition int_param (params : list param) (n : nat) : option Z :=
  match nth_error params (Nat.pred n) with
  | Some (PInt z) => Some z
  | _ => None
  end.

(** Whether a row satisfies a condition; [None] is a query error. *)
Definition holds (params : list param)
    (r : Schema.deliveries_row * Schema.manifests_row) (c : condition)
  : option bool :=
  match c with
  | LIKE col n =>
      match text_param params n with
      | Some p => like (column_of col r) p
      | None => None
      end
  | EQ col n =>
      match text_param params n with
      | Some p => Some (String.eqb (column_of col r) p)
      | None => None
      end
  | ILIKE col n =>
      match text_param params n with
      | Some p => ilike (column_of col r) p
      | None => None
      end
  end.

(** The conjunction of [conditions] on a row. *)
Fixpoint where_clause (params : list param) (conditions : list condition)
    (r : Schema.deliveries_row * Schema.manifests_row) : option bool :=
  match conditions with
  | [] => Some true
  | c :: cs =>
      match holds params r c, where_clause params cs r with
      | Some b, Some b' => Some (b && b')
      | _, _ => None
      end
  end.

(** The rows that satisfy the [WHERE] clause, in table order. *)
Fixpoint select_where (params : list param) (conditions : list condition)
    (rows : list (Schema.deliveries_row * Schema.manifests_row))
  : option (list (Schema.deliveries_row * Schema.manifests_row)) :=
  match rows with
  | [] => Some []
  | r :: rs =>
      match where_clause params conditions r,
            select_where params conditions rs with
      | Some b, Some l => Some (if b then r :: l else l)
      | _, _ => None
      end
  end.

(** [a] comes strictly before [b] under [planned_delivery_date DESC]:
    nulls first, then later dates before earlier ones. *)
Definition date_before_desc (a b : option JS.date) : bool :=
  match a, b with
  | None, None => false
  | None, Some _ => true
  | Some _, None => false
  | Some (JS.ValidDate x), Some (JS.ValidDate y) => y <? x
  | Some (JS.ValidDate _), Some JS.InvalidDate => true
  | Some JS.InvalidDate, Some _ => false
  end.

(** [ORDER BY planned_delivery_date DESC, delivery_order]. *)
Definition delivery_order_le
    (a b : Schema.deliveries_row * Schema.manifests_row) : bool :=
  let da := Schema.planned_delivery_date (snd a) in
  let db := Schema.planned_delivery_date (snd b) in
  date_before_desc da db ||
  (negb (date_before_desc db da) &&
   Nat.leb (Schema.delivery_order (fst a)) (Schema.delivery_order (fst b))).

(** [SELECT * FROM deliveries_with_manifest <where> ORDER BY
    planned_delivery_date DESC, delivery_order LIMIT $l OFFSET $o]. *)
Definition SELECT_deliveries_with_manifest
    (conditions : list condition) (params : list param) (l o : nat)
  : statement (list (Schema.deliveries_row * Schema.manifests_row)) :=
  fun _ d =>
    match select_where params conditions (deliveries_with_manifest d),
          int_param params l, int_param params o with
    | Some rows, Some lim, Some off =>
        if (lim <? 0) || (off <? 0) then None
        else
          Some (firstn (Z.to_nat lim)
                  (skipn (Z.to_nat off) (sort_by delivery_order_le rows)),
                d)
    | _, _, _ => None
    end.

(** [if (s)] on an optional string. *)
Definition given (s : option string) : option string :=
  match s with
  | Some x => if String.eqb x "" then None else Some x
  | None => None
  end.

(** [n || dflt] on an optional number. *)
Definition or_default (n : option Z) (dflt : Z) : Z :=
  match n with
  | Some z => if z =? 0 then dflt else z
  | None => dflt
  end.

(** The three [if] blocks that build [conditions] and [params]. *)
Definition delivery_conditions (filters : delivery_filters)
  : list condition * list param * nat :=
  let s0 := ([], [], 0%nat) in
  let s1 :=
    match given (postcode filters) with
    | Some pc =>
        let '(conditions, params, paramCount) := s0 in
        let paramCount := S paramCount in
        if (String.length pc <=? 4)%nat then
          (conditions ++ [LIKE col_postcode paramCount],
           params ++ [PText (pc +:+ "%")], paramCount)
        else
          (conditions ++ [EQ col_postcode paramCount],
           params ++ [PText pc], paramCount)
    | None => s0
    end in
  let s2 :=
    match given (contactName filters) with
    | Some cn =>
        let '(conditions, params, paramCount) := s1 in
        let paramCount := S paramCount in
        (conditions ++ [ILIKE col_contact_name paramCount],
         params ++ [PText ("%" +:+ cn +:+ "%")], paramCount)
    | None => s1
    end in
  let s3 :=
    match given (bookingRef filters) with
    | Some br =>
        let '(conditions, params, paramCount) := s2 in
        let paramCount := S paramCount in
        (conditions ++ [EQ col_booking_ref paramCount],
         params ++ [PText br], paramCount)
    | None => s2
    end in
  s3.

Definition searchDeliveries (filters : delivery_filters)
  : M (list (Schema.deliveries_row * Schema.manifests_row)) :=
  let* client := pool_connect in
  try_finally
    (let '(conditions, params, paramCount) := delivery_conditions filters in
     let paramCount := S paramCount in
     let params := params ++ [PInt (or_default (limit filters) 100)] in
     let paramCount := S paramCount in
     let params := params ++ [PInt (or_default (offset filters) 0)] in
     query client
       (SELECT_deliveries_with_manifest conditions params
          (paramCount - 1) paramCount))
    (release client).

(** ** Batch jobs *)

(** Modelled from the spec: [batch_jobs(id PK, job_id text unique, ...)];
    a new job row has status [processing] and zero progress (section 4.2),
    its key and its start time come from the store.
    [INSERT INTO batch_jobs (job_id, total_files) VALUES ($1, $2)
    RETURNING id]. *)
Definition INSERT_batch_jobs (jobId : string) (totalFiles : nat)
  : statement string :=
  fun k d =>
    let i := gen_id k in
    if Schema.has_batch_job i d || Schema.has_job_id jobId d then None
    else
      let row :=
        {| Schema.b_id := i;
           Schema.job_id := jobId;
           Schema.total_files := totalFiles;
           Schema.processed_files := 0;
           Schema.successful_files := 0;
           Schema.failed_files := 0;
           Schema.status := "processing";
           Schema.results := [];
           Schema.errors := [];
           Schema.error_message := None;
           Schema.started_at := clock k;
           Schema.completed_at := None |} in
      Some (i, Schema.with_batch_jobs (Schema.batch_jobs d ++ [row]) d).

Definition createBatchJob (jobId : string) (totalFiles : nat) : M string :=
  let* client := pool_connect in
  try_finally
    (query client (INSERT_batch_jobs jobId totalFiles))
    (release client).

(** The [updates] argument of [updateBatchJob]; [None] is an absent
    property. *)
Record batch_updates : Type := {
  status : option string;
  processedFiles : option nat;
  successfulFiles : option nat;
  failedFiles : option nat;
  results : option (list Payload.Manifest);
  errors : option (list Schema.error_info);
  errorMessage : option string
}.

Inductive batch_column : Type :=
| col_status
| col_completed_at
| col_processed_files
| col_successful_files
| col_failed_files
| col_results
| col_errors
| col_error_message.

(** [col = $n] applied to a row; [None] when the parameter is missing or
    of the wrong type. *)
Definition assign (params : list param) (a : batch_column * nat)
    (r : Schema.batch_jobs_row) : option Schema.batch_jobs_row :=
  let upd st ca pf sf ff rs es em :=
    {| Schema.b_id := Schema.b_id r;
       Schema.job_id := Schema.job_id r;
       Schema.total_files := Schema.total_files r;
       Schema.processed_files := pf;
       Schema.successful_files := sf;
       Schema.failed_files := ff;
       Schema.status := st;
       Schema.results := rs;
       Schema.errors := es;
       Schema.error_message := em;
       Schema.started_at := Schema.started_at r;
       Schema.completed_at := ca |} in
  let st := Schema.status r in
  let ca := Schema.completed_at r in
  let pf := Schema.processed_files r in
  let sf := Schema.successful_files r in
  let ff := Schema.failed_files r in
  let rs := Schema.results r in
  let es := Schema.errors r in
  let em := Schema.error_message r in
  match fst a, nth_error params (Nat.pred (snd a)) with
  | col_status, Some (PText s) => Some (upd s ca pf sf ff rs es em)
  | col_completed_at, Some (PTime t) => Some (upd st (Some t) pf sf ff rs es em)
  | col_processed_files, Some (PNat n) => Some (upd st ca n sf ff rs es em)
  | col_successful_files, Some (PNat n) => Some (upd st ca pf n ff rs es em)
  | col_failed_files, Some (PNat n) => Some (upd st ca pf sf n rs es em)
  | col_results, Some (PResults l) => Some (upd st ca pf sf ff l es em)
  | col_errors, Some (PErrors l) => Some (upd st ca pf sf ff rs l em)
  | col_error_message, Some (PText s) => Some (upd st ca pf sf ff rs es (Some s))
  | _, _ => None
  end.

Fixpoint assign_all (params : list param) (setClause : list (batch_column * nat))
    (r : Schema.batch_jobs_row) : option Schema.batch_jobs_row :=
  match setClause with
  | [] => Some r
  | a :: rest =>
      match assign params a r with
      | Some r' => assign_all params rest r'
      | None => None
      end
  end.

Fixpoint update_rows (params : list param) (setClause : list (batch_column * nat))
    (jobId : string) (rows : list Schema.batch_jobs_row)
  : option (list Schema.batch_jobs_row) :=
  match rows with
  | [] => Some []
  | r :: rs =>
      match (if String.eqb (Schema.job_id r) jobId
             then assign_all params setClause r else Some r),
            update_rows params setClause jobId rs with
      | Some r', Some rs' => Some (r' :: rs')
      | _, _ => None
      end
  end.

(** [UPDATE batch_jobs SET <setClause> WHERE job_id = $n]. *)
Definition UPDATE_batch_jobs (setClause : list (batch_column * nat))
    (params : list param) (n : nat) : statement unit :=
  fun _ d =>
    match text_param params n with
    | Some jobId =>
        match update_rows params setClause jobId (Schema.batch_jobs d) with
        | Some rows => Some (tt, Schema.with_batch_jobs rows d)
        | None => None
        end
    | None => None
    end.

(** One [if (updates.x ...)] block: count, push the assignment, push the
    parameter. *)
Definition push_set {A} (x : option A) (col : batch_column) (p : A -> param)
    (s : list (batch_column * nat) * list param * nat)
  : list (batch_column * nat) * list param * nat :=
  match x with
  | Some v =>
      let '(setClause, params, paramCount) := s in
      let paramCount := S paramCount in
      (setClause ++ [(col, paramCount)], params ++ [p v], paramCount)
  | None => s
  end.

Definition updateBatchJob (jobId : string) (updates : batch_updates) : M unit :=
  let* client := pool_connect in
  try_finally
    (let* date := now in
     let s := ([], [], 0%nat) in
     let s := push_set (status updates) col_status PText s in
     let s :=
       match status updates with
       | Some st =>
           if String.eqb st "completed"
           then push_set (Some date) col_completed_at PTime s else s
       | None => s
       end in
     let s := push_set (processedFiles updates) col_processed_files PNat s in
     let s := push_set (successfulFiles updates) col_successful_files PNat s in
     let s := push_set (failedFiles updates) col_failed_files PNat s in
     let s := push_set (results updates) col_results PResults s in
     let s := push_set (errors updates) col_errors PErrors s in
     let s := push_set (given (errorMessage updates)) col_error_message PText s in
     let '(setClause, params, paramCount) := s in
     match setClause with
     | [] => ret tt
     | _ :: _ =>
         let paramCount := S paramCount in
         let params := params ++ [PText jobId] in
         query client (UPDATE_batch_jobs setClause params paramCount)
     end)
    (release client).

(** Modelled from the spec: [batch_job_manifests(batch_job_id FK,
    manifest_id FK, processing_order int)].
    [INSERT INTO batch_job_manifests (batch_job_id, manifest_id,
    processing_order) SELECT bj.id, $2, $3 FROM batch_jobs bj WHERE
    bj.job_id = $1]. *)
Definition INSERT_batch_job_manifests (jobId manifestId : string) (order : nat)
  : statement unit :=
  fun _ d =>
    let links :=
      map (fun bj =>
             {| Schema.batch_job_id := Schema.b_id bj;
                Schema.l_manifest_id := manifestId;
                Schema.processing_order := order |})
          (List.filter (fun bj => String.eqb (Schema.job_id bj) jobId)
                  (Schema.batch_jobs d)) in
    match links with
    | [] => Some (tt, d)
    | _ :: _ =>
        if Schema.has_manifest manifestId d then
          Some (tt, Schema.with_batch_job_manifests
                      (Schema.batch_job_manifests d ++ links) d)
        else None
    end.

Definition linkBatchManifest (jobId manifestId : string) (order : nat)
  : M unit :=
  let* client := pool_connect in
  try_finally
    (query client (INSERT_batch_job_manifests jobId manifestId order))
    (release client).

(** [SELECT * FROM batch_jobs WHERE job_id = $1]. *)
Definition SELECT_batch_job (jobId : string)
  : statement (list Schema.batch_jobs_row) :=
  fun _ d =>
    Some (List.filter (fun r => String.eqb (Schema.job_id r) jobId)
                 (Schema.batch_jobs d), d).

Definition getBatchJob (jobId : string) : M (option Schema.batch_jobs_row) :=
  let* client := pool_connect in
  try_finally
    (let* result := query client (SELECT_batch_job jobId) in
     ret (match result with
          | r :: _ => Some r
          | [] => None
          end))
    (release client).

(** ** [getStatistics] *)

Record manifest_stats : Type := {
  total_manifests : nat;
  unique_dates : nat;
  unique_drivers : nat;
  total_deliveries : option nat;
  avg_deliveries_per_manifest : option Q
}.

Record recent_stats : Type := {
  recent_manifests : nat;
  last_processed : option Z
}.

Record batch_stats : Type := {
  total_batch_jobs : nat;
  completed_jobs : nat;
  failed_jobs : nat;
  processing_jobs : nat
}.

Record statistics : Type := {
  manifests : manifest_stats;
  recent_activity : recent_stats;
  batch_processing : batch_stats
}.

(** The values of a list without repetitions, first occurrences kept. *)
Fixpoint distinct {A} (eqb : A -> A -> bool) (l : list A) : list A :=
  match l with
  | [] => []
  | x :: l' => x :: List.filter (fun y => negb (eqb x y)) (distinct eqb l')
  end.

Fixpoint non_null {A} (l : list (option A)) : list A :=
  match l with
  | [] => []
  | Some x :: l' => x :: non_null l'
  | None :: l' => non_null l'
  end.

(** [COUNT(DISTINCT col)]: nulls are not counted. *)
Definition count_distinct {A} (eqb : A -> A -> bool) (l : list (option A))
  : nat :=
  length (distinct eqb (non_null l)).

Definition sum_nat (l : list nat) : nat := fold_right Nat.add 0%nat l.

(** [SUM(col)] and [AVG(col)]: null over no rows. *)
Definition SUM (l : list nat) : option nat :=
  match l with
  | [] => None
  | _ :: _ => Some (sum_nat l)
  end.

Definition AVG (l : list nat) : option Q :=
  match l with
  | [] => None
  | _ :: _ =>
      Some (Qred (Z.of_nat (sum_nat l) # Pos.of_nat (length l)))
  end.

Definition MAX (l : list Z) : option Z :=
  match l with
  | [] => None
  | x :: l' => Some (fold_right Z.max x l')
  end.

(** [SELECT COUNT( * ), COUNT(DISTINCT planned_delivery_date),
    COUNT(DISTINCT vehicle_driver), SUM(delivery_count),
    AVG(delivery_count) FROM manifests WHERE planned_delivery_date IS NOT
    NULL]. *)
Definition SELECT_manifest_stats : statement manifest_stats :=
  fun _ d =>
    let rows :=
      List.filter (fun r => match Schema.planned_delivery_date r with
                       | Some _ => true
                       | None => false
                       end)
             (Schema.manifests d) in
    Some ({| total_manifests := length rows;
             unique_dates :=
               count_distinct JS.date_eqb
                 (map Schema.planned_delivery_date rows);
             unique_drivers :=
               count_distinct String.eqb
                 (map (fun r => Some (Schema.vehicle_driver r)) rows);
             total_deliveries := SUM (map Schema.delivery_count rows);
             avg_deliveries_per_manifest :=
               AVG (map Schema.delivery_count rows) |}, d).

(** [SELECT COUNT( * ), MAX(processed_at) FROM manifests WHERE processed_at
    > NOW() - INTERVAL '24 hours']. *)
Definition SELECT_recent_stats : statement recent_stats :=
  fun k d =>
    let rows :=
      List.filter (fun r => clock k - 24 * 3600000 <? Schema.processed_at r)
             (Schema.manifests d) in
    Some ({| recent_manifests := length rows;
             last_processed := MAX (map Schema.processed_at rows) |}, d).

Definition count_status (st : string) (rows : list Schema.batch_jobs_row) : nat :=
  length (List.filter (fun r => String.eqb (Schema.status r) st) rows).

(** [SELECT COUNT( * ), COUNT( * ) FILTER (WHERE status = 'completed'), ...
    FROM batch_jobs]. *)
Definition SELECT_batch_stats : statement batch_stats :=
  fun _ d =>
    let rows := Schema.batch_jobs d in
    Some ({| total_batch_jobs := length rows;
             completed_jobs := count_status "completed" rows;
             failed_jobs := count_status "failed" rows;
             processing_jobs := count_status "processing" rows |}, d).

Definition getStatistics : M statistics :=
  let* client := pool_connect in
  try_finally
    (let* manifestStats := query client SELECT_manifest_stats in
     let* recentStats := query client SELECT_recent_stats in
     let* batchStats := query client SELECT_batch_stats in
     ret {| manifests := manifestStats;
            recent_activity := recentStats;
            batch_processing := batchStats |})
    (release client).

(** ** [DatabaseConfig] and [initialize] *)

(** A configuration value: a primitive, or an object given by its
    properties. *)
Inductive setting : Type :=
| Prim (v : JS.value)
| Object (props : list (string * JS.value)).

Definition setting_truthy (s : setting) : bool :=
  match s with
  | Prim v => JS.truthy v
  | Object _ => true
  end.

(** [a || b] on settings. *)
Definition setting_or (a b : setting) : setting :=
  if setting_truthy a then a else b.

(** The [options] argument of the constructor of [DatabaseConfig], and the
    configuration it builds; an absent property is [undefined]. *)
Record config : Type := {
  host : JS.value;
  port : JS.value;
  database : JS.value;
  user : JS.value;
  password : JS.value;
  ssl : setting;
  maxConnections : JS.value
}.

(** [process.env.NAME]. *)
Definition env_var (env : string -> option string) (name : string) : JS.value :=
  match env name with
  | Some s => JS.Str s
  | None => JS.Undefined
  end.

(** [{ rejectUnauthorized: false }]. *)
Definition no_verify : setting :=
  Object [("rejectUnauthorized", JS.Bool false)].

(** [new DatabaseConfig(options)] in the environment [env]. *)
Definition DatabaseConfig (options : config) (env : string -> option string)
  : config :=
  {| host := JS.or (JS.or (host options) (env_var env "DB_HOST"))
                   (JS.Str "localhost");
     port := JS.or (JS.or (port options) (env_var env "DB_PORT"))
                   (JS.Num (JS.of_Z 5432));
     database := JS.or (JS.or (database options) (env_var env "DB_NAME"))
                       (JS.Str "manifest_db");
     user := JS.or (JS.or (user options) (env_var env "DB_USER"))
                   (JS.Str "postgres");
     password := JS.or (JS.or (password options) (env_var env "DB_PASSWORD"))
                       (JS.Str "");
     ssl := setting_or (ssl options)
              (if JS.value_eqb (env_var env "NODE_ENV") (JS.Str "production")
               then no_verify else Prim (JS.Bool false));
     maxConnections :=
       JS.or (JS.or (maxConnections options)
                    (env_var env "DB_MAX_CONNECTIONS"))
             (JS.Num (JS.of_Z 10)) |}.

(** The default [options = {}]. *)
Definition no_options : config :=
  {| host := JS.Undefined; port := JS.Undefined; database := JS.Undefined;
     user := JS.Undefined; password := JS.Undefined;
     ssl := Prim JS.Undefined; maxConnections := JS.Undefined |}.

(** [DatabaseConfig.fromEnv()]. *)
Definition fromEnv (env : string -> option string) : config :=
  DatabaseConfig no_options env.

(** The object [initialize] passes to [new Pool]. *)
Record pool_options : Type := {
  pool_host : JS.value;
  pool_port : JS.value;
  pool_database : JS.value;
  pool_user : JS.value;
  pool_password : JS.value;
  pool_ssl : setting;
  pool_max : JS.value;
  idleTimeoutMillis : Z;
  connectionTimeoutMillis : Z
}.

Definition new_Pool (config : config) : pool_options :=
  {| pool_host := host config;
     pool_port := port config;
     pool_database := database config;
     pool_user := user config;
     pool_password := password config;
     pool_ssl := setting_or (ssl config) no_verify;
     pool_max := JS.or (maxConnections config) (JS.Num (JS.of_Z 10));
     idleTimeoutMillis := 30000;
     connectionTimeoutMillis := 2000 |}.

(** [SELECT NOW()]. *)
Definition SELECT_NOW : statement Z := fun k d => Some (clock k, d).

(** [initialize]: the pool is created from [new_Pool this.config], then
    probed.  The probe's connection is released after the query, outside
    any [finally]. *)
Definition initialize : M unit :=
  try_catch
    (let* client := pool_connect in
     query client SELECT_NOW ;;
     release client ;;
     console_log "Database connection pool initialized")
    (fun error =>
       console_error "Failed to initialize database pool:" error ;;
       throw error).

End WithEnv.

End DatabaseService.

(* ===================================================================== *)
(** * server.js *)
(* ===================================================================== *)

Module Server.

Import Runtime.
Local Open Scope js_scope.

(** An uploaded file as multer describes it. *)
Record file : Type := {
  path : string;
  originalname : string;
  size : Z
}.

(** What a handler sends: [res.json(body)], or [res.status(code).json({
    error })]. *)
Inductive response (A : Type) : Type :=
| Json (body : A)
| Status (code : nat) (error : string).
Arguments Json {A} body.
Arguments Status {A} code error.

(** ** The job objects *)

Definition push_result (x : Payload.Manifest) (j : JobStatus) : JobStatus :=
  {| status := status j; total_files := total_files j;
     processed_files := processed_files j;
     results := results j ++ [x]; errors := errors j;
     started_at := started_at j; store_in_db := store_in_db j;
     completed_at := completed_at j; error := error j;
     failed_at := failed_at j |}.

Definition push_error (x : Schema.error_info) (j : JobStatus) : JobStatus :=
  {| status := status j; total_files := total_files j;
     processed_files := processed_files j;
     results := results j; errors := errors j ++ [x];
     started_at := started_at j; store_in_db := store_in_db j;
     completed_at := completed_at j; error := error j;
     failed_at := failed_at j |}.

Definition incr_processed (j : JobStatus) : JobStatus :=
  {| status := status j; total_files := total_files j;
     processed_files := S (processed_files j);
     results := results j; errors := errors j;
     started_at := started_at j; store_in_db := store_in_db j;
     completed_at := completed_at j; error := error j;
     failed_at := failed_at j |}.

Definition set_status (s : string) (j : JobStatus) : JobStatus :=
  {| status := s; total_files := total_files j;
     processed_files := processed_files j;
     results := results j; errors := errors j;
     started_at := started_at j; store_in_db := store_in_db j;
     completed_at := completed_at j; error := error j;
     failed_at := failed_at j |}.

Definition set_completed_at (t : Z) (j : JobStatus) : JobStatus :=
  {| status := status j; total_files := total_files j;
     processed_files := processed_files j;
     results := results j; errors := errors j;
     started_at := started_at j; store_in_db := store_in_db j;
     completed_at := Some t; error := error j;
     failed_at := failed_at j |}.

Definition set_error (msg : string) (j : JobStatus) : JobStatus :=
  {| status := status j; total_files := total_files j;
     processed_files := processed_files j;
     results := results j; errors := errors j;
     started_at := started_at j; store_in_db := store_in_db j;
     completed_at := completed_at j; error := Some msg;
     failed_at := failed_at j |}.

Definition set_failed_at (t : Z) (j : JobStatus) : JobStatus :=
  {| status := status j; total_files := total_files j;
     processed_files := processed_files j;
     results := results j; errors := errors j;
     started_at := started_at j; store_in_db := store_in_db j;
     completed_at := completed_at j; error := error j;
     failed_at := Some t |}.

Definition TypeError_undefined : JS.error :=
  JS.Error "Cannot read properties of undefined".

(** [batchJobs.get(jobId)]: a reference to the job object, or
    [undefined]. *)
Definition batchJobs_get (jobId : string) : M (option nat) :=
  fun w => (Return (batchJobs w !! jobId), w).

(** An assignment to, or a [push] on, a property of the object [job]
    refers to; a TypeError when [job] is [undefined]. *)
Definition job_update (job : option nat) (f : JobStatus -> JobStatus) : M unit :=
  fun w =>
    match job with
    | Some l =>
        match heap w !! l with
        | Some j => (Return tt, with_heap (<[l := f j]> (heap w)) w)
        | None => (Throw TypeError_undefined, w)
        end
    | None => (Throw TypeError_undefined, w)
    end.

(** Reading a property of the object [job] refers to. *)
Definition job_read {A} (job : option nat) (f : JobStatus -> A) : M A :=
  fun w =>
    match job with
    | Some l =>
        match heap w !! l with
        | Some j => (Return (f j), w)
        | None => (Throw TypeError_undefined, w)
        end
    | None => (Throw TypeError_undefined, w)
    end.

(** ** The local variables of the batch processor *)

Definition get_frame {A} (f : Frame -> A) : M A :=
  fun w => (Return (f (frame w)), w).

Definition set_frame (f : Frame -> Frame) : M unit :=
  fun w => (Return tt, with_frame (f (frame w)) w).

Definition incr_successful (f : Frame) : Frame :=
  {| successfulFiles := S (successfulFiles f); failedFiles := failedFiles f;
     extractedData := extractedData f |}.

Definition incr_failed (f : Frame) : Frame :=
  {| successfulFiles := successfulFiles f; failedFiles := S (failedFiles f);
     extractedData := extractedData f |}.

Definition assign_extractedData (x : Payload.Manifest) (f : Frame) : Frame :=
  {| successfulFiles := successfulFiles f; failedFiles := failedFiles f;
     extractedData := Some x |}.

(** A property assignment on the object [extractedData] is bound to. *)
Definition update_extractedData (g : Payload.Manifest -> Payload.Manifest)
  : M unit :=
  fun w =>
    match extractedData (frame w) with
    | Some x => (Return tt, with_frame (assign_extractedData (g x) (frame w)) w)
    | None => (Throw TypeError_undefined, w)
    end.

Definition read_extractedData : M Payload.Manifest :=
  fun w =>
    match extractedData (frame w) with
    | Some x => (Return x, w)
    | None => (Throw TypeError_undefined, w)
    end.

Section WithEnv.
Context {E : Env}.

(** ** [GET /manifests/:manifestId] *)

Definition get_manifest (manifestId : string)
  : M (response DatabaseService.manifest) :=
  try_catch
    (let* manifest :=
       if (String.length manifestId =? 36)%nat && JS.includes "-" manifestId
       then DatabaseService.getManifestById manifestId
       else DatabaseService.getManifestByRef manifestId in
     match manifest with
     | None => ret (Status 404 "Manifest not found")
     | Some m => ret (Json m)
     end)
    (fun error =>
       console_error "Error retrieving manifest:" error ;;
       ret (Status 500 "Error retrieving manifest")).

(** ** [processBatchInBackground] *)

(** The block [if (storeInDb) { try { ... } catch (dbError) { ... } }] of
    the loop body, when [storeInDb] holds. *)
Definition store_extracted (jobId : string) (order : nat)
    (processingInfo : Payload.ProcessingInfo) : M unit :=
  try_catch
    (let* extractedData := read_extractedData in
     let* databaseId :=
       DatabaseService.storeManifest extractedData processingInfo in
     update_extractedData (Payload.set_database_id databaseId) ;;
     DatabaseService.linkBatchManifest jobId databaseId (order + 1) ;;
     console_log ("Stored manifest " +:+
                  JS.to_string (Payload.manifest_id extractedData) +:+
                  " in database"))
    (fun dbError =>
       console_error "Failed to store manifest in database:" dbError ;;
       update_extractedData
         (Payload.set_database_error (JS.message dbError))).

(** The body of the [for] loop. *)
Definition process_file (job : option nat) (jobId : string) (storeInDb : bool)
    (order : nat) (file : file) : M unit :=
  try_catch
    (let* data := extract (path file) in
     set_frame (assign_extractedData data) ;;
     let* t := now in
     let processingInfo :=
       {| Payload.filename := originalname file;
          Payload.file_size_bytes := size file;
          Payload.processed_at := t;
          Payload.delivery_count :=
            length (Payload.deliveries_or_empty data) |} in
     update_extractedData (Payload.set_processing_info processingInfo) ;;
     (if storeInDb then store_extracted jobId order processingInfo
      else ret tt) ;;
     let* extractedData := read_extractedData in
     job_update job (push_result extractedData) ;;
     set_frame incr_successful)
    (fun processingError =>
       let* t := now in
       let errorInfo :=
         {| Schema.filename := originalname file;
            Schema.error := JS.message processingError;
            Schema.timestamp := t |} in
       job_update job (push_error errorInfo) ;;
       set_frame incr_failed ;;
       console_error ("Error processing " +:+ originalname file +:+ ":")
                     processingError) ;;
  try_catch
    (unlink (path file))
    (fun cleanupError =>
       console_warn ("Failed to clean up " +:+ originalname file +:+ ":")) ;;
  job_update job incr_processed.

(** What follows the loop: the job is marked completed, in memory and
    then, when [storeInDb] holds, in the store. *)
Definition complete_job (job : option nat) (jobId : string)
    (files : list file) (storeInDb : bool) : M unit :=
  job_update job (set_status "completed") ;;
  let* t := now in
  job_update job (set_completed_at t) ;;
  (if storeInDb then
     try_catch
       (let* successfulFiles := get_frame successfulFiles in
        let* failedFiles := get_frame failedFiles in
        let* results := job_read job results in
        let* errors := job_read job errors in
        DatabaseService.updateBatchJob jobId
          {| DatabaseService.status := Some "completed";
             DatabaseService.processedFiles := Some (length files);
             DatabaseService.successfulFiles := Some successfulFiles;
             DatabaseService.failedFiles := Some failedFiles;
             DatabaseService.results := Some results;
             DatabaseService.errors := Some errors;
             DatabaseService.errorMessage := None |})
       (fun dbError =>
          console_error "Failed to update batch job in database:" dbError)
   else ret tt) ;;
  let* successfulFiles := get_frame successfulFiles in
  let* failedFiles := get_frame failedFiles in
  console_log ("Batch job " +:+ jobId +:+ " completed: " +:+
               DatabaseService.decimal successfulFiles +:+ " successful, " +:+
               DatabaseService.decimal failedFiles +:+ " failed").

(** The outer [catch]: the job is marked failed. *)
Definition fail_job (job : option nat) (jobId : string) (storeInDb : bool)
    (error : JS.error) : M unit :=
  job_update job (set_status "failed") ;;
  job_update job (set_error (JS.message error)) ;;
  let* t := now in
  job_update job (set_failed_at t) ;;
  console_error ("Batch job " +:+ jobId +:+ " failed:") error ;;
  (if storeInDb then
     try_catch
       (DatabaseService.updateBatchJob jobId
          {| DatabaseService.status := Some "failed";
             DatabaseService.processedFiles := None;
             DatabaseService.successfulFiles := None;
             DatabaseService.failedFiles := None;
             DatabaseService.results := None;
             DatabaseService.errors := None;
             DatabaseService.errorMessage := Some (JS.message error) |})
       (fun dbError =>
          console_error "Failed to update failed batch job in database:"
                        dbError)
   else ret tt).

Definition processBatchInBackground (jobId : string) (files : list file)
    (storeInDb : bool) : M unit :=
  let* job := batchJobs_get jobId in
  set_frame (fun f => {| successfulFiles := 0; failedFiles := 0;
                         extractedData := extractedData f |}) ;;
  try_catch
    (for_each 0 files (process_file job jobId storeInDb) ;;
     complete_job job jobId files storeInDb)
    (fail_job job jobId storeInDb).

(** ** [POST /extract/batch] *)

Record batch_started : Type := {
  job_id : string;
  status_ : string;
  total_files_ : nat;
  message : string;
  store_in_db_ : bool
}.

(** [batchJobs.set(jobId, jobStatus)] with a newly created object. *)
Definition batchJobs_set_new (jobId : string) (jobStatus : JobStatus) : M unit :=
  fun w =>
    let l := fresh (dom (heap w)) in
    (Return tt,
     with_batchJobs (<[jobId := l]> (batchJobs w))
       (with_heap (<[l := jobStatus]> (heap w)) w)).

Definition extract_batch (files : list file) (store_in_db : option string)
  : M (response batch_started) :=
  try_catch
    (match files with
     | [] => ret (Status 400 "No PDF files provided")
     | _ :: _ =>
         let storeInDb :=
           match store_in_db with
           | Some q => negb (String.eqb q "false")
           | None => true
           end in
         let* jobId := uuidv4 in
         let* t := now in
         let jobStatus :=
           {| status := "processing";
              total_files := length files;
              processed_files := 0;
              results := [];
              errors := [];
              started_at := t;
              store_in_db := storeInDb;
              completed_at := None;
              error := None;
              failed_at := None |} in
         batchJobs_set_new jobId jobStatus ;;
         (if storeInDb then
            try_catch
              (DatabaseService.createBatchJob jobId (length files) ;; ret tt)
              (fun dbError =>
                 console_error "Failed to create batch job in database:"
                               dbError)
          else ret tt) ;;
         detached (processBatchInBackground jobId files storeInDb) ;;
         ret (Json {| job_id := jobId;
                      status_ := "processing";
                      total_files_ := length files;
                      message := "Batch processing started";
                      store_in_db_ := storeInDb |})
     end)
    (fun error =>
       console_error "Error starting batch processing:" error ;;
       ret (Status 500 ("Error starting batch processing: " +:+
                        JS.message error))).

(** ** [GET /batch/status/:jobId] *)

Record database_job_view : Type := {
  v_job_id : string;
  v_status : string;
  v_total_files : nat;
  v_processed_files : nat;
  v_successful_files : nat;
  v_failed_files : nat;
  v_started_at : Z;
  v_completed_at : option Z
}.

Inductive job_view : Type :=
| FromMemory (j : JobStatus)
| FromDatabase (v : database_job_view).

Definition batch_status (jobId : string) : M (response job_view) :=
  try_catch
    (let* job := batchJobs_get jobId in
     match job with
     | Some _ =>
         let* j := job_read job (fun j => j) in
         ret (Json (FromMemory j))
     | None =>
         let* found :=
           try_catch
             (let* dbJob := DatabaseService.getBatchJob jobId in
              ret (option_map
                     (fun r =>
                        {| v_job_id := jobId;
                           v_status := Schema.status r;
                           v_total_files := Schema.total_files r;
                           v_processed_files := Schema.processed_files r;
                           v_successful_files := Schema.successful_files r;
                           v_failed_files := Schema.failed_files r;
                           v_started_at := Schema.started_at r;
                           v_completed_at := Schema.completed_at r |})
                     dbJob))
             (fun dbError =>
                console_error "Error retrieving batch job from database:"
                              dbError ;;
                ret None) in
         match found with
         | Some v => ret (Json (FromDatabase v))
         | None => ret (Status 404 "Job ID not found")
         end
     end)
    (fun error =>
       console_error "Error getting batch status:" error ;;
       ret (Status 500 "Error retrieving batch status")).

End WithEnv.

(** The lines of the console are given by their text: the pictogram with
    which [server.js] begins most of them is left out, and so is the error
    that is passed to [console.warn]. *)

Section MoreHandlers.
Context {E : Env}.

(** ** [GET /deliveries] *)

(** The query string of the request, as far as the handler reads it; a
    parameter that is not given is [undefined]. *)
Record deliveries_query : Type := {
  q_postcode : option string;
  q_contact_name : option string;
  q_booking_ref : option string;
  q_limit : option string;
  q_offset : option string
}.

Definition query_param (q : option string) : JS.value :=
  match q with
  | Some s => JS.Str s
  | None => JS.Undefined
  end.

(** The integer a number stands for.  [parseInt(q) || d] is always an
    integer: [parseInt] gives an integer or [NaN], and [NaN] is falsy. *)
Definition integer (v : JS.value) : Z :=
  match v with
  | JS.Num (JS.Dec m e) => JS.trunc m e
  | _ => 0
  end.

(** [parseInt(q) || d]. *)
Definition parseInt_or (q : option string) (d : Z) : Z :=
  integer (JS.or (JS.Num (JS.parseInt (query_param q))) (JS.Num (JS.of_Z d))).

(** The body of the answer: the rows, their number, the filters and the
    pagination that were used. *)
Record deliveries_found : Type := {
  found : list (Schema.deliveries_row * Schema.manifests_row);
  total_returned : nat;
  echo_postcode : option string;
  echo_contact_name : option string;
  echo_booking_ref : option string;
  pagination_limit : Z;
  pagination_offset : Z
}.

Definition search_deliveries (q : deliveries_query)
  : M (response deliveries_found) :=
  try_catch
    (let limit := parseInt_or (q_limit q) 100 in
     let offset := parseInt_or (q_offset q) 0 in
     let filters :=
       {| DatabaseService.postcode := q_postcode q;
          DatabaseService.contactName := q_contact_name q;
          DatabaseService.bookingRef := q_booking_ref q;
          DatabaseService.limit := Some limit;
          DatabaseService.offset := Some offset |} in
     let* results := DatabaseService.searchDeliveries filters in
     ret (Json {| found := results;
                  total_returned := length results;
                  echo_postcode := q_postcode q;
                  echo_contact_name := q_contact_name q;
                  echo_booking_ref := q_booking_ref q;
                  pagination_limit := limit;
                  pagination_offset := offset |}))
    (fun error =>
       console_error "Error searching deliveries:" error ;;
       ret (Status 500 "Error searching deliveries")).

(** ** [DELETE /batch/:jobId] *)

Definition delete_batch (jobId : string) : M (response string) :=
  fun w =>
    match batchJobs w !! jobId with
    | Some _ =>
        (Return (Json ("Job " +:+ jobId +:+ " deleted from memory")),
         with_batchJobs (delete jobId (batchJobs w)) w)
    | None => (Return (Status 404 "Job ID not found in memory"), w)
    end.

(** ** [GET /batch/results/:jobId] *)

Record results_summary : Type := {
  summary_total_files : nat;
  summary_successful : nat;
  summary_failed : nat;
  summary_errors : list Schema.error_info
}.

(** [source] is present, and is [database], when the answer was read from
    the store. *)
Record batch_results_body : Type := {
  results_job_id : string;
  results_ : list Payload.Manifest;
  summary : results_summary;
  source : option string
}.

Definition batch_results (jobId : string) : M (response batch_results_body) :=
  try_catch
    (let* job := batchJobs_get jobId in
     match job with
     | Some _ =>
         let* j := job_read job (fun j => j) in
         if negb (String.eqb (status j) "completed") then
           ret (Status 400
                  ("Job is not completed. Current status: " +:+ status j))
         else
           ret (Json {| results_job_id := jobId;
                        results_ := results j;
                        summary :=
                          {| summary_total_files := total_files j;
                             summary_successful := length (results j);
                             summary_failed := length (errors j);
                             summary_errors := errors j |};
                        source := None |})
     | None =>
         try_catch
           (let* dbJob := DatabaseService.getBatchJob jobId in
            match dbJob with
            | None => ret (Status 404 "Job ID not found")
            | Some r =>
                if negb (String.eqb (Schema.status r) "completed") then
                  ret (Status 400
                         ("Job is not completed. Current status: " +:+
                          Schema.status r))
                else
                  ret (Json {| results_job_id := jobId;
                               results_ := Schema.results r;
                               summary :=
                                 {| summary_total_files := Schema.total_files r;
                                    summary_successful :=
                                      Schema.successful_files r;
                                    summary_failed := Schema.failed_files r;
                                    summary_errors := Schema.errors r |};
                               source := Some "database" |})
            end)
           (fun dbError =>
              console_error "Error retrieving batch results from database:"
                            dbError ;;
              ret (Status 500 "Error retrieving batch results"))
     end)
    (fun error =>
       console_error "Error getting batch results:" error ;;
       ret (Status 500 "Error retrieving batch results")).

(** ** [POST /extract/single] *)

(** [try { await fs.unlink(path) } catch (cleanupError) { console.warn(...)
    }]. *)
Definition clean_up (path warning : string) : M unit :=
  try_catch (unlink path) (fun cleanupError => console_warn warning).

(** [extractedData] is one object, updated in place; its successive
    states are bound to the same name here. *)
Definition extract_single (file : option file) (store_in_db : option string)
  : M (response Payload.Manifest) :=
  try_catch
    (match file with
     | None => ret (Status 400 "No PDF file provided")
     | Some f =>
         let storeInDb :=
           match store_in_db with
           | Some q => negb (String.eqb q "false")
           | None => true
           end in
         let filePath := path f in
         let filename := originalname f in
         let fileSize := size f in
         try_finally
           (let* extractedData := extract filePath in
            let* t := now in
            let processingInfo :=
              {| Payload.filename := filename;
                 Payload.file_size_bytes := fileSize;
                 Payload.processed_at := t;
                 Payload.delivery_count :=
                   length (Payload.deliveries_or_empty extractedData) |} in
            let extractedData :=
              Payload.set_processing_info processingInfo extractedData in
            let* extractedData :=
              if storeInDb then
                try_catch
                  (let* databaseId :=
                     DatabaseService.storeManifest extractedData
                       processingInfo in
                   let extractedData :=
                     Payload.set_database_id databaseId extractedData in
                   console_log ("Stored manifest " +:+
                                JS.to_string
                                  (Payload.manifest_id extractedData) +:+
                                " in database with ID " +:+ databaseId) ;;
                   ret extractedData)
                  (fun dbError =>
                     console_error "Failed to store manifest in database:"
                                   dbError ;;
                     ret (Payload.set_database_error (JS.message dbError)
                            extractedData))
              else ret extractedData in
            ret (Json extractedData))
           (clean_up filePath "Failed to clean up uploaded file:")
     end)
    (fun error =>
       console_error "Error processing single PDF:" error ;;
       match file with
       | Some f =>
           if JS.truthy (JS.Str (path f)) then
             clean_up (path f) "Failed to clean up uploaded file on error:"
           else ret tt
       | None => ret tt
       end ;;
       ret (Status 500 ("Error processing PDF: " +:+ JS.message error))).

End MoreHandlers.

(** ** [POST /validate/pdf] *)

(** The bytes of the files on disk, by path. *)
Class Disk : Type := {
  content : string -> string
}.

Section Validation.
Context {E : Env} {D : Disk}.

(** [fs.readFile(path)]. *)
Definition readFile (path : string) : M string :=
  external ;;
  fun w =>
    if decide (path ∈ files w) then (Return (content path), w)
    else (Throw (JS.Error "ENOENT: no such file or directory"), w).

Fixpoint clear_high_bits (s : string) : string :=
  match s with
  | EmptyString => EmptyString
  | String c r =>
      String (ascii_of_nat (nat_of_ascii c mod 128)) (clear_high_bits r)
  end.

(** [buf.toString('ascii', start, end)]: the bytes from [start] up to [end],
    each with its high bit cleared. *)
Definition toString_ascii (start end_ : nat) (buf : string) : string :=
  clear_high_bits (String.substring start (end_ - start) buf).

(** The body of the answer: [{ valid: true, file_size_bytes, filename }] or
    [{ valid: false, reason }]. *)
Inductive verdict : Type :=
| Valid (file_size_bytes : Z) (filename : string)
| Invalid (reason : string).

Definition validate_pdf (file : option file) : M (response verdict) :=
  try_catch
    (match file with
     | None => ret (Json (Invalid "No file provided"))
     | Some f =>
         if negb (JS.endsWith ".pdf" (JS.toLowerCase (originalname f))) then
           ret (Json (Invalid "File is not a PDF"))
         else
           try_finally
             (let* fileBuffer := readFile (path f) in
              if negb (JS.startsWith "%PDF" (toString_ascii 0 4 fileBuffer))
              then ret (Json (Invalid "File is not a valid PDF"))
              else ret (Json (Valid (size f) (originalname f))))
             (clean_up (path f) "Failed to clean up validation file:")
     end)
    (fun error =>
       match file with
       | Some f =>
           if JS.truthy (JS.Str (path f)) then
             clean_up (path f)
               "Failed to clean up validation file on error:"
           else ret tt
       | None => ret tt
       end ;;
       ret (Json (Invalid ("Error reading file: " +:+ JS.message error)))).

End Validation.

End Server.

(* ===================================================================== *)
(** * Properties *)
(* ===================================================================== *)

Import Runtime.
Local Open Scope js_scope.

(** ** What a computation leaves unchanged *)

(** [preserves f m]: running [m] never changes the component [f] of the
    state, however it ends. *)
Definition preserves {X A} (f : World -> X) (m : M A) : Prop :=
  forall w, f (snd (m w)) = f w.

Section Preserves.
Context {X : Type} (f : World -> X).

Lemma preserves_ret {A} (a : A) : preserves f (ret a).
Proof. intros w; reflexivity. Qed.

Lemma preserves_throw {A} (e : JS.error) : preserves f (@throw A e).
Proof. intros w; reflexivity. Qed.

Lemma preserves_bind {A B} (m : M A) (k : A -> M B) :
  preserves f m -> (forall a, preserves f (k a)) -> preserves f (bind m k).
Proof.
  intros Hm Hk w. unfold bind. specialize (Hm w).
  destruct (m w) as [[a|e] w1]; simpl in *.
  - rewrite Hk. exact Hm.
  - exact Hm.
Qed.

Lemma preserves_try_catch {A} (m : M A) (h : JS.error -> M A) :
  preserves f m -> (forall e, preserves f (h e)) -> preserves f (try_catch m h).
Proof.
  intros Hm Hh w. unfold try_catch. specialize (Hm w).
  destruct (m w) as [[a|e] w1]; simpl in *.
  - exact Hm.
  - rewrite Hh. exact Hm.
Qed.

Lemma preserves_try_finally {A} (m : M A) (fin : M unit) :
  preserves f m -> preserves f fin -> preserves f (try_finally m fin).
Proof.
  intros Hm Hf w. unfold try_finally. specialize (Hm w).
  destruct (m w) as [r w1]; simpl in *. specialize (Hf w1).
  destruct (fin w1) as [[u|e] w2]; simpl in *; congruence.
Qed.

Lemma preserves_for_each {A} (body : nat -> A -> M unit) (l : list A) :
  (forall i x, preserves f (body i x)) ->
  forall i, preserves f (for_each i l body).
Proof.
  intros Hb. induction l as [|x l IH]; intros i; simpl.
  - apply preserves_ret.
  - apply preserves_bind; [apply Hb | intros _; apply IH].
Qed.

Lemma preserves_detached (m : M unit) :
  preserves f m -> preserves f (detached m).
Proof. intros Hm w. unfold detached; simpl. apply Hm. Qed.

End Preserves.

(** The components the store operations never touch. *)
Definition process_state (w : World)
  : gmap nat JobStatus * gmap string nat * gset string * Frame :=
  (heap w, batchJobs w, files w, frame w).

(** A component that does not depend on the content of the store, on the
    transaction, on the call counter or on the console. *)
Class IgnoresStore {X} (f : World -> X) : Prop := {
  ignores_tick : forall n w, f (with_tick n w) = f w;
  ignores_db : forall d w, f (with_db d w) = f w;
  ignores_txn : forall t w, f (with_txn t w) = f w;
  ignores_console : forall c w, f (with_console c w) = f w
}.

(** A component that does not depend on the pool either. *)
Class IgnoresPool {X} (f : World -> X) : Prop := {
  ignores_in_use : forall n w, f (with_in_use n w) = f w
}.

#[global] Instance process_state_ignores_store : IgnoresStore process_state.
Proof. split; reflexivity. Qed.

#[global] Instance process_state_ignores_pool : IgnoresPool process_state.
Proof. split; reflexivity. Qed.

#[global] Instance in_use_ignores_store : IgnoresStore in_use.
Proof. split; reflexivity. Qed.

Section StoreFacts.
Context {E : Env}.

Lemma external_run (w : World) :
  external w =
  match fault (tick w) with
  | Some msg => (Throw (JS.Error msg), with_tick (S (tick w)) w)
  | None => (Return (tick w), with_tick (S (tick w)) w)
  end.
Proof. reflexivity. Qed.

Section Blind.
Context {X : Type} (f : World -> X) {Hs : IgnoresStore f}.

Lemma preserves_external : preserves f external.
Proof.
  intros w. rewrite external_run.
  destruct (fault (tick w)); simpl; apply ignores_tick.
Qed.

Lemma preserves_now : preserves f now.
Proof. intros w; reflexivity. Qed.

Lemma preserves_console_log msg : preserves f (console_log msg).
Proof. intros w; simpl. apply ignores_console. Qed.

Lemma preserves_console_warn msg : preserves f (console_warn msg).
Proof. intros w; simpl. apply ignores_console. Qed.

Lemma preserves_console_error msg e : preserves f (console_error msg e).
Proof. intros w; simpl. apply ignores_console. Qed.

Lemma preserves_query {A} c (stmt : statement A) : preserves f (query c stmt).
Proof.
  intros w. unfold query, bind. rewrite external_run.
  destruct (fault (tick w)); simpl; [apply ignores_tick|].
  destruct (stmt _ _) as [[a d]|]; simpl; [|apply ignores_tick].
  unfold write; simpl. destruct (txn w); simpl.
  - rewrite ignores_txn. apply ignores_tick.
  - rewrite ignores_db. apply ignores_tick.
Qed.

Lemma preserves_BEGIN c : preserves f (BEGIN c).
Proof.
  intros w. unfold BEGIN, bind. rewrite external_run.
  destruct (fault (tick w)); simpl; [apply ignores_tick|].
  rewrite ignores_txn. apply ignores_tick.
Qed.

Lemma preserves_COMMIT c : preserves f (COMMIT c).
Proof.
  intros w. unfold COMMIT, bind. rewrite external_run.
  destruct (fault (tick w)); simpl; [apply ignores_tick|].
  rewrite ignores_txn, ignores_db. apply ignores_tick.
Qed.

Lemma preserves_ROLLBACK c : preserves f (ROLLBACK c).
Proof.
  intros w. unfold ROLLBACK, bind. rewrite external_run.
  destruct (fault (tick w)); simpl; [apply ignores_tick|].
  rewrite ignores_txn. apply ignores_tick.
Qed.

Lemma preserves_extract p : preserves f (extract p).
Proof. intros w. unfold extract. destruct (processPDF p); reflexivity. Qed.

Lemma preserves_pool_connect {Hp : IgnoresPool f} : preserves f pool_connect.
Proof.
  intros w. unfold pool_connect, bind. rewrite external_run.
  destruct (fault (tick w)); simpl; [apply ignores_tick|].
  rewrite ignores_txn, ignores_in_use. apply ignores_tick.
Qed.

Lemma preserves_release {Hp : IgnoresPool f} c : preserves f (release c).
Proof.
  intros w. unfold release; simpl. rewrite ignores_txn. apply ignores_in_use.
Qed.

End Blind.

(** A connection that is acquired, used and released leaves the number of
    checked-out connections as it was, whether or not it could be
    acquired. *)
Lemma scoped_in_use {A} (body : client -> M A) :
  (forall c, preserves in_use (body c)) ->
  preserves in_use
    (let* client := pool_connect in try_finally (body client) (release client)).
Proof.
  intros Hb w. unfold pool_connect, try_finally, bind. rewrite external_run.
  destruct (fault (tick w)); simpl; [reflexivity|].
  specialize (Hb Client (with_txn None
     (with_in_use (S (in_use (with_tick (S (tick w)) w)))
        (with_tick (S (tick w)) w)))).
  destruct (body Client _) as [r w1]; simpl in *. rewrite Hb. reflexivity.
Qed.

End StoreFacts.

(** One step of a [preserves] proof, chosen by the head of the
    computation. *)
Ltac preserves_step :=
  lazymatch goal with
  | |- preserves _ (ret _) => apply preserves_ret
  | |- preserves _ (throw _) => apply preserves_throw
  | |- preserves _ (bind _ _) => apply preserves_bind; [|intro]
  | |- preserves _ (try_catch _ _) => apply preserves_try_catch; [|intro]
  | |- preserves _ (try_finally _ _) => apply preserves_try_finally
  | |- preserves _ (for_each _ _ _) => apply preserves_for_each; intros
  | |- preserves _ (detached _) => apply preserves_detached
  | |- preserves _ external => apply preserves_external; typeclasses eauto
  | |- preserves _ now => apply preserves_now
  | |- preserves _ (console_log _) =>
      apply preserves_console_log; typeclasses eauto
  | |- preserves _ (console_warn _) =>
      apply preserves_console_warn; typeclasses eauto
  | |- preserves _ (console_error _ _) =>
      apply preserves_console_error; typeclasses eauto
  | |- preserves _ (query _ _) => apply preserves_query; typeclasses eauto
  | |- preserves _ (BEGIN _) => apply preserves_BEGIN; typeclasses eauto
  | |- preserves _ (COMMIT _) => apply preserves_COMMIT; typeclasses eauto
  | |- preserves _ (ROLLBACK _) => apply preserves_ROLLBACK; typeclasses eauto
  | |- preserves _ (extract _) => apply preserves_extract
  | |- preserves _ pool_connect =>
      apply preserves_pool_connect; typeclasses eauto
  | |- preserves _ (release _) => apply preserves_release; typeclasses eauto
  | |- preserves _ (match ?x with _ => _ end) => destruct x
  | |- preserves _ (if ?x then _ else _) => destruct x
  end.

Ltac preserves_tac := repeat preserves_step.

Section ServiceFrames.
Context {E : Env}.

(** None of the operations of the database service touches the job
    objects, the job map, the uploaded files or the local variables of the
    batch processor, and each gives back the connection it took. *)

Lemma parse_planned_date_blind {X} (f : World -> X) `{!IgnoresStore f} v :
  preserves f (DatabaseService.parse_planned_date v).
Proof. unfold DatabaseService.parse_planned_date. preserves_tac. Qed.

Lemma storeDelivery_blind {X} (f : World -> X) `{!IgnoresStore f} c m d o :
  preserves f (DatabaseService.storeDelivery c m d o).
Proof. unfold DatabaseService.storeDelivery. preserves_tac. Qed.

Lemma storeManifest_process_state md pi :
  preserves process_state (DatabaseService.storeManifest md pi).
Proof.
  unfold DatabaseService.storeManifest. preserves_tac;
    first [apply parse_planned_date_blind | apply storeDelivery_blind];
    typeclasses eauto.
Qed.

Lemma storeManifest_in_use md pi :
  preserves in_use (DatabaseService.storeManifest md pi).
Proof.
  unfold DatabaseService.storeManifest. apply scoped_in_use. intro c.
  preserves_tac;
    first [apply parse_planned_date_blind | apply storeDelivery_blind];
    typeclasses eauto.
Qed.

Lemma linkBatchManifest_process_state jobId manifestId order :
  preserves process_state
    (DatabaseService.linkBatchManifest jobId manifestId order).
Proof. unfold DatabaseService.linkBatchManifest. preserves_tac. Qed.

Lemma createBatchJob_process_state jobId n :
  preserves process_state (DatabaseService.createBatchJob jobId n).
Proof. unfold DatabaseService.createBatchJob. preserves_tac. Qed.

Lemma updateBatchJob_process_state jobId updates :
  preserves process_state (DatabaseService.updateBatchJob jobId updates).
Proof. unfold DatabaseService.updateBatchJob. preserves_tac. Qed.

End ServiceFrames.

(** ** Running the primitives *)

Section Runs.
Context {E : Env}.

Lemma bind_run {A B} (m : M A) (k : A -> M B) (w : World) :
  bind m k w =
  match m w with
  | (Return a, w') => k a w'
  | (Throw e, w') => (Throw e, w')
  end.
Proof. reflexivity. Qed.

Lemma query_run {A} c (stmt : statement A) (w : World) :
  query c stmt w =
  match fault (tick w) with
  | Some msg => (Throw (JS.Error msg), with_tick (S (tick w)) w)
  | None =>
      match stmt (tick w) (visible w) with
      | Some (a, d) => (Return a, write d (with_tick (S (tick w)) w))
      | None =>
          (Throw (JS.Error "constraint violation"), with_tick (S (tick w)) w)
      end
  end.
Proof.
  unfold query. rewrite bind_run, external_run.
  destruct (fault (tick w)); [reflexivity|].
  change (visible (with_tick (S (tick w)) w)) with (visible w).
  destruct (stmt (tick w) (visible w)) as [[a d]|]; reflexivity.
Qed.

Lemma pool_connect_run (w : World) :
  pool_connect w =
  match fault (tick w) with
  | Some msg => (Throw (JS.Error msg), with_tick (S (tick w)) w)
  | None =>
      (Return Client,
       with_txn None (with_in_use (S (in_use w)) (with_tick (S (tick w)) w)))
  end.
Proof.
  unfold pool_connect. rewrite bind_run, external_run.
  destruct (fault (tick w)); reflexivity.
Qed.

Lemma BEGIN_run c (w : World) :
  BEGIN c w =
  match fault (tick w) with
  | Some msg => (Throw (JS.Error msg), with_tick (S (tick w)) w)
  | None => (Return tt, with_txn (Some (visible w)) (with_tick (S (tick w)) w))
  end.
Proof.
  unfold BEGIN. rewrite bind_run, external_run.
  destruct (fault (tick w)); reflexivity.
Qed.

Lemma COMMIT_run c (w : World) :
  COMMIT c w =
  match fault (tick w) with
  | Some msg => (Throw (JS.Error msg), with_tick (S (tick w)) w)
  | None =>
      (Return tt,
       with_txn None (with_db (visible w) (with_tick (S (tick w)) w)))
  end.
Proof.
  unfold COMMIT. rewrite bind_run, external_run.
  destruct (fault (tick w)); reflexivity.
Qed.

Lemma ROLLBACK_run c (w : World) :
  ROLLBACK c w =
  match fault (tick w) with
  | Some msg => (Throw (JS.Error msg), with_tick (S (tick w)) w)
  | None => (Return tt, with_txn None (with_tick (S (tick w)) w))
  end.
Proof.
  unfold ROLLBACK. rewrite bind_run, external_run.
  destruct (fault (tick w)); reflexivity.
Qed.

(** The date block always completes, and changes nothing but the
    console. *)
Lemma parse_planned_date_run v (w : World) :
  exists pd c,
    DatabaseService.parse_planned_date v w = (Return pd, with_console c w).
Proof.
  assert (Hid : w = with_console (console w) w) by (destruct w; reflexivity).
  unfold DatabaseService.parse_planned_date.
  destruct (JS.truthy v).
  - destruct v; unfold try_catch; simpl;
      try (eexists None, _; reflexivity).
    eexists _, (console w). rewrite <- Hid. reflexivity.
  - exists None, (console w). rewrite <- Hid. reflexivity.
Qed.

End Runs.

(** ** The manifest write *)

(** The row [storeDelivery] binds for a delivery. *)
Definition delivery_row (i manifestId : string) (delivery : Payload.Delivery)
    (order : nat) : Schema.deliveries_row :=
  {| Schema.d_id := i;
     Schema.d_manifest_id := manifestId;
     Schema.contact_name :=
       DatabaseService.text (JS.or (Payload.contact_name delivery) (JS.Str ""));
     Schema.address :=
       DatabaseService.text (JS.or (Payload.address delivery) (JS.Str ""));
     Schema.postcode :=
       DatabaseService.text (JS.or (Payload.postcode delivery) (JS.Str ""));
     Schema.booking_ref :=
       DatabaseService.text (JS.or (Payload.booking_ref delivery) (JS.Str ""));
     Schema.arc_number :=
       DatabaseService.text (JS.or (Payload.arc_number delivery) (JS.Str ""));
     Schema.contact_phone :=
       DatabaseService.text_or_null (Payload.contact_phone delivery);
     Schema.est_weight_kg :=
       JS.parseFloat (JS.or (Payload.est_weight_kg delivery) (JS.Num JS.zero));
     Schema.total_cases :=
       JS.parseInt (JS.or (Payload.total_cases delivery) (JS.Num JS.zero));
     Schema.time_window_start :=
       match Payload.time_window delivery with
       | Some tw => DatabaseService.add_seconds (Payload.start tw)
       | None => None
       end;
     Schema.time_window_end :=
       match Payload.time_window delivery with
       | Some tw => DatabaseService.add_seconds (Payload.end_ tw)
       | None => None
       end;
     Schema.delivery_instructions :=
       DatabaseService.text
         (JS.or (Payload.delivery_instructions delivery) (JS.Str ""));
     Schema.delivery_type :=
       DatabaseService.text (JS.or (Payload.delivery_type delivery) (JS.Str ""));
     Schema.delivery_order := order;
     Schema.raw_delivery_data := delivery |}.

(** The rows of the deliveries [l], numbered from [start], as
    [storeManifest] writes them for the manifest [manifestId]. *)
Definition delivery_rows (manifestId : string) (start : nat)
    (l : list Payload.Delivery) (rows : list Schema.deliveries_row) : Prop :=
  Forall2
    (fun p r => exists i, r = delivery_row i manifestId (snd p) (fst p))
    (combine (seq start (length l)) l) rows.

(** [d'] is [d] with one more manifest, [manifestId], and the rows of all its
    deliveries. *)
Definition committed (manifestData : Payload.Manifest) (manifestId : string)
    (d d' : Schema.Db) : Prop :=
  exists mrow drows,
    d' = Schema.with_deliveries (Schema.deliveries d ++ drows)
           (Schema.with_manifests (Schema.manifests d ++ [mrow]) d) /\
    Schema.has_manifest manifestId d = false /\
    Schema.id mrow = manifestId /\
    Schema.raw_manifest_data mrow = manifestData /\
    Schema.delivery_count mrow =
      length (Payload.deliveries_or_empty manifestData) /\
    delivery_rows manifestId 1 (Payload.deliveries_or_empty manifestData) drows.

Section ManifestWrite.
Context {E : Env}.

Lemma storeDelivery_run c manifestId delivery order (w : World) dtx :
  txn w = Some dtx ->
  DatabaseService.storeDelivery c manifestId delivery order w =
  match fault (tick w) with
  | Some msg => (Throw (JS.Error msg), with_tick (S (tick w)) w)
  | None =>
      if Schema.has_delivery (gen_id (tick w)) dtx
         || negb (Schema.has_manifest manifestId dtx)
      then (Throw (JS.Error "constraint violation"), with_tick (S (tick w)) w)
      else
        (Return tt,
         with_txn
           (Some (Schema.with_deliveries
                    (Schema.deliveries dtx ++
                     [delivery_row (gen_id (tick w)) manifestId delivery order])
                    dtx))
           (with_tick (S (tick w)) w))
  end.
Proof.
  intros Ht. unfold DatabaseService.storeDelivery. rewrite query_run.
  destruct (fault (tick w)); [reflexivity|].
  unfold visible, write. simpl. rewrite Ht.
  unfold DatabaseService.INSERT_deliveries.
  destruct (_ || _); reflexivity.
Qed.

(** The loop over the deliveries, inside the transaction: the committed
    content is not touched, and when the loop completes the transaction
    holds one more row per delivery, in order. *)
Lemma store_loop c manifestId (l : list Payload.Delivery) :
  forall i (w : World) dtx,
    txn w = Some dtx ->
    match
      for_each i l
        (fun order delivery =>
           DatabaseService.storeDelivery c manifestId delivery (order + 1)) w
    with
    | (Return _, w') =>
        db w' = db w /\
        exists rows,
          txn w' = Some (Schema.with_deliveries
                           (Schema.deliveries dtx ++ rows) dtx) /\
          delivery_rows manifestId (i + 1) l rows
    | (Throw _, w') => db w' = db w
    end.
Proof.
  induction l as [|x l IH]; intros i w dtx Ht; simpl.
  - split; [reflexivity|]. exists []. split; [|constructor].
    rewrite Ht. f_equal. destruct dtx; unfold Schema.with_deliveries; simpl.
    rewrite app_nil_r. reflexivity.
  - rewrite bind_run, (storeDelivery_run _ _ _ _ _ dtx Ht).
    destruct (fault (tick w)); [reflexivity|].
    destruct (_ || _); [reflexivity|].
    match goal with
    | |- context [for_each (S i) l ?b ?w1] =>
        specialize (IH (S i) w1 _ eq_refl);
        destruct (for_each (S i) l b w1) as [[u|e] w2]
    end; simpl in IH; [|exact IH].
    destruct IH as [Hdb [rows [Ht2 Hrows]]]. split; [exact Hdb|].
    eexists (_ :: rows). split.
    + rewrite Ht2. simpl. rewrite <- app_assoc. reflexivity.
    + unfold delivery_rows in *. simpl. constructor.
      * eexists. reflexivity.
      * replace (S (i + 1)) with (S i + 1)%nat by lia. exact Hrows.
Qed.

End ManifestWrite.
Section ManifestWrite2.
Context {E : Env}.

(** The [catch] and [finally] around the transaction keep what the
    transaction left committed. *)
Lemma rollback_and_release {A} c (body : M A) (w : World)
    (Q : A -> Schema.Db -> Prop) (d0 : Schema.Db) :
  match body w with
  | (Return a, w2) => Q a (db w2)
  | (Throw _, w2) => db w2 = d0
  end ->
  match
    try_finally
      (try_catch body
         (fun error =>
            ROLLBACK c ;;
            console_error "Error storing manifest:" error ;;
            throw error))
      (release c) w
  with
  | (Return a, w') => Q a (db w')
  | (Throw _, w') => db w' = d0
  end.
Proof.
  unfold try_finally, try_catch.
  destruct (body w) as [[a|e] w2]; simpl; [auto|].
  intros Hd. rewrite bind_run, ROLLBACK_run.
  destruct (fault (tick w2)); simpl; exact Hd.
Qed.

Lemma storeManifest_spec md pi (w : World) :
  match DatabaseService.storeManifest md pi w with
  | (Return manifestId, w') => committed md manifestId (db w) (db w')
  | (Throw _, w') => db w' = db w
  end.
Proof.
  unfold DatabaseService.storeManifest.
  rewrite bind_run, pool_connect_run.
  destruct (fault (tick w)); [reflexivity|].
  set (w1 := with_txn None _).
  assert (Hdb1 : db w1 = db w) by reflexivity.
  assert (Ht1 : txn w1 = None) by reflexivity.
  clearbody w1.
  apply (rollback_and_release _ _ _ (fun i d' => committed md i (db w) d')).
  rewrite bind_run, BEGIN_run.
  destruct (fault (tick w1)); [exact Hdb1|].
  set (w2 := with_txn _ _).
  assert (Hdb2 : db w2 = db w) by exact Hdb1.
  assert (Ht2 : txn w2 = Some (db w)).
  { subst w2. unfold visible. rewrite Ht1, Hdb1. reflexivity. }
  clearbody w2.
  rewrite bind_run.
  destruct (parse_planned_date_run (Payload.planned_delivery_date md) w2)
    as [pd [cs Hpd]].
  rewrite Hpd.
  set (w3 := with_console cs w2).
  assert (Hdb3 : db w3 = db w) by exact Hdb2.
  assert (Ht3 : txn w3 = Some (db w)) by exact Ht2.
  clearbody w3.
  rewrite bind_run, query_run.
  destruct (fault (tick w3)); [exact Hdb3|].
  unfold visible. rewrite Ht3.
  unfold DatabaseService.INSERT_manifests at 1.
  destruct (Schema.has_manifest (gen_id (tick w3)) (db w)) eqn:Hfresh;
    [exact Hdb3|].
  match goal with
  | |- context [write ?d _] => set (dtx := d)
  end.
  set (w4 := write dtx _).
  assert (Hdb4 : db w4 = db w).
  { subst w4. unfold write. simpl. rewrite Ht3. exact Hdb3. }
  assert (Ht4 : txn w4 = Some dtx).
  { subst w4. unfold write. simpl. rewrite Ht3. reflexivity. }
  clearbody w4.
  rewrite bind_run.
  pose proof (store_loop Client (gen_id (tick w3))
                (Payload.deliveries_or_empty md) 0 w4 dtx Ht4) as Hloop.
  destruct (for_each 0 _ _ w4) as [[u|e] w5]; [|simpl; congruence].
  destruct Hloop as [Hdb5 [rows [Ht5 Hrows]]].
  rewrite bind_run, COMMIT_run.
  destruct (fault (tick w5)); [simpl; congruence|].
  simpl. unfold visible. rewrite Ht5.
  eexists _, rows. split; [reflexivity|].
  repeat split; try reflexivity; assumption.
Qed.

End ManifestWrite2.

(** ** C1: the manifest write is all or nothing *)

(** C1.  Whatever fails and wherever, a call to [storeManifest] ends in one
    of two ways.  Either it returns an id, and the committed content of the
    store has gained exactly the manifest row with that id and one row per
    delivery of the manifest; or it throws, and the committed content is
    what it was before the call, so no row of the manifest is visible.  In
    both cases, and also when no connection could be obtained, the number of
    connections checked out of the pool is what it was before the call. *)
Theorem storeManifest_atomic {E : Env} (manifestData : Payload.Manifest)
    (processingInfo : Payload.ProcessingInfo) (w : World) :
  let '(r, w') := DatabaseService.storeManifest manifestData processingInfo w in
  in_use w' = in_use w /\
  match r with
  | Return manifestId => committed manifestData manifestId (db w) (db w')
  | Throw _ => db w' = db w
  end.
Proof.
  pose proof (storeManifest_spec manifestData processingInfo w) as Hspec.
  pose proof (storeManifest_in_use manifestData processingInfo w) as Huse.
  destruct (DatabaseService.storeManifest manifestData processingInfo w)
    as [r w'].
  simpl in Huse. split; [exact Huse|]. destruct r; exact Hspec.
Qed.

(** ** C3: reading a stored manifest back *)

(** Every delivery row belongs to a manifest row (the foreign key of
    [deliveries]). *)
Definition foreign_keys_hold (d : Schema.Db) : Prop :=
  Forall (fun r => Schema.has_manifest (Schema.d_manifest_id r) d = true)
         (Schema.deliveries d).

Lemma delivery_rows_order manifestId l : forall start rows,
  delivery_rows manifestId start l rows ->
  map Schema.delivery_order rows = seq start (length l).
Proof.
  unfold delivery_rows.
  induction l as [|x l IH]; intros start rows H; simpl in *.
  - inversion H; reflexivity.
  - inversion H as [|p r ps rs [i Hr] Hrest]; subst. simpl.
    f_equal. apply IH. exact Hrest.
Qed.

Lemma delivery_rows_raw manifestId l : forall start rows,
  delivery_rows manifestId start l rows ->
  map Schema.raw_delivery_data rows = l.
Proof.
  unfold delivery_rows.
  induction l as [|x l IH]; intros start rows H; simpl in *.
  - inversion H; reflexivity.
  - inversion H as [|p r ps rs [i Hr] Hrest]; subst. simpl.
    f_equal. eapply IH. exact Hrest.
Qed.

Lemma delivery_rows_owner manifestId l : forall start rows,
  delivery_rows manifestId start l rows ->
  Forall (fun r => Schema.d_manifest_id r = manifestId) rows.
Proof.
  unfold delivery_rows.
  induction l as [|x l IH]; intros start rows H; simpl in *.
  - inversion H; constructor.
  - inversion H as [|p r ps rs [i Hr] Hrest]; subst.
    constructor; [reflexivity|]. eapply IH. exact Hrest.
Qed.

Lemma insert_by_head {A} (le : A -> A -> bool) (x : A) (l : list A) :
  (forall y, In y l -> le x y = true) -> DatabaseService.insert_by le x l = x :: l.
Proof.
  destruct l as [|y l]; intros H; simpl; [reflexivity|].
  rewrite H; [reflexivity | left; reflexivity].
Qed.

(** Rows numbered consecutively are already in [ORDER BY delivery_order]
    order. *)
Lemma sort_by_order_seq (rows : list Schema.deliveries_row) : forall start n,
  map Schema.delivery_order rows = seq start n ->
  DatabaseService.sort_by
    (fun a b => Nat.leb (Schema.delivery_order a) (Schema.delivery_order b))
    rows = rows.
Proof.
  induction rows as [|r rows IH]; intros start n H; simpl; [reflexivity|].
  destruct n as [|n]; simpl in H; [discriminate|].
  injection H as Hr Hrest.
  change (fold_right _ [] rows) with
    (DatabaseService.sort_by
       (fun a b => Nat.leb (Schema.delivery_order a) (Schema.delivery_order b))
       rows).
  rewrite (IH _ _ Hrest).
  apply insert_by_head. intros y Hy.
  apply Nat.leb_le.
  assert (Hin : In (Schema.delivery_order y) (seq (S start) n)).
  { rewrite <- Hrest. apply in_map. exact Hy. }
  apply in_seq in Hin. lia.
Qed.

Lemma filter_none {A} (p : A -> bool) (l : list A) :
  existsb p l = false -> List.filter p l = [].
Proof.
  induction l as [|x l IH]; simpl; [reflexivity|].
  destruct (p x); simpl; [discriminate|]. exact IH.
Qed.

Lemma filter_all {A} (p : A -> bool) (l : list A) :
  Forall (fun x => p x = true) l -> List.filter p l = l.
Proof.
  induction 1 as [|x l Hx _ IH]; simpl; [reflexivity|].
  rewrite Hx, IH. reflexivity.
Qed.

(** Under the foreign key, no delivery row refers to an id that no manifest
    row has. *)
Lemma no_rows_of_unknown_manifest (d : Schema.Db) (i : string) :
  foreign_keys_hold d ->
  Schema.has_manifest i d = false ->
  List.filter (fun r => String.eqb (Schema.d_manifest_id r) i)
              (Schema.deliveries d) = [].
Proof.
  intros Hfk Hnew. apply filter_none.
  unfold foreign_keys_hold in Hfk.
  induction Hfk as [|r rs Hr _ IH]; simpl; [reflexivity|].
  rewrite IH, orb_false_r.
  destruct (String.eqb_spec (Schema.d_manifest_id r) i) as [Heq|]; [|reflexivity].
  congruence.
Qed.

Section ReadBack.
Context {E : Env}.

(** [getManifestById] when none of its three external calls fails. *)
Lemma getManifestById_run (manifestId : string) (w : World) :
  fault (tick w) = None ->
  fault (S (tick w)) = None ->
  fault (S (S (tick w))) = None ->
  exists w',
    DatabaseService.getManifestById manifestId w =
    (Return
       match List.filter (fun r => String.eqb (Schema.id r) manifestId)
                         (Schema.manifests (db w)) with
       | [] => None
       | r :: _ =>
           Some {| DatabaseService.row := r;
                   DatabaseService.deliveries :=
                     DatabaseService.sort_by
                       (fun a b => Nat.leb (Schema.delivery_order a)
                                           (Schema.delivery_order b))
                       (List.filter
                          (fun r => String.eqb (Schema.d_manifest_id r) manifestId)
                          (Schema.deliveries (db w))) |}
       end, w') /\
    db w' = db w /\ in_use w' = in_use w.
Proof.
  intros H0 H1 H2. unfold DatabaseService.getManifestById.
  rewrite bind_run, pool_connect_run, H0.
  unfold try_finally. rewrite bind_run, query_run. simpl tick. rewrite H1.
  unfold DatabaseService.SELECT_manifest_by_id at 1. unfold visible. simpl.
  destruct (List.filter _ (Schema.manifests (db w))) as [|r rs].
  - eexists. split; [reflexivity|]. destruct w, db; split; reflexivity.
  - rewrite bind_run, query_run. simpl. rewrite H2.
    eexists. split; [reflexivity|]. destruct w, db; split; reflexivity.
Qed.

End ReadBack.

(** C3.  After a successful [storeManifest], reading the returned id back
    with [getManifestById] (no call of the read failing) yields that
    manifest; its [delivery_count] is the number of delivery rows returned,
    their order indices are exactly [1..count], and they are the deliveries
    of the payload in extraction order. *)
Theorem readback_count_and_order {E : Env} (manifestData : Payload.Manifest)
    (processingInfo : Payload.ProcessingInfo) (w w' w2 : World)
    (manifestId : string) :
  foreign_keys_hold (db w) ->
  DatabaseService.storeManifest manifestData processingInfo w
    = (Return manifestId, w') ->
  db w2 = db w' ->
  fault (tick w2) = None ->
  fault (S (tick w2)) = None ->
  fault (S (S (tick w2))) = None ->
  exists m w3,
    DatabaseService.getManifestById manifestId w2 = (Return (Some m), w3) /\
    Schema.id (DatabaseService.row m) = manifestId /\
    Schema.delivery_count (DatabaseService.row m)
      = length (DatabaseService.deliveries m) /\
    map Schema.delivery_order (DatabaseService.deliveries m)
      = seq 1 (Schema.delivery_count (DatabaseService.row m)) /\
    map Schema.raw_delivery_data (DatabaseService.deliveries m)
      = Payload.deliveries_or_empty manifestData.
Proof.
  intros Hfk Hstore Hdb H0 H1 H2.
  pose proof (storeManifest_spec manifestData processingInfo w) as Hspec.
  rewrite Hstore in Hspec.
  destruct Hspec as [mrow [drows [Hd' [Hnew [Hid [Hraw [Hcount Hrows]]]]]]].
  destruct (getManifestById_run manifestId w2 H0 H1 H2) as [w3 [Hrun _]].
  rewrite Hdb, Hd' in Hrun. simpl in Hrun.
  rewrite List.filter_app in Hrun.
  rewrite (filter_none _ (Schema.manifests (db w))) in Hrun by exact Hnew.
  simpl in Hrun. rewrite Hid, String.eqb_refl in Hrun.
  rewrite List.filter_app in Hrun.
  rewrite (no_rows_of_unknown_manifest _ _ Hfk Hnew) in Hrun.
  rewrite filter_all in Hrun.
  2:{ eapply List.Forall_impl; [|exact (delivery_rows_owner _ _ _ _ Hrows)].
      simpl. intros r Hr. rewrite Hr. apply String.eqb_refl. }
  simpl in Hrun.
  pose proof (delivery_rows_order _ _ _ _ Hrows) as Hord.
  rewrite (sort_by_order_seq _ _ _ Hord) in Hrun.
  eexists _, w3. split; [exact Hrun|]. simpl.
  assert (Hlen : length drows = length (Payload.deliveries_or_empty manifestData)).
  { rewrite <- (length_map Schema.delivery_order), Hord. apply length_seq. }
  repeat split.
  - exact Hid.
  - congruence.
  - rewrite Hcount. exact Hord.
  - exact (delivery_rows_raw _ _ _ _ Hrows).
Qed.

(** ** Sample data *)

Module Sample.

(** An environment in which nothing fails; keys are [id0], [id1], ... by
    call number, and the clock shows the call number. *)
Definition quiet : Env :=
  {| fault := fun _ => None;
     gen_id := fun k => "id" +:+ DatabaseService.decimal k;
     clock := fun k => Z.of_nat k;
     processPDF := fun _ => inr (JS.Error "not a PDF") |}.

Definition start : World :=
  {| db := Schema.empty; txn := None; in_use := 0; tick := 0;
     heap := ∅; batchJobs := ∅; files := ∅; console := [];
     frame := {| successfulFiles := 0; failedFiles := 0;
                 extractedData := None |} |}.

Definition delivery (postcode est_weight_kg total_cases : JS.value)
  : Payload.Delivery :=
  {| Payload.contact_name := JS.Str "A. Customer";
     Payload.address := JS.Str "1 High Street";
     Payload.postcode := postcode;
     Payload.booking_ref := JS.Str "BK1";
     Payload.arc_number := JS.Undefined;
     Payload.contact_phone := JS.Undefined;
     Payload.est_weight_kg := est_weight_kg;
     Payload.total_cases := total_cases;
     Payload.time_window :=
       Some {| Payload.start := JS.Str "09:00"; Payload.end_ := JS.Str "11:00" |};
     Payload.delivery_instructions := JS.Str "";
     Payload.delivery_type := JS.Str "standard" |}.

Definition manifest (ref : string) (planned_delivery_date : JS.value)
    (deliveries : list Payload.Delivery) : Payload.Manifest :=
  {| Payload.manifest_id := JS.Str ref;
     Payload.planned_delivery_date := planned_delivery_date;
     Payload.vehicle_driver := JS.Str "D. Driver";
     Payload.report_time_loading := JS.Str "06:30";
     Payload.collection_depot := None;
     Payload.deliveries := Some deliveries;
     Payload.processing_info := None;
     Payload.database_id := None;
     Payload.database_error := None |}.

Definition info : Payload.ProcessingInfo :=
  {| Payload.filename := "manifest.pdf";
     Payload.file_size_bytes := 1024;
     Payload.processed_at := 0;
     Payload.delivery_count := 2 |}.

(** A manifest of two well-formed deliveries. *)
Definition two_stops : Payload.Manifest :=
  manifest "M-100" (JS.Str "15/01/2024")
    [delivery (JS.Str "SW1A 1AA") (JS.Str "12.5") (JS.Str "3");
     delivery (JS.Str "SW1B 2BB") (JS.Num (JS.Dec 4 0)) (JS.Num (JS.Dec 1 1))].

(** The state after storing it. *)
Definition stored : World :=
  snd (DatabaseService.storeManifest (E := quiet) two_stops info start).

(** A row of the view [deliveries_with_manifest] with the given
    postcode. *)
Definition view_row (postcode : string)
  : Schema.deliveries_row * Schema.manifests_row :=
  (delivery_row "d1" "m1"
     (delivery (JS.Str postcode) (JS.Str "1") (JS.Str "1")) 1,
   {| Schema.id := "m1"; Schema.manifest_id := "M-100";
      Schema.planned_delivery_date := None; Schema.vehicle_driver := "";
      Schema.report_time_loading := None;
      Schema.collection_depot_name := "";
      Schema.collection_depot_postcode := "";
      Schema.original_filename := ""; Schema.file_size_bytes := 0;
      Schema.delivery_count := 1;
      Schema.raw_manifest_data := two_stops;
      Schema.created_at := 0; Schema.processed_at := 0 |}).

End Sample.

Example readback_count_and_order_witness :
  exists m w3,
    DatabaseService.getManifestById (E := Sample.quiet) "id2" Sample.stored
      = (Return (Some m), w3) /\
    Schema.id (DatabaseService.row m) = "id2" /\
    Schema.delivery_count (DatabaseService.row m)
      = length (DatabaseService.deliveries m) /\
    map Schema.delivery_order (DatabaseService.deliveries m)
      = seq 1 (Schema.delivery_count (DatabaseService.row m)) /\
    map Schema.raw_delivery_data (DatabaseService.deliveries m)
      = Payload.deliveries_or_empty Sample.two_stops.
Proof.
  apply (readback_count_and_order (E := Sample.quiet) Sample.two_stops
           Sample.info Sample.start Sample.stored Sample.stored "id2").
  - constructor.
  - vm_compute. reflexivity.
  - reflexivity.
  - reflexivity.
  - reflexivity.
  - reflexivity.
Defined.

(** ** The batch processor, step by step *)

Section BatchRuns.
Context {E : Env}.

Lemma job_update_run l j (f : JobStatus -> JobStatus) (w : World) :
  heap w !! l = Some j ->
  Server.job_update (Some l) f w
  = (Return tt, with_heap (<[l := f j]> (heap w)) w).
Proof. intros H. unfold Server.job_update. rewrite H. reflexivity. Qed.

Lemma job_read_run {A} l j (f : JobStatus -> A) (w : World) :
  heap w !! l = Some j ->
  Server.job_read (Some l) f w = (Return (f j), w).
Proof. intros H. unfold Server.job_read. rewrite H. reflexivity. Qed.

Lemma update_extractedData_run g x (w : World) :
  extractedData (frame w) = Some x ->
  Server.update_extractedData g w
  = (Return tt, with_frame (Server.assign_extractedData (g x) (frame w)) w).
Proof. intros H. unfold Server.update_extractedData. rewrite H. reflexivity. Qed.

Lemma read_extractedData_run x (w : World) :
  extractedData (frame w) = Some x ->
  Server.read_extractedData w = (Return x, w).
Proof. intros H. unfold Server.read_extractedData. rewrite H. reflexivity. Qed.

(** [linkBatchManifest] never changes the [batch_jobs] table. *)
Lemma linkBatchManifest_batch_jobs jobId manifestId order :
  preserves (fun w => Schema.batch_jobs (db w))
    (DatabaseService.linkBatchManifest jobId manifestId order).
Proof.
  intros w. unfold DatabaseService.linkBatchManifest.
  rewrite bind_run, pool_connect_run.
  destruct (fault (tick w)); [reflexivity|].
  unfold try_finally. rewrite query_run. simpl tick.
  destruct (fault (S (tick w))); [reflexivity|].
  unfold DatabaseService.INSERT_batch_job_manifests, visible. simpl.
  destruct (map _ _); [reflexivity|].
  destruct (Schema.has_manifest _ _); reflexivity.
Qed.

(** Neither does [storeManifest]. *)
Lemma storeManifest_batch_jobs md pi :
  preserves (fun w => Schema.batch_jobs (db w))
    (DatabaseService.storeManifest md pi).
Proof.
  intros w. pose proof (storeManifest_spec md pi w) as H.
  destruct (DatabaseService.storeManifest md pi w) as [[i|e] w']; simpl.
  - destruct H as [mrow [drows [Hd _]]]. rewrite Hd. reflexivity.
  - rewrite H. reflexivity.
Qed.

(** The persistence block always completes.  It touches neither the job
    objects nor the job map nor the [batch_jobs] table, and of the local
    variables only the object [extractedData] is bound to.  If
    [storeManifest] throws, that object gets the message as
    [database_error] and the store is left as it was. *)
Lemma store_extracted_run jobId order pi x0 (w : World) :
  extractedData (frame w) = Some x0 ->
  exists w' x,
    Server.store_extracted jobId order pi w = (Return tt, w') /\
    heap w' = heap w /\ batchJobs w' = batchJobs w /\
    frame w' = Server.assign_extractedData x (frame w) /\
    Schema.batch_jobs (db w') = Schema.batch_jobs (db w) /\
    match DatabaseService.storeManifest x0 pi w with
    | (Throw e, _) =>
        x = Payload.set_database_error (JS.message e) x0 /\
        db w' = db w
    | (Return i, _) => Payload.database_id x = Some i
    end.
Proof.
  intros Hx. unfold Server.store_extracted, try_catch.
  rewrite bind_run, (read_extractedData_run x0 w Hx), bind_run.
  pose proof (storeManifest_process_state x0 pi w) as Hps.
  pose proof (storeManifest_batch_jobs x0 pi w) as Hbj.
  pose proof (storeManifest_spec x0 pi w) as Hspec.
  destruct (DatabaseService.storeManifest x0 pi w) as [[i|e] w1];
    simpl in Hps, Hbj.
  - injection Hps as Hh Hb Hf Hfr.
    assert (Hx1 : extractedData (frame w1) = Some x0) by congruence.
    rewrite bind_run, (update_extractedData_run _ x0 w1 Hx1).
    set (w2 := with_frame _ w1).
    rewrite bind_run.
    pose proof (linkBatchManifest_process_state jobId i (order + 1) w2) as Hps2.
    pose proof (linkBatchManifest_batch_jobs jobId i (order + 1) w2) as Hbj2.
    destruct (DatabaseService.linkBatchManifest jobId i (order + 1) w2)
      as [[u|e] w3]; simpl in Hps2, Hbj2; injection Hps2 as Hh3 Hb3 Hf3 Hfr3.
    + simpl. eexists _, _. split; [reflexivity|]. simpl.
      rewrite Hh3, Hb3, Hfr3, Hbj2. subst w2. simpl.
      rewrite Hh, Hb, Hfr, Hbj. repeat split; reflexivity.
    + simpl. rewrite bind_run. simpl.
      rewrite (update_extractedData_run _ (Payload.set_database_id i x0)).
      2:{ simpl. rewrite Hfr3. reflexivity. }
      eexists _, _. split; [reflexivity|]. simpl.
      rewrite Hh3, Hb3, Hfr3, Hbj2. subst w2. simpl.
      rewrite Hh, Hb, Hfr, Hbj. repeat split; reflexivity.
  - injection Hps as Hh Hb Hf Hfr.
    rewrite bind_run. simpl.
    rewrite (update_extractedData_run _ x0).
    2:{ simpl. congruence. }
    eexists _, _. split; [reflexivity|]. simpl.
    rewrite Hh, Hb, Hfr, Hbj. repeat split; try reflexivity. exact Hspec.
Qed.

End BatchRuns.
Section BatchRuns2.
Context {E : Env}.

(** Removing the uploaded file may fail; the failure is swallowed, and
    nothing but the file system, the call counter and the console is
    touched. *)
Lemma clean_up_run (path name : string) (w : World) :
  exists w',
    try_catch (unlink path) (fun cleanupError => console_warn name) w
    = (Return tt, w') /\
    heap w' = heap w /\ batchJobs w' = batchJobs w /\ frame w' = frame w /\
    db w' = db w.
Proof.
  unfold try_catch, unlink. rewrite bind_run, external_run.
  destruct (fault (tick w)); simpl.
  - eexists. split; [reflexivity|]. repeat split.
  - destruct (decide _); simpl; eexists; (split; [reflexivity|]); repeat split.
Qed.

(** The item-level error record of a file whose extraction threw [e] at
    time [t]. *)
Definition error_info_of (file : Server.file) (e : JS.error) (t : Z)
  : Schema.error_info :=
  {| Schema.filename := Server.originalname file;
     Schema.error := JS.message e;
     Schema.timestamp := t |}.

(** The processing metadata attached to the extraction of a file at time
    [t]. *)
Definition processing_info_of (file : Server.file) (data : Payload.Manifest)
    (t : Z) : Payload.ProcessingInfo :=
  {| Payload.filename := Server.originalname file;
     Payload.file_size_bytes := Server.size file;
     Payload.processed_at := t;
     Payload.delivery_count := length (Payload.deliveries_or_empty data) |}.

(** The state in which the extraction [x] of an item is handed to the
    store: [extractedData] is bound to it. *)
Definition item_state (x : Payload.Manifest) (w : World) : World :=
  with_frame (Server.assign_extractedData x (frame w)) w.

(** One turn of the loop on a registered job always completes.  The job
    object gets one more result when the extraction succeeded and one more
    error when it threw, and its processed count goes up by one; the tally
    of the matching kind goes up by one; the [batch_jobs] table is not
    written.  The result is the extraction with its processing metadata,
    and, when [storeManifest] throws, with the message as
    [database_error], the store being left as it was. *)
Lemma process_file_run l j jobId storeInDb order file (w : World) :
  heap w !! l = Some j ->
  exists w',
    Server.process_file (Some l) jobId storeInDb order file w
    = (Return tt, w') /\
    batchJobs w' = batchJobs w /\
    Schema.batch_jobs (db w') = Schema.batch_jobs (db w) /\
    match processPDF (Server.path file) with
    | inl data =>
        let pi := processing_info_of file data (clock (tick w)) in
        let x0 := Payload.set_processing_info pi data in
        (exists x,
           heap w' = <[l := Server.incr_processed (Server.push_result x j)]>
                       (heap w) /\
           if storeInDb then
             match DatabaseService.storeManifest x0 pi (item_state x0 w) with
             | (Throw e, _) =>
                 x = Payload.set_database_error (JS.message e) x0 /\
                 db w' = db w
             | (Return i, _) => Payload.database_id x = Some i
             end
           else x = x0 /\ db w' = db w) /\
        successfulFiles (frame w') = S (successfulFiles (frame w)) /\
        failedFiles (frame w') = failedFiles (frame w)
    | inr e =>
        heap w' = <[l := Server.incr_processed
                           (Server.push_error
                              (error_info_of file e (clock (tick w))) j)]>
                    (heap w) /\
        successfulFiles (frame w') = successfulFiles (frame w) /\
        failedFiles (frame w') = S (failedFiles (frame w))
    end.
Proof.
  intros Hj. unfold Server.process_file.
  rewrite bind_run. unfold try_catch at 1.
  rewrite bind_run. unfold extract at 1.
  destruct (processPDF (Server.path file)) as [data|e].
  - rewrite bind_run. unfold Server.set_frame at 1.
    rewrite bind_run. unfold now at 1.
    rewrite bind_run.
    rewrite (update_extractedData_run _ data) by reflexivity.
    change {| Payload.filename := Server.originalname file;
              Payload.file_size_bytes := Server.size file;
              Payload.processed_at :=
                clock (tick (with_frame
                               (Server.assign_extractedData data (frame w)) w));
              Payload.delivery_count :=
                length (Payload.deliveries_or_empty data) |}
      with (processing_info_of file data (clock (tick w))).
    set (pi := processing_info_of file data (clock (tick w))).
    set (x0 := Payload.set_processing_info pi data).
    change (with_frame _ (with_frame _ w)) with (item_state x0 w).
    assert (Hx1 : extractedData (frame (item_state x0 w)) = Some x0)
      by reflexivity.
    assert (Hw1 : heap (item_state x0 w) = heap w /\
                  batchJobs (item_state x0 w) = batchJobs w /\
                  db (item_state x0 w) = db w /\
                  successfulFiles (frame (item_state x0 w))
                  = successfulFiles (frame w) /\
                  failedFiles (frame (item_state x0 w))
                  = failedFiles (frame w))
      by (repeat split).
    destruct Hw1 as [Hh1 [Hb1 [Hd1 [Hs1 Hf1]]]].
    rewrite bind_run.
    assert (Hblock : exists w2 x,
      (if storeInDb then Server.store_extracted jobId order pi else ret tt)
        (item_state x0 w)
      = (Return tt, w2) /\
      heap w2 = heap w /\ batchJobs w2 = batchJobs w /\
      frame w2 = Server.assign_extractedData x (frame (item_state x0 w)) /\
      Schema.batch_jobs (db w2) = Schema.batch_jobs (db w) /\
      if storeInDb then
        match DatabaseService.storeManifest x0 pi (item_state x0 w) with
        | (Throw e, _) =>
            x = Payload.set_database_error (JS.message e) x0 /\
            db w2 = db w
        | (Return i, _) => Payload.database_id x = Some i
        end
      else x = x0 /\ db w2 = db w).
    { destruct storeInDb.
      - destruct (store_extracted_run jobId order pi _ (item_state x0 w) Hx1)
          as [w2 [x [Hr [Hh [Hb [Hfr [Hbj Hcase]]]]]]].
        exists w2, x. repeat split; try congruence. exact Hcase.
      - exists (item_state x0 w), x0. repeat split. }
    destruct Hblock as [w2 [x [Hr [Hh2 [Hb2 [Hfr2 [Hbj2 Hcase]]]]]]].
    rewrite Hr.
    rewrite bind_run, (read_extractedData_run x w2)
      by (rewrite Hfr2; reflexivity).
    rewrite bind_run, (job_update_run l j) by congruence.
    unfold Server.set_frame at 1.
    set (w3 := with_frame _ _).
    destruct (clean_up_run (Server.path file)
                ("Failed to clean up " +:+ Server.originalname file +:+ ":") w3)
      as [w4 [Hc [Hh4 [Hb4 [Hfr4 Hd4]]]]].
    rewrite bind_run, Hc.
    rewrite (job_update_run l (Server.push_result x j)).
    2:{ rewrite Hh4. subst w3. simpl. apply lookup_insert_eq. }
    eexists. split; [reflexivity|]. simpl.
    rewrite Hb4, Hh4, Hfr4, Hd4. subst w3. simpl.
    rewrite Hfr2, Hh2, Hb2, Hbj2. simpl.
    rewrite insert_insert_eq. repeat split; try reflexivity.
    exists x. split; [reflexivity|]. exact Hcase.
  - rewrite bind_run. unfold now at 1.
    rewrite bind_run, (job_update_run l j) by exact Hj.
    rewrite bind_run. unfold Server.set_frame at 1.
    unfold console_error at 1.
    set (w3 := with_console _ _).
    destruct (clean_up_run (Server.path file)
                ("Failed to clean up " +:+ Server.originalname file +:+ ":") w3)
      as [w4 [Hc [Hh4 [Hb4 [Hfr4 Hd4]]]]].
    rewrite bind_run, Hc.
    rewrite (job_update_run l
               (Server.push_error (error_info_of file e (clock (tick w))) j)).
    2:{ rewrite Hh4. subst w3. simpl. apply lookup_insert_eq. }
    eexists. split; [reflexivity|]. simpl.
    rewrite Hb4, Hh4, Hfr4, Hd4. subst w3. simpl.
    rewrite insert_insert_eq. repeat split; reflexivity.
Qed.

End BatchRuns2.
Section DurableJob.
Context {E : Env}.

(** The row the final update writes over a [batch_jobs] row. *)
Definition completed_row (t : Z) (n s f : nat) (rs : list Payload.Manifest)
    (es : list Schema.error_info) (r : Schema.batch_jobs_row)
  : Schema.batch_jobs_row :=
  {| Schema.b_id := Schema.b_id r;
     Schema.job_id := Schema.job_id r;
     Schema.total_files := Schema.total_files r;
     Schema.processed_files := n;
     Schema.successful_files := s;
     Schema.failed_files := f;
     Schema.status := "completed";
     Schema.results := rs;
     Schema.errors := es;
     Schema.error_message := Schema.error_message r;
     Schema.started_at := Schema.started_at r;
     Schema.completed_at := Some t |}.

(** The [batch_jobs] table after the final update of the job [jobId]. *)
Definition completed_rows (jobId : string) (t : Z) (n s f : nat)
    (rs : list Payload.Manifest) (es : list Schema.error_info)
    (rows : list Schema.batch_jobs_row) : list Schema.batch_jobs_row :=
  map (fun r => if String.eqb (Schema.job_id r) jobId
                then completed_row t n s f rs es r else r) rows.

Lemma update_rows_completed jobId t n s f rs es rows :
  DatabaseService.update_rows
    [DatabaseService.PText "completed"; DatabaseService.PTime t;
     DatabaseService.PNat n; DatabaseService.PNat s; DatabaseService.PNat f;
     DatabaseService.PResults rs; DatabaseService.PErrors es;
     DatabaseService.PText jobId]
    [(DatabaseService.col_status, 1%nat);
     (DatabaseService.col_completed_at, 2%nat);
     (DatabaseService.col_processed_files, 3%nat);
     (DatabaseService.col_successful_files, 4%nat);
     (DatabaseService.col_failed_files, 5%nat);
     (DatabaseService.col_results, 6%nat);
     (DatabaseService.col_errors, 7%nat)]
    jobId rows
  = Some (completed_rows jobId t n s f rs es rows).
Proof.
  induction rows as [|r rows IH]; [reflexivity|].
  cbn [DatabaseService.update_rows completed_rows map].
  fold (completed_rows jobId t n s f rs es rows). rewrite IH.
  destruct (String.eqb (Schema.job_id r) jobId); reflexivity.
Qed.

(** The final update either rewrites the rows of the job, or throws and
    leaves the store as it was; it does the former when neither of its two
    external calls fails. *)
Lemma updateBatchJob_completed_run jobId n s f rs es (w : World) :
  exists r w',
    DatabaseService.updateBatchJob jobId
      {| DatabaseService.status := Some "completed";
         DatabaseService.processedFiles := Some n;
         DatabaseService.successfulFiles := Some s;
         DatabaseService.failedFiles := Some f;
         DatabaseService.results := Some rs;
         DatabaseService.errors := Some es;
         DatabaseService.errorMessage := None |} w = (r, w') /\
    match r with
    | Return _ =>
        db w' = Schema.with_batch_jobs
                  (completed_rows jobId (clock (S (tick w))) n s f rs es
                     (Schema.batch_jobs (db w))) (db w)
    | Throw _ => db w' = db w
    end /\
    (fault (tick w) = None -> fault (S (tick w)) = None -> r = Return tt).
Proof.
  unfold DatabaseService.updateBatchJob.
  rewrite bind_run, pool_connect_run.
  destruct (fault (tick w)) eqn:H0.
  - eexists _, _. split; [reflexivity|]. split; [reflexivity|].
    intros; discriminate.
  - unfold try_finally. rewrite bind_run. unfold now at 1.
    cbn [DatabaseService.push_set DatabaseService.status
         DatabaseService.processedFiles DatabaseService.successfulFiles
         DatabaseService.failedFiles DatabaseService.results
         DatabaseService.errors DatabaseService.errorMessage
         DatabaseService.given String.eqb Ascii.eqb Bool.eqb app].
    rewrite query_run. simpl tick.
    destruct (fault (S (tick w))) eqn:H1.
    + eexists _, _. split; [reflexivity|]. split; [reflexivity|].
      intros; discriminate.
    + unfold DatabaseService.UPDATE_batch_jobs, visible. simpl txn. simpl db.
      cbn [DatabaseService.text_param nth_error Nat.pred].
      rewrite update_rows_completed.
      eexists _, _. split; [reflexivity|]. split; reflexivity.
Qed.

End DurableJob.
Section BatchRuns3.
Context {E : Env}.

(** The loop over the files of a registered job always runs to its end;
    it adds one to the processed count per file, and one result or one
    error per file, counted by the matching tally. *)
Lemma batch_loop l jobId storeInDb (files : list Server.file) :
  forall i (w : World) j,
    heap w !! l = Some j ->
    exists w' j',
      for_each i files (Server.process_file (Some l) jobId storeInDb) w
      = (Return tt, w') /\
      heap w' = <[l := j']> (heap w) /\
      batchJobs w' = batchJobs w /\
      Schema.batch_jobs (db w') = Schema.batch_jobs (db w) /\
      status j' = status j /\
      total_files j' = total_files j /\
      (processed_files j' = processed_files j + length files)%nat /\
      (length (results j') + successfulFiles (frame w)
       = length (results j) + successfulFiles (frame w'))%nat /\
      (length (errors j') + failedFiles (frame w)
       = length (errors j) + failedFiles (frame w'))%nat /\
      (successfulFiles (frame w') + failedFiles (frame w')
       = successfulFiles (frame w) + failedFiles (frame w) + length files)%nat.
Proof.
  induction files as [|file files IH]; intros i w j Hj; simpl.
  - exists w, j. rewrite insert_id by exact Hj.
    repeat split; lia.
  - destruct (process_file_run l j jobId storeInDb i file w Hj)
      as [w1 [Hrun [Hb1 [Hbj1 Hcase]]]].
    rewrite bind_run, Hrun.
    assert (Hstep : exists j1,
      heap w1 = <[l := j1]> (heap w) /\ status j1 = status j /\
      total_files j1 = total_files j /\
      processed_files j1 = S (processed_files j) /\
      (length (results j1) + successfulFiles (frame w)
       = length (results j) + successfulFiles (frame w1))%nat /\
      (length (errors j1) + failedFiles (frame w)
       = length (errors j) + failedFiles (frame w1))%nat /\
      (successfulFiles (frame w1) + failedFiles (frame w1)
       = S (successfulFiles (frame w) + failedFiles (frame w)))%nat).
    { destruct (processPDF (Server.path file)) as [data|e].
      - destruct Hcase as [[x [Hh _]] [Hs Hf]]. eexists. split; [exact Hh|].
        simpl. rewrite length_app. simpl. repeat split; lia.
      - destruct Hcase as [Hh [Hs Hf]]. eexists. split; [exact Hh|].
        simpl. rewrite length_app. simpl. repeat split; lia. }
    destruct Hstep as [j1 [Hh1 [Hst1 [Htf1 [Hp1 [Hr1 [He1 Ht1]]]]]]].
    assert (Hj1 : heap w1 !! l = Some j1)
      by (rewrite Hh1; apply lookup_insert_eq).
    destruct (IH (S i) w1 j1 Hj1)
      as [w2 [j2 [Hrun2 [Hh2 [Hb2 [Hbj2 [Hst2 [Htf2 [Hp2 [Hr2 [He2 Ht2]]]]]]]]]]].
    exists w2, j2. split; [exact Hrun2|].
    rewrite Hh2, Hh1, insert_insert_eq.
    repeat split; try congruence; lia.
Qed.

(** Marking the job completed always completes on a registered job.  In
    memory the job gets its final status and time, whatever the store
    does.  In the store, when [storeInDb] holds, either the rows of the job
    are rewritten, or the update throws, the store is left as it was and
    the error is written to the console. *)
Lemma complete_job_run l j jobId files storeInDb (w : World) :
  heap w !! l = Some j ->
  exists w',
    Server.complete_job (Some l) jobId files storeInDb w = (Return tt, w') /\
    heap w' = <[l := Server.set_completed_at (clock (tick w))
                        (Server.set_status "completed" j)]> (heap w) /\
    batchJobs w' = batchJobs w /\ frame w' = frame w /\
    (if storeInDb then
       db w' = Schema.with_batch_jobs
                 (completed_rows jobId (clock (S (tick w))) (length files)
                    (successfulFiles (frame w)) (failedFiles (frame w))
                    (results j) (errors j) (Schema.batch_jobs (db w))) (db w)
       \/ (db w' = db w /\
           exists e,
             In (ConsoleError "Failed to update batch job in database:" e)
                (console w'))
     else db w' = db w) /\
    (storeInDb = true -> fault (tick w) = None -> fault (S (tick w)) = None ->
     db w' = Schema.with_batch_jobs
               (completed_rows jobId (clock (S (tick w))) (length files)
                  (successfulFiles (frame w)) (failedFiles (frame w))
                  (results j) (errors j) (Schema.batch_jobs (db w))) (db w)).
Proof.
  intros Hj. unfold Server.complete_job.
  rewrite bind_run, (job_update_run l j) by exact Hj.
  rewrite bind_run. unfold now at 1.
  rewrite bind_run, (job_update_run l (Server.set_status "completed" j))
    by apply lookup_insert_eq.
  set (w1 := with_heap _ _).
  assert (Hj1 : heap w1 !! l
                = Some (Server.set_completed_at (clock (tick w))
                          (Server.set_status "completed" j)))
    by apply lookup_insert_eq.
  assert (Hw1 : heap w1 = <[l := Server.set_completed_at (clock (tick w))
                                   (Server.set_status "completed" j)]> (heap w)
                /\ batchJobs w1 = batchJobs w /\ frame w1 = frame w
                /\ db w1 = db w /\ tick w1 = tick w).
  { subst w1. simpl. rewrite insert_insert_eq. repeat split. }
  clearbody w1. destruct Hw1 as [Hh1 [Hb1 [Hf1 [Hd1 Ht1]]]].
  rewrite bind_run.
  set (updated :=
         Schema.with_batch_jobs
           (completed_rows jobId (clock (S (tick w1))) (length files)
              (successfulFiles (frame w1)) (failedFiles (frame w1))
              (results j) (errors j) (Schema.batch_jobs (db w1))) (db w1)).
  assert (Hupd : exists w2,
    (if storeInDb then
       try_catch
         (let* successfulFiles := Server.get_frame successfulFiles in
          let* failedFiles := Server.get_frame failedFiles in
          let* results := Server.job_read (Some l) results in
          let* errors := Server.job_read (Some l) errors in
          DatabaseService.updateBatchJob jobId
            {| DatabaseService.status := Some "completed";
               DatabaseService.processedFiles := Some (length files);
               DatabaseService.successfulFiles := Some successfulFiles;
               DatabaseService.failedFiles := Some failedFiles;
               DatabaseService.results := Some results;
               DatabaseService.errors := Some errors;
               DatabaseService.errorMessage := None |})
         (fun dbError =>
            console_error "Failed to update batch job in database:" dbError)
     else ret tt) w1 = (Return tt, w2) /\
    process_state w2 = process_state w1 /\
    (if storeInDb then
       db w2 = updated \/
       (db w2 = db w1 /\
        exists e,
          In (ConsoleError "Failed to update batch job in database:" e)
             (console w2))
     else db w2 = db w1) /\
    (storeInDb = true -> fault (tick w1) = None ->
     fault (S (tick w1)) = None -> db w2 = updated)).
  { destruct storeInDb.
    2:{ exists w1. repeat split. discriminate. }
    unfold try_catch. rewrite bind_run. unfold Server.get_frame at 1.
    rewrite bind_run. unfold Server.get_frame at 1.
    rewrite bind_run, (job_read_run l _ _ w1 Hj1).
    rewrite bind_run, (job_read_run l _ _ w1 Hj1).
    cbn [results errors Server.set_completed_at Server.set_status].
    pose proof (updateBatchJob_process_state jobId
      {| DatabaseService.status := Some "completed";
         DatabaseService.processedFiles := Some (length files);
         DatabaseService.successfulFiles := Some (successfulFiles (frame w1));
         DatabaseService.failedFiles := Some (failedFiles (frame w1));
         DatabaseService.results := Some (results j);
         DatabaseService.errors := Some (errors j);
         DatabaseService.errorMessage := None |} w1) as Hps.
    destruct (updateBatchJob_completed_run jobId (length files)
                (successfulFiles (frame w1)) (failedFiles (frame w1))
                (results j) (errors j) w1) as [r [w2 [Hrun [Hcase Hok]]]].
    rewrite Hrun in Hps |- *. simpl in Hps.
    destruct r as [u|e].
    - destruct u. exists w2. split; [reflexivity|]. split; [exact Hps|].
      split; [left; exact Hcase | intros; exact Hcase].
    - eexists. split; [reflexivity|]. simpl. split; [exact Hps|].
      split.
      + right. split; [exact Hcase|]. exists e.
        apply in_or_app. right. left. reflexivity.
      + intros _ H0 H1. specialize (Hok H0 H1). discriminate. }
  destruct Hupd as [w2 [Hrun2 [Hps2 [Hcase Hok]]]]. rewrite Hrun2.
  injection Hps2 as Hh2 Hb2 _ Hf2.
  unfold Server.get_frame, console_log. rewrite !bind_run. simpl.
  eexists. split; [reflexivity|]. simpl.
  rewrite Hh2, Hb2, Hf2. subst updated.
  rewrite Hf1, Hd1, Ht1 in Hcase, Hok.
  repeat split; auto.
  destruct storeInDb; [|exact Hcase].
  destruct Hcase as [Hc | [Hc [e He]]]; [left; exact Hc|].
  right. split; [exact Hc|]. exists e. apply in_or_app. left. exact He.
Qed.

(** On a registered job the batch processor always completes, and leaves
    the job completed, whatever failed on the way. *)
Lemma batch_completes l j jobId files storeInDb (w : World) :
  batchJobs w !! jobId = Some l ->
  heap w !! l = Some j ->
  exists w' j',
    Server.processBatchInBackground jobId files storeInDb w = (Return tt, w') /\
    heap w' !! l = Some j' /\
    batchJobs w' = batchJobs w /\
    status j' = "completed" /\
    total_files j' = total_files j /\
    (processed_files j' = processed_files j + length files)%nat /\
    length (results j') = (length (results j) + successfulFiles (frame w'))%nat /\
    length (errors j') = (length (errors j) + failedFiles (frame w'))%nat /\
    (successfulFiles (frame w') + failedFiles (frame w') = length files)%nat.
Proof.
  intros Hreg Hj. unfold Server.processBatchInBackground.
  rewrite bind_run. unfold Server.batchJobs_get at 1. rewrite Hreg.
  rewrite bind_run. unfold Server.set_frame at 1.
  set (w0 := with_frame _ w).
  unfold try_catch. rewrite bind_run.
  destruct (batch_loop l jobId storeInDb files 0 w0 j Hj)
    as [w1 [j1 [Hrun [Hh1 [Hb1 [_ [Hst1 [Htf1 [Hp1 [Hr1 [He1 Ht1]]]]]]]]]]].
  rewrite Hrun.
  assert (Hj1 : heap w1 !! l = Some j1)
    by (rewrite Hh1; apply lookup_insert_eq).
  destruct (complete_job_run l j1 jobId files storeInDb w1 Hj1)
    as [w2 [Hrun2 [Hh2 [Hb2 [Hf2 _]]]]].
  rewrite Hrun2. eexists w2, _. split; [reflexivity|].
  split; [rewrite Hh2; apply lookup_insert_eq|].
  rewrite Hb2, Hb1, Hf2. subst w0. simpl in *.
  repeat split; try lia.
Qed.

End BatchRuns3.

(** ** The submission, end to end *)

Section Submission.
Context {E : Env}.

(** A batch of at least one file is answered with the id of a new job in
    status [processing]; the job is registered under that id, and the
    batch processor, run for it, leaves it completed with every file
    processed. *)
Lemma submitted_batch_completes (files : list Server.file)
    (store_in_db : option string) (w : World) :
  files <> [] ->
  exists started w' l j',
    Server.extract_batch files store_in_db w
    = (Return (Server.Json started), w') /\
    Server.job_id started = gen_id (tick w) /\
    Server.status_ started = "processing" /\
    Server.total_files_ started = length files /\
    batchJobs w' !! Server.job_id started = Some l /\
    heap w' !! l = Some j' /\
    status j' = "completed" /\
    processed_files j' = length files /\
    total_files j' = length files /\
    (length (results j') + length (errors j'))%nat = length files.
Proof.
  intros Hne. destruct files as [|f fs]; [contradiction|].
  set (files := f :: fs).
  unfold Server.extract_batch. unfold try_catch at 1.
  change (match files with
          | [] => ret (Server.Status 400 "No PDF files provided")
          | _ :: _ => ?k
          end) with k.
  cbv beta iota.
  rewrite bind_run. unfold uuidv4 at 1.
  rewrite bind_run. unfold now at 1.
  rewrite bind_run. unfold Server.batchJobs_set_new at 1.
  set (storeInDb := match store_in_db with
                    | Some q => negb (String.eqb q "false")
                    | None => true
                    end).
  set (jobId := gen_id (tick w)).
  set (w0 := with_tick (S (tick w)) w).
  set (l := fresh (dom (heap w0))).
  set (job0 := {| status := "processing" |}).
  set (w1 := with_batchJobs _ _).
  assert (Hreg1 : batchJobs w1 !! jobId = Some l) by apply lookup_insert_eq.
  assert (Hj1 : heap w1 !! l = Some job0) by apply lookup_insert_eq.
  clearbody w1.
  rewrite bind_run.
  assert (Hcreate : exists w2,
    (if storeInDb then
       try_catch
         (DatabaseService.createBatchJob jobId (length files) ;; ret tt)
         (fun dbError =>
            console_error "Failed to create batch job in database:" dbError)
     else ret tt) w1 = (Return tt, w2) /\
    process_state w2 = process_state w1).
  { destruct storeInDb; [|exists w1; split; reflexivity].
    unfold try_catch. rewrite bind_run.
    pose proof (createBatchJob_process_state jobId (length files) w1) as Hps.
    destruct (DatabaseService.createBatchJob jobId (length files) w1)
      as [[i|e] w2]; simpl in Hps; eexists; (split; [reflexivity|exact Hps]). }
  destruct Hcreate as [w2 [Hrun2 Hps2]]. rewrite Hrun2.
  injection Hps2 as Hh2 Hb2 _ _.
  assert (Hreg2 : batchJobs w2 !! jobId = Some l) by congruence.
  assert (Hj2 : heap w2 !! l = Some job0) by congruence.
  destruct (batch_completes l job0 jobId files storeInDb w2 Hreg2 Hj2)
    as [w3 [j3 [Hrun3 [Hj3 [Hb3 [Hst3 [Htf3 [Hp3 [Hr3 [He3 Ht3]]]]]]]]]].
  rewrite bind_run. unfold detached at 1. rewrite Hrun3.
  eexists _, _, l, j3. split; [reflexivity|].
  cbn [Server.job_id Server.status_ Server.total_files_ snd].
  repeat split; try assumption.
  - rewrite Hb3. exact Hreg2.
  - rewrite Hr3, He3. subst job0. cbn [results errors length Nat.add].
    exact Ht3.
Qed.

End Submission.

(** ** C2: a batch of three items, the second of which fails *)

Lemma completed_rows_of_job jobId t n s f rs es rows r :
  In r (completed_rows jobId t n s f rs es rows) ->
  Schema.job_id r = jobId ->
  exists r0, r = completed_row t n s f rs es r0.
Proof.
  unfold completed_rows. intros Hin Hid.
  apply in_map_iff in Hin. destruct Hin as [r0 [Hr _]].
  destruct (String.eqb_spec (Schema.job_id r0) jobId) as [|Hne].
  - exists r0. symmetry. exact Hr.
  - subst r. contradiction.
Qed.

(** What the durable row of the job shows once the batch is done. *)
Definition finished_row (file2 : Server.file) (e : JS.error)
    (r : Schema.batch_jobs_row) : Prop :=
  Schema.status r = "completed" /\
  Schema.processed_files r = 3%nat /\
  Schema.successful_files r = 2%nat /\
  Schema.failed_files r = 1%nat /\
  length (Schema.results r) = 2%nat /\
  exists t, Schema.errors r = [error_info_of file2 e t].

(** C2.  A batch of three files, run for a newly registered job, in which
    the extractor succeeds on the first and the third file and throws on
    the second.  Whatever else fails (the store, the removal of the
    uploaded files), the batch processor completes and the job object has
    [processed_files = 3], two results, a single error that carries the
    name of the second file and the message thrown, and status
    [completed]; the tallies are 2 successful and 1 failed.  The durable
    rows of the job are either untouched (the store was not asked, or the
    update failed) or show [completed], 3, 2, 1, two results and that
    error; they show it when the store is asked and no external call
    fails. *)
Theorem batch_of_three_one_failure {E : Env} (jobId : string)
    (file1 file2 file3 : Server.file) (data1 data3 : Payload.Manifest)
    (e : JS.error) (storeInDb : bool) (w : World) (l : nat) (j : JobStatus) :
  processPDF (Server.path file1) = inl data1 ->
  processPDF (Server.path file2) = inr e ->
  processPDF (Server.path file3) = inl data3 ->
  batchJobs w !! jobId = Some l ->
  heap w !! l = Some j ->
  processed_files j = 0%nat -> results j = [] -> errors j = [] ->
  exists w' j',
    Server.processBatchInBackground jobId [file1; file2; file3] storeInDb w
    = (Return tt, w') /\
    batchJobs w' !! jobId = Some l /\
    heap w' !! l = Some j' /\
    processed_files j' = 3%nat /\
    successfulFiles (frame w') = 2%nat /\
    failedFiles (frame w') = 1%nat /\
    (exists t, errors j' = [error_info_of file2 e t]) /\
    length (results j') = 2%nat /\
    status j' = "completed" /\
    (forall r, In r (Schema.batch_jobs (db w')) -> Schema.job_id r = jobId ->
               In r (Schema.batch_jobs (db w)) \/ finished_row file2 e r) /\
    (storeInDb = true -> (forall k, fault k = None) ->
     forall r, In r (Schema.batch_jobs (db w')) -> Schema.job_id r = jobId ->
               finished_row file2 e r).
Proof.
  intros He1 He2 He3 Hreg Hj Hp0 Hr0 Herr0.
  unfold Server.processBatchInBackground.
  rewrite bind_run. unfold Server.batchJobs_get at 1. rewrite Hreg.
  rewrite bind_run. unfold Server.set_frame at 1.
  set (w0 := with_frame _ w).
  unfold try_catch. rewrite bind_run. cbn [for_each].
  destruct (process_file_run l j jobId storeInDb 0 file1 w0 Hj)
    as [w1 [Hrun1 [Hb1 [Hbj1 Hc1]]]].
  rewrite He1 in Hc1. destruct Hc1 as [[x1 [Hh1 _]] [Hs1 Hf1]].
  rewrite bind_run, Hrun1.
  assert (Hj1 : heap w1 !! l
                = Some (Server.incr_processed (Server.push_result x1 j)))
    by (rewrite Hh1; apply lookup_insert_eq).
  destruct (process_file_run l _ jobId storeInDb 1 file2 w1 Hj1)
    as [w2 [Hrun2 [Hb2 [Hbj2 Hc2]]]].
  rewrite He2 in Hc2. destruct Hc2 as [Hh2 [Hs2 Hf2]].
  rewrite bind_run, Hrun2.
  set (j2 := Server.incr_processed (Server.push_error _ _)) in Hh2.
  assert (Hj2 : heap w2 !! l = Some j2)
    by (rewrite Hh2; apply lookup_insert_eq).
  destruct (process_file_run l _ jobId storeInDb 2 file3 w2 Hj2)
    as [w3 [Hrun3 [Hb3 [Hbj3 Hc3]]]].
  rewrite He3 in Hc3. destruct Hc3 as [[x3 [Hh3 _]] [Hs3 Hf3]].
  rewrite bind_run, Hrun3.
  set (j3 := Server.incr_processed (Server.push_result x3 j2)) in Hh3.
  assert (Hj3 : heap w3 !! l = Some j3)
    by (rewrite Hh3; apply lookup_insert_eq).
  destruct (complete_job_run l j3 jobId [file1; file2; file3] storeInDb w3 Hj3)
    as [w4 [Hrun4 [Hh4 [Hb4 [Hfr4 [Hor Hok]]]]]].
  unfold ret at 1. cbv beta iota.
  rewrite Hrun4.
  assert (Hs : successfulFiles (frame w3) = 2%nat)
    by (rewrite Hs3, Hs2, Hs1; reflexivity).
  assert (Hf : failedFiles (frame w3) = 1%nat)
    by (rewrite Hf3, Hf2, Hf1; reflexivity).
  assert (Hres : length (results j3) = 2%nat).
  { subst j3 j2. simpl. rewrite Hr0. reflexivity. }
  assert (Herrs : errors j3 = [error_info_of file2 e (clock (tick w1))]).
  { subst j3 j2. simpl. rewrite Herr0. reflexivity. }
  assert (Hproc : processed_files j3 = 3%nat).
  { subst j3 j2. simpl. rewrite Hp0. reflexivity. }
  clearbody j3. clear Hj2 Hh2. clearbody j2.
  assert (Hbj : Schema.batch_jobs (db w3) = Schema.batch_jobs (db w))
    by (rewrite Hbj3, Hbj2, Hbj1; reflexivity).
  assert (Hfin : forall r0,
    finished_row file2 e
      (completed_row (clock (S (tick w3))) 3
         (successfulFiles (frame w3)) (failedFiles (frame w3))
         (results j3) (errors j3) r0)).
  { intros r0. unfold finished_row. simpl. rewrite Hs, Hf, Hres, Herrs.
    repeat split. eexists. reflexivity. }
  eexists w4, _. split; [reflexivity|].
  split; [rewrite Hb4, Hb3, Hb2, Hb1; exact Hreg|].
  split; [rewrite Hh4; apply lookup_insert_eq|].
  split; [exact Hproc|].
  split; [rewrite Hfr4; exact Hs|].
  split; [rewrite Hfr4; exact Hf|].
  split; [exists (clock (tick w1)); exact Herrs|].
  split; [exact Hres|].
  split; [reflexivity|].
  split.
  - intros r Hin Hid.
    assert (Hcases : db w4 = db w3 \/
                     db w4 = Schema.with_batch_jobs
                       (completed_rows jobId (clock (S (tick w3))) 3
                          (successfulFiles (frame w3)) (failedFiles (frame w3))
                          (results j3) (errors j3)
                          (Schema.batch_jobs (db w3))) (db w3)).
    { destruct storeInDb; [|left; exact Hor].
      destruct Hor as [Hnew | [Hsame _]]; [right; exact Hnew | left; exact Hsame]. }
    destruct Hcases as [Hsame | Hnew].
    + left. rewrite Hsame, Hbj in Hin. exact Hin.
    + right. rewrite Hnew in Hin. simpl in Hin.
      destruct (completed_rows_of_job _ _ _ _ _ _ _ _ _ Hin Hid) as [r0 ->].
      apply Hfin.
  - intros Hstore Hquiet r Hin Hid.
    rewrite (Hok Hstore (Hquiet _) (Hquiet _)) in Hin. simpl in Hin.
    destruct (completed_rows_of_job _ _ _ _ _ _ _ _ _ Hin Hid) as [r0 ->].
    apply Hfin.
Qed.

Module SampleBatch.

(** An environment in which nothing fails and the extractor rejects the
    file [uploads/2]. *)
Definition extractor : Env :=
  {| fault := fun _ => None;
     gen_id := fun k => "id" +:+ DatabaseService.decimal k;
     clock := fun k => Z.of_nat k;
     processPDF := fun p =>
       if String.eqb p "uploads/2" then inr (JS.Error "Invalid PDF structure")
       else inl Sample.two_stops |}.

(** An environment in which every external call fails and the extractor
    accepts every file. *)
Definition store_down : Env :=
  {| fault := fun _ => Some "connection refused";
     gen_id := fun k => "id" +:+ DatabaseService.decimal k;
     clock := fun k => Z.of_nat k;
     processPDF := fun _ => inl Sample.two_stops |}.

Definition upload (n : string) : Server.file :=
  {| Server.path := "uploads/" +:+ n;
     Server.originalname := "manifest-" +:+ n +:+ ".pdf";
     Server.size := 2048 |}.

(** The job object [POST /extract/batch] creates for [n] files. *)
Definition new_job (n : nat) : JobStatus :=
  {| status := "processing"; total_files := n; processed_files := 0;
     results := []; errors := []; started_at := 0; store_in_db := true;
     completed_at := None; error := None; failed_at := None |}.

(** A process in which the job [job-1] of three files is registered. *)
Definition registered : World :=
  {| db := Schema.empty; txn := None; in_use := 0; tick := 0;
     heap := {[ 0%nat := new_job 3 ]};
     batchJobs := {[ "job-1" := 0%nat ]};
     files := ∅; console := [];
     frame := {| successfulFiles := 0; failedFiles := 0;
                 extractedData := None |} |}.

(** The same once the durable row of the job exists. *)
Definition created : World :=
  snd (DatabaseService.createBatchJob (E := extractor) "job-1" 3 registered).

End SampleBatch.

Example batch_of_three_one_failure_witness :
  exists w' j',
    Server.processBatchInBackground (E := SampleBatch.extractor) "job-1"
      [SampleBatch.upload "1"; SampleBatch.upload "2"; SampleBatch.upload "3"]
      true SampleBatch.registered
    = (Return tt, w') /\
    batchJobs w' !! "job-1" = Some 0%nat /\
    heap w' !! 0%nat = Some j' /\
    processed_files j' = 3%nat /\
    successfulFiles (frame w') = 2%nat /\
    failedFiles (frame w') = 1%nat /\
    (exists t,
       errors j' = [error_info_of (SampleBatch.upload "2")
                      (JS.Error "Invalid PDF structure") t]) /\
    length (results j') = 2%nat /\
    status j' = "completed" /\
    (forall r,
       In r (Schema.batch_jobs (db w')) -> Schema.job_id r = "job-1" ->
       In r (Schema.batch_jobs (db SampleBatch.registered)) \/
       finished_row (SampleBatch.upload "2")
         (JS.Error "Invalid PDF structure") r) /\
    (true = true ->
     (forall k, fault (Env := SampleBatch.extractor) k = None) ->
     forall r,
       In r (Schema.batch_jobs (db w')) -> Schema.job_id r = "job-1" ->
       finished_row (SampleBatch.upload "2")
         (JS.Error "Invalid PDF structure") r).
Proof.
  apply (batch_of_three_one_failure (E := SampleBatch.extractor) "job-1"
           (SampleBatch.upload "1") (SampleBatch.upload "2")
           (SampleBatch.upload "3") Sample.two_stops Sample.two_stops
           (JS.Error "Invalid PDF structure") true SampleBatch.registered
           0%nat (SampleBatch.new_job 3));
    reflexivity.
Defined.

(** ** C10: an item that is extracted but cannot be stored *)

(** C10.  An item of a registered job whose extraction succeeds and for
    which [storeManifest] throws: the turn of the loop completes; the
    extraction, with its processing metadata and the message thrown as
    [database_error], is appended to the results of the job and nothing is
    appended to its errors; the tally of successful files goes up by one
    and the tally of failed files stays; no row is added to
    [batch_job_manifests]; and the batch, continued from this item over
    whatever files follow, finalizes as [completed]. *)
Theorem persistence_failure_is_a_result {E : Env} (l : nat) (j : JobStatus)
    (jobId : string) (order : nat) (file : Server.file)
    (data : Payload.Manifest) (e : JS.error) (w w2 : World) :
  heap w !! l = Some j ->
  processPDF (Server.path file) = inl data ->
  DatabaseService.storeManifest
    (Payload.set_processing_info
       (processing_info_of file data (clock (tick w))) data)
    (processing_info_of file data (clock (tick w)))
    (item_state
       (Payload.set_processing_info
          (processing_info_of file data (clock (tick w))) data) w)
  = (Throw e, w2) ->
  (exists w' j',
     Server.process_file (Some l) jobId true order file w = (Return tt, w') /\
     heap w' !! l = Some j' /\
     results j' =
       results j ++
       [Payload.set_database_error (JS.message e)
          (Payload.set_processing_info
             (processing_info_of file data (clock (tick w))) data)] /\
     errors j' = errors j /\
     processed_files j' = S (processed_files j) /\
     successfulFiles (frame w') = S (successfulFiles (frame w)) /\
     failedFiles (frame w') = failedFiles (frame w) /\
     Schema.batch_job_manifests (db w') = Schema.batch_job_manifests (db w)) /\
  (forall (files after : list Server.file),
     exists w'' j'',
       (for_each order (file :: after) (Server.process_file (Some l) jobId true) ;;
        Server.complete_job (Some l) jobId files true) w
       = (Return tt, w'') /\
       heap w'' !! l = Some j'' /\
       status j'' = "completed").
Proof.
  intros Hj Hdata Hstore. split.
  - destruct (process_file_run l j jobId true order file w Hj)
      as [w' [Hrun [_ [_ Hcase]]]].
    rewrite Hdata in Hcase. cbv zeta in Hcase.
    destruct Hcase as [[x [Hh Hx]] [Hs Hf]].
    rewrite Hstore in Hx. destruct Hx as [-> Hdb].
    eexists w', _. split; [exact Hrun|].
    split; [rewrite Hh; apply lookup_insert_eq|].
    simpl. rewrite Hdb. repeat split; assumption.
  - intros files after.
    destruct (batch_loop l jobId true (file :: after) order w j Hj)
      as [w1 [j1 [Hrun [Hh1 _]]]].
    assert (Hj1 : heap w1 !! l = Some j1)
      by (rewrite Hh1; apply lookup_insert_eq).
    destruct (complete_job_run l j1 jobId files true w1 Hj1)
      as [w2' [Hrun2 [Hh2 _]]].
    rewrite bind_run, Hrun, Hrun2.
    eexists w2', _. split; [reflexivity|].
    split; [rewrite Hh2; apply lookup_insert_eq | reflexivity].
Qed.

Example persistence_failure_is_a_result_witness :
  (exists w' j',
     Server.process_file (E := SampleBatch.store_down) (Some 0%nat) "job-1"
       true 0 (SampleBatch.upload "1") SampleBatch.registered
     = (Return tt, w') /\
     heap w' !! 0%nat = Some j' /\
     results j' =
       results (SampleBatch.new_job 3) ++
       [Payload.set_database_error "connection refused"
          (Payload.set_processing_info
             (processing_info_of (SampleBatch.upload "1") Sample.two_stops 0)
             Sample.two_stops)] /\
     errors j' = errors (SampleBatch.new_job 3) /\
     processed_files j' = S (processed_files (SampleBatch.new_job 3)) /\
     successfulFiles (frame w')
       = S (successfulFiles (frame SampleBatch.registered)) /\
     failedFiles (frame w') = failedFiles (frame SampleBatch.registered) /\
     Schema.batch_job_manifests (db w')
       = Schema.batch_job_manifests (db SampleBatch.registered)) /\
  (forall (files after : list Server.file),
     exists w'' j'',
       (for_each 0 (SampleBatch.upload "1" :: after)
          (Server.process_file (E := SampleBatch.store_down) (Some 0%nat)
             "job-1" true) ;;
        Server.complete_job (E := SampleBatch.store_down) (Some 0%nat) "job-1"
          files true) SampleBatch.registered
       = (Return tt, w'') /\
       heap w'' !! 0%nat = Some j'' /\
       status j'' = "completed").
Proof.
  apply (persistence_failure_is_a_result (E := SampleBatch.store_down) 0%nat
           (SampleBatch.new_job 3) "job-1" 0 (SampleBatch.upload "1")
           Sample.two_stops (JS.Error "connection refused")
           SampleBatch.registered
           (snd (DatabaseService.storeManifest (E := SampleBatch.store_down)
                   (Payload.set_processing_info
                      (processing_info_of (SampleBatch.upload "1")
                         Sample.two_stops 0) Sample.two_stops)
                   (processing_info_of (SampleBatch.upload "1")
                      Sample.two_stops 0)
                   (item_state
                      (Payload.set_processing_info
                         (processing_info_of (SampleBatch.upload "1")
                            Sample.two_stops 0) Sample.two_stops)
                      SampleBatch.registered))));
    reflexivity.
Defined.

(** ** C6: where progress is written *)

(** C6 as stated fails.  The job [job-1] has its durable row; the first
    item of the batch is processed with [storeInDb] set and nothing fails.
    After the item the job object in memory shows one processed file and
    one result, while the durable row still shows the zero progress it was
    created with. *)
Example durable_progress_is_not_written_per_item :
  let w := snd (Server.process_file (E := SampleBatch.extractor) (Some 0%nat)
                  "job-1" true 0 (SampleBatch.upload "1") SampleBatch.created) in
  fault (Env := SampleBatch.extractor) = (fun _ => None) /\
  (processed_files <$> heap w !! 0%nat) = Some 1%nat /\
  (length <$> (results <$> heap w !! 0%nat)) = Some 1%nat /\
  map Schema.job_id (Schema.batch_jobs (db w)) = ["job-1"] /\
  map Schema.processed_files (Schema.batch_jobs (db w)) = [0%nat] /\
  map Schema.successful_files (Schema.batch_jobs (db w)) = [0%nat] /\
  map Schema.status (Schema.batch_jobs (db w)) = ["processing"].
Proof. vm_compute. repeat split. Qed.

(** C6, amended.  After every item of a registered job, the job object in
    memory has one more processed file and either one more result (and the
    success tally one more) or one more error (and the failure tally one
    more), and [GET /batch/status] answers with that object; the [batch_jobs]
    table is not written.  The durable row is written when the job is
    finalized: marking the job completed always completes and sets the
    final status in memory, and then either the rows of the job are
    rewritten, or the update throws, is written to the console, and leaves
    the store as it was. *)
Theorem progress_is_kept_in_memory {E : Env} (l : nat) (j : JobStatus)
    (jobId : string) (storeInDb : bool) (w : World) :
  batchJobs w !! jobId = Some l ->
  heap w !! l = Some j ->
  (forall (order : nat) (file : Server.file),
     exists w' j',
       Server.process_file (Some l) jobId storeInDb order file w
       = (Return tt, w') /\
       heap w' !! l = Some j' /\
       processed_files j' = S (processed_files j) /\
       ((exists x, results j' = results j ++ [x]) /\ errors j' = errors j /\
        successfulFiles (frame w') = S (successfulFiles (frame w)) /\
        failedFiles (frame w') = failedFiles (frame w)
        \/
        (exists x, errors j' = errors j ++ [x]) /\ results j' = results j /\
        successfulFiles (frame w') = successfulFiles (frame w) /\
        failedFiles (frame w') = S (failedFiles (frame w))) /\
       fst (Server.batch_status jobId w')
       = Return (Server.Json (Server.FromMemory j')) /\
       Schema.batch_jobs (db w') = Schema.batch_jobs (db w)) /\
  (forall (files : list Server.file),
     exists w',
       Server.complete_job (Some l) jobId files storeInDb w = (Return tt, w') /\
       heap w' !! l = Some (Server.set_completed_at (clock (tick w))
                              (Server.set_status "completed" j)) /\
       if storeInDb then
         db w' = Schema.with_batch_jobs
                   (completed_rows jobId (clock (S (tick w))) (length files)
                      (successfulFiles (frame w)) (failedFiles (frame w))
                      (results j) (errors j) (Schema.batch_jobs (db w))) (db w)
         \/ (db w' = db w /\
             exists e,
               In (ConsoleError "Failed to update batch job in database:" e)
                  (console w'))
       else db w' = db w).
Proof.
  intros Hreg Hj. split.
  - intros order file.
    destruct (process_file_run l j jobId storeInDb order file w Hj)
      as [w' [Hrun [Hb [Hbj Hcase]]]].
    assert (Hstatus : forall j',
      heap w' !! l = Some j' ->
      fst (Server.batch_status jobId w')
      = Return (Server.Json (Server.FromMemory j'))).
    { intros j' Hj'. unfold Server.batch_status, try_catch.
      rewrite bind_run. unfold Server.batchJobs_get at 1.
      rewrite Hb, Hreg. rewrite bind_run, (job_read_run l j' _ w' Hj').
      reflexivity. }
    destruct (processPDF (Server.path file)) as [data|e].
    + destruct Hcase as [[x [Hh _]] [Hs Hf]].
      assert (Hj' : heap w' !! l
                    = Some (Server.incr_processed (Server.push_result x j)))
        by (rewrite Hh; apply lookup_insert_eq).
      eexists w', _. split; [exact Hrun|]. split; [exact Hj'|].
      split; [reflexivity|]. split; [left; simpl; eauto|].
      split; [apply Hstatus; exact Hj' | exact Hbj].
    + destruct Hcase as [Hh [Hs Hf]].
      assert (Hj' : heap w' !! l
                    = Some (Server.incr_processed
                              (Server.push_error
                                 (error_info_of file e (clock (tick w))) j)))
        by (rewrite Hh; apply lookup_insert_eq).
      eexists w', _. split; [exact Hrun|]. split; [exact Hj'|].
      split; [reflexivity|]. split; [right; simpl; eauto|].
      split; [apply Hstatus; exact Hj' | exact Hbj].
  - intros files.
    destruct (complete_job_run l j jobId files storeInDb w Hj)
      as [w' [Hrun [Hh [_ [_ [Hcase _]]]]]].
    exists w'. split; [exact Hrun|].
    split; [rewrite Hh; apply lookup_insert_eq | exact Hcase].
Qed.

Example progress_is_kept_in_memory_witness :
  (forall (order : nat) (file : Server.file),
     exists w' j',
       Server.process_file (E := SampleBatch.extractor) (Some 0%nat) "job-1"
         true order file SampleBatch.created
       = (Return tt, w') /\
       heap w' !! 0%nat = Some j' /\
       processed_files j' = S (processed_files (SampleBatch.new_job 3)) /\
       ((exists x, results j' = results (SampleBatch.new_job 3) ++ [x]) /\
        errors j' = errors (SampleBatch.new_job 3) /\
        successfulFiles (frame w')
          = S (successfulFiles (frame SampleBatch.created)) /\
        failedFiles (frame w') = failedFiles (frame SampleBatch.created)
        \/
        (exists x, errors j' = errors (SampleBatch.new_job 3) ++ [x]) /\
        results j' = results (SampleBatch.new_job 3) /\
        successfulFiles (frame w')
          = successfulFiles (frame SampleBatch.created) /\
        failedFiles (frame w')
          = S (failedFiles (frame SampleBatch.created))) /\
       fst (Server.batch_status (E := SampleBatch.extractor) "job-1" w')
       = Return (Server.Json (Server.FromMemory j')) /\
       Schema.batch_jobs (db w')
       = Schema.batch_jobs (db SampleBatch.created)) /\
  (forall (files : list Server.file),
     exists w',
       Server.complete_job (E := SampleBatch.extractor) (Some 0%nat) "job-1"
         files true SampleBatch.created = (Return tt, w') /\
       heap w' !! 0%nat
       = Some (Server.set_completed_at
                 (clock (Env := SampleBatch.extractor)
                    (tick SampleBatch.created))
                 (Server.set_status "completed" (SampleBatch.new_job 3))) /\
       (db w' = Schema.with_batch_jobs
                  (completed_rows "job-1"
                     (clock (Env := SampleBatch.extractor)
                        (S (tick SampleBatch.created)))
                     (length files)
                     (successfulFiles (frame SampleBatch.created))
                     (failedFiles (frame SampleBatch.created))
                     (results (SampleBatch.new_job 3))
                     (errors (SampleBatch.new_job 3))
                     (Schema.batch_jobs (db SampleBatch.created)))
                  (db SampleBatch.created)
        \/ (db w' = db SampleBatch.created /\
            exists e,
              In (ConsoleError "Failed to update batch job in database:" e)
                 (console w')))).
Proof.
  apply (progress_is_kept_in_memory (E := SampleBatch.extractor) 0%nat
           (SampleBatch.new_job 3) "job-1" true SampleBatch.created);
    reflexivity.
Defined.

(** ** C4: malformed numeric fields *)

(** The part of the coercion that works: a missing, empty or otherwise
    falsy field is replaced by 0 before it is parsed. *)
Lemma falsy_numeric_field_is_zero (v : JS.value) :
  JS.truthy v = false ->
  JS.parseFloat (JS.or v (JS.Num JS.zero)) = JS.zero /\
  JS.parseInt (JS.or v (JS.Num JS.zero)) = JS.zero.
Proof. intros H. unfold JS.or. rewrite H. split; reflexivity. Qed.

(** C4, at the failing input.  A delivery whose [est_weight_kg] is the
    string [abc] and whose [total_cases] is the string [n/a]: both strings
    are truthy, so [|| 0] leaves them in place, and [parseFloat] and
    [parseInt] return [NaN].  In every state the row [storeDelivery] binds
    carries [NaN] in both columns, and in a store that accepts it the row
    is committed with [NaN], not with 0. *)
Theorem non_numeric_fields_are_bound_as_NaN :
  (forall (i manifestId : string) (order : nat) (postcode : JS.value),
     Schema.est_weight_kg
       (delivery_row i manifestId
          (Sample.delivery postcode (JS.Str "abc") (JS.Str "n/a")) order)
     = JS.NaN /\
     Schema.total_cases
       (delivery_row i manifestId
          (Sample.delivery postcode (JS.Str "abc") (JS.Str "n/a")) order)
     = JS.NaN) /\
  let '(r, w') :=
    DatabaseService.storeManifest (E := Sample.quiet)
      (Sample.manifest "M-101" (JS.Str "15/01/2024")
         [Sample.delivery (JS.Str "SW1A 1AA") (JS.Str "abc") (JS.Str "n/a")])
      Sample.info Sample.start in
  r = Return "id2" /\
  map Schema.est_weight_kg (Schema.deliveries (db w')) = [JS.NaN] /\
  map Schema.total_cases (Schema.deliveries (db w')) = [JS.NaN].
Proof.
  split.
  - intros. split; reflexivity.
  - vm_compute. repeat split.
Qed.

(** ** C5: unparsable planned delivery dates *)

(** On a non-empty string the date block never yields [null]: [split]
    cannot throw, and [new Date] returns an object whatever it is given. *)
Lemma planned_date_of_string_is_never_null (s : string) (w : World) :
  s <> "" ->
  exists d,
    DatabaseService.parse_planned_date (JS.Str s) w = (Return (Some d), w).
Proof.
  intros Hs. unfold DatabaseService.parse_planned_date.
  assert (Ht : JS.truthy (JS.Str s) = true).
  { simpl. destruct (String.eqb_spec s ""); [contradiction|reflexivity]. }
  rewrite Ht. unfold try_catch, ret. eexists. reflexivity.
Qed.

(** What the date block does yield [null] on: a missing or empty field, and
    a truthy value that is not a string, with a warning. *)
Lemma planned_date_null_cases (v : JS.value) (w : World) :
  (forall s, v <> JS.Str s) \/ v = JS.Str "" ->
  exists c,
    DatabaseService.parse_planned_date v w = (Return None, with_console c w).
Proof.
  assert (Hid : w = with_console (console w) w) by (destruct w; reflexivity).
  intros [Hv | ->].
  - unfold DatabaseService.parse_planned_date.
    destruct (JS.truthy v);
      [|exists (console w); rewrite <- Hid; reflexivity].
    destruct v; try (eexists; reflexivity).
    exfalso. eapply Hv. reflexivity.
  - exists (console w). rewrite <- Hid. reflexivity.
Qed.

(** C5, at the failing input.  The planned delivery date [2024-01-15] is
    not of the form DD/MM/YYYY.  Splitting it at [/] gives a single part,
    so the month and the year are [undefined], and [new Date] returns an
    invalid date without throwing; the [catch] that would leave [null] is
    not entered.  The value bound to the column is that invalid date, not
    [null], also in a store that accepts the row. *)
Theorem unparsable_date_is_bound_as_invalid_date :
  DatabaseService.parse_planned_date (JS.Str "2024-01-15")
    Sample.start
  = (Return (Some JS.InvalidDate), Sample.start) /\
  let '(r, w') :=
    DatabaseService.storeManifest (E := Sample.quiet)
      (Sample.manifest "M-102" (JS.Str "2024-01-15") []) Sample.info
      Sample.start in
  r = Return "id2" /\
  map Schema.planned_delivery_date (Schema.manifests (db w'))
  = [Some JS.InvalidDate].
Proof. split; [reflexivity|]. vm_compute. repeat split. Qed.

(** ** C7: the postcode filter of [searchDeliveries] *)

(** The filters of a search by postcode alone. *)
Definition postcode_filter (pc : string) : DatabaseService.delivery_filters :=
  {| DatabaseService.postcode := Some pc;
     DatabaseService.contactName := None;
     DatabaseService.bookingRef := None;
     DatabaseService.limit := None;
     DatabaseService.offset := None |}.

(** Whether a row of the view satisfies the [WHERE] clause that
    [searchDeliveries] builds for the filters. *)
Definition matches (filters : DatabaseService.delivery_filters)
    (r : Schema.deliveries_row * Schema.manifests_row) : option bool :=
  let '(conditions, params, _) := DatabaseService.delivery_conditions filters in
  DatabaseService.where_clause params conditions r.

(** No character of the string means anything special to [LIKE]. *)
Fixpoint wildcard_free (s : string) : bool :=
  match s with
  | EmptyString => true
  | String c r =>
      negb (Ascii.eqb c "%") && negb (Ascii.eqb c "_") &&
      negb (Ascii.eqb c "\") && wildcard_free r
  end.

Fixpoint literals (s : string) : list DatabaseService.token :=
  match s with
  | EmptyString => []
  | String c r => DatabaseService.Lit c :: literals r
  end.

Lemma tokens_prefix_pattern (f : string) :
  wildcard_free f = true ->
  DatabaseService.tokens (f +:+ "%")
  = Some (literals f ++ [DatabaseService.AnyRun]).
Proof.
  induction f as [|c f IH]; intros H; [reflexivity|].
  simpl in H. apply andb_prop in H. destruct H as [H Hf].
  apply andb_prop in H. destruct H as [H Hb].
  apply andb_prop in H. destruct H as [Hp Hu].
  apply negb_true_iff in Hp, Hu, Hb.
  change (String c f +:+ "%") with (String c (f +:+ "%")).
  cbn [DatabaseService.tokens]. rewrite Hb, Hp, Hu, (IH Hf). reflexivity.
Qed.

Lemma like_any_run (s : string) :
  DatabaseService.like_tokens [DatabaseService.AnyRun] s = true.
Proof.
  cbn [DatabaseService.like_tokens].
  induction s as [|c s IH]; [reflexivity|].
  simpl. exact IH.
Qed.

Lemma like_literals_then_any (f : string) : forall s,
  DatabaseService.like_tokens (literals f ++ [DatabaseService.AnyRun]) s
  = String.prefix f s.
Proof.
  induction f as [|c f IH]; intros s.
  - simpl literals. simpl app. rewrite like_any_run. destruct s; reflexivity.
  - destruct s as [|d s]; [reflexivity|].
    cbn [literals app DatabaseService.like_tokens String.prefix].
    rewrite IH. destruct (ascii_dec c d) as [->|Hne].
    + rewrite Ascii.eqb_refl. reflexivity.
    + apply Ascii.eqb_neq in Hne. rewrite Hne. reflexivity.
Qed.

(** With no wildcard in [f], [s LIKE f%] says that [s] starts with [f]. *)
Lemma like_prefix (f s : string) :
  wildcard_free f = true ->
  DatabaseService.like s (f +:+ "%") = Some (String.prefix f s).
Proof.
  intros H. unfold DatabaseService.like.
  rewrite (tokens_prefix_pattern f H). simpl. f_equal.
  apply like_literals_then_any.
Qed.

(** C7 as stated fails.  The filter [S_1] has length 3; the underscore
    stands for any character, so the filter matches the postcodes
    [SW1A 1AA] and [SW1B 2BB], neither of which starts with [S_1], and the
    call of [searchDeliveries] returns both deliveries.  The filter [S\1]
    has length 3 too; the backslash takes the [1] literally, so the filter
    does not match the postcode [S\1 2AB], which starts with it, and
    matches [S1 2AB], which does not. *)
Example postcode_filter_wildcard :
  String.length "S_1" = 3%nat /\
  map (fun r => Schema.postcode (fst r))
      (DatabaseService.deliveries_with_manifest (db Sample.stored))
  = ["SW1A 1AA"; "SW1B 2BB"] /\
  map (matches (postcode_filter "S_1"))
      (DatabaseService.deliveries_with_manifest (db Sample.stored))
  = [Some true; Some true] /\
  map (fun r => String.prefix "S_1" (Schema.postcode (fst r)))
      (DatabaseService.deliveries_with_manifest (db Sample.stored))
  = [false; false] /\
  (let '(r, _) :=
     DatabaseService.searchDeliveries (E := Sample.quiet)
       (postcode_filter "S_1") Sample.stored in
   match r with
   | Return rows => map (fun r => Schema.postcode (fst r)) rows
                    = ["SW1A 1AA"; "SW1B 2BB"]
   | Throw _ => False
   end) /\
  String.length "S\1" = 3%nat /\
  Schema.postcode (fst (Sample.view_row "S\1 2AB")) = "S\1 2AB" /\
  String.prefix "S\1" "S\1 2AB" = true /\
  matches (postcode_filter "S\1") (Sample.view_row "S\1 2AB") = Some false /\
  String.prefix "S\1" "S1 2AB" = false /\
  matches (postcode_filter "S\1") (Sample.view_row "S1 2AB") = Some true.
Proof. vm_compute. repeat split. Qed.

(** A non-empty filter of at most 4 characters is the pattern [filter%]
    of [LIKE], whatever characters it is made of. *)
Lemma short_postcode_filter_is_like (pc : string)
    (r : Schema.deliveries_row * Schema.manifests_row) :
  pc <> "" -> (String.length pc <= 4)%nat ->
  matches (postcode_filter pc) r
  = DatabaseService.like (Schema.postcode (fst r)) (pc +:+ "%").
Proof.
  intros Hpc Hle. unfold matches, DatabaseService.delivery_conditions.
  cbn [postcode_filter DatabaseService.postcode DatabaseService.contactName
       DatabaseService.bookingRef DatabaseService.given].
  destruct (String.eqb_spec pc "") as [|_]; [contradiction|].
  apply Nat.leb_le in Hle. rewrite Hle. cbn.
  destruct (DatabaseService.like _ _) as [b|]; [|reflexivity].
  rewrite andb_true_r. reflexivity.
Qed.

(** C7, amended.  A postcode filter longer than 4 characters matches the
    deliveries with exactly that postcode.  A non-empty filter of at most 4
    characters that contains none of [%], [_] and the backslash matches the
    deliveries whose postcode starts with it. *)
Theorem postcode_filter_matches (pc : string)
    (r : Schema.deliveries_row * Schema.manifests_row) :
  pc <> "" ->
  ((String.length pc <= 4)%nat -> wildcard_free pc = true) ->
  matches (postcode_filter pc) r
  = Some (if (String.length pc <=? 4)%nat
          then String.prefix pc (Schema.postcode (fst r))
          else String.eqb (Schema.postcode (fst r)) pc).
Proof.
  intros Hpc Hfree.
  destruct (Nat.leb_spec (String.length pc) 4) as [Hle|Hgt].
  - rewrite (short_postcode_filter_is_like pc r Hpc Hle).
    apply like_prefix. exact (Hfree Hle).
  - unfold matches, DatabaseService.delivery_conditions.
    cbn [postcode_filter DatabaseService.postcode DatabaseService.contactName
         DatabaseService.bookingRef DatabaseService.given].
    destruct (String.eqb_spec pc "") as [|_]; [contradiction|].
    apply Nat.leb_gt in Hgt. rewrite Hgt. cbn.
    rewrite andb_true_r. reflexivity.
Qed.

Example postcode_filter_matches_witness :
  matches (postcode_filter "SW1") (Sample.view_row "SW1A 1AA")
  = Some (if (String.length "SW1" <=? 4)%nat
          then String.prefix "SW1"
                 (Schema.postcode (fst (Sample.view_row "SW1A 1AA")))
          else String.eqb (Schema.postcode (fst (Sample.view_row "SW1A 1AA")))
                 "SW1").
Proof.
  apply (postcode_filter_matches "SW1" (Sample.view_row "SW1A 1AA")).
  - discriminate.
  - intros _. reflexivity.
Defined.

(** The example of the specification, through [searchDeliveries]: of the
    postcodes [SW1A 1AA], [SW1B 2BB] and [SW2 1AA], the filter [SW1] finds
    the first two and the filter [SW1A 1AA] the first only. *)
Example postcode_search_example :
  let w := snd (DatabaseService.storeManifest (E := Sample.quiet)
                  (Sample.manifest "M-103" (JS.Str "15/01/2024")
                     [Sample.delivery (JS.Str "SW1A 1AA") (JS.Str "1") (JS.Str "1");
                      Sample.delivery (JS.Str "SW2 1AA") (JS.Str "1") (JS.Str "1");
                      Sample.delivery (JS.Str "SW1B 2BB") (JS.Str "1") (JS.Str "1")])
                  Sample.info Sample.start) in
  (match fst (DatabaseService.searchDeliveries (E := Sample.quiet)
                (postcode_filter "SW1") w) with
   | Return rows => map (fun r => Schema.postcode (fst r)) rows
   | Throw _ => []
   end) = ["SW1A 1AA"; "SW1B 2BB"] /\
  (match fst (DatabaseService.searchDeliveries (E := Sample.quiet)
                (postcode_filter "SW1A 1AA") w) with
   | Return rows => map (fun r => Schema.postcode (fst r)) rows
   | Throw _ => []
   end) = ["SW1A 1AA"].
Proof. vm_compute. split; reflexivity. Qed.

(** ** C8: the dispatch of [GET /manifests/:manifestId] *)

(** What the handler does with the lookup it chose. *)
Definition respond (lookup : M (option DatabaseService.manifest))
  : M (Server.response DatabaseService.manifest) :=
  try_catch
    (let* manifest := lookup in
     match manifest with
     | None => ret (Server.Status 404 "Manifest not found")
     | Some m => ret (Server.Json m)
     end)
    (fun error =>
       console_error "Error retrieving manifest:" error ;;
       ret (Server.Status 500 "Error retrieving manifest")).

(** The order of [ORDER BY created_at DESC]. *)
Definition newest_first (a b : Schema.manifests_row) : bool :=
  Z.leb (Schema.created_at b) (Schema.created_at a).

Section Sorting.
Context {A : Type} (le : A -> A -> bool).
Hypothesis le_total : forall a b, le a b = true \/ le b a = true.
Hypothesis le_trans : forall a b c, le a b = true -> le b c = true -> le a c = true.

Lemma insert_by_In (x y : A) (l : list A) :
  In y (DatabaseService.insert_by le x l) <-> y = x \/ In y l.
Proof.
  induction l as [|z l IH]; simpl.
  - intuition.
  - destruct (le x z); simpl; [intuition|]. rewrite IH. intuition.
Qed.

Lemma sort_by_In (y : A) (l : list A) :
  In y (DatabaseService.sort_by le l) <-> In y l.
Proof.
  unfold DatabaseService.sort_by.
  induction l as [|x l IH]; simpl; [reflexivity|].
  rewrite insert_by_In, IH. intuition.
Qed.

(** The first element of a list: it comes before all the others. *)
Definition first_is_least (l : list A) : Prop :=
  match l with
  | [] => True
  | x :: r => forall y, In y r -> le x y = true
  end.

Lemma insert_by_sorted (x : A) (l : list A) :
  StronglySorted (fun a b => le a b = true) l ->
  StronglySorted (fun a b => le a b = true) (DatabaseService.insert_by le x l).
Proof.
  induction 1 as [|z l Hs IH Hz]; simpl.
  - constructor; constructor.
  - destruct (le x z) eqn:Hxz.
    + constructor; [constructor; assumption|].
      constructor; [exact Hxz|].
      rewrite List.Forall_forall in Hz |- *. intros y Hy.
      eapply le_trans; [exact Hxz | apply Hz; exact Hy].
    + constructor; [exact IH|].
      rewrite List.Forall_forall in Hz |- *. intros y Hy.
      apply insert_by_In in Hy. destruct Hy as [->|Hy]; [|apply Hz; exact Hy].
      destruct (le_total x z) as [H|H]; [congruence|exact H].
Qed.

Lemma sort_by_sorted (l : list A) :
  StronglySorted (fun a b => le a b = true) (DatabaseService.sort_by le l).
Proof.
  unfold DatabaseService.sort_by.
  induction l as [|x l IH]; simpl; [constructor|].
  apply insert_by_sorted. exact IH.
Qed.

(** The head of a sorted list comes before every element of the list. *)
Lemma sort_by_head (l : list A) (x : A) (rest : list A) :
  DatabaseService.sort_by le l = x :: rest ->
  In x l /\ forall y, In y l -> le x y = true.
Proof.
  intros Hs. pose proof (sort_by_sorted l) as Hsorted. rewrite Hs in Hsorted.
  split.
  - apply sort_by_In. rewrite Hs. left. reflexivity.
  - intros y Hy. apply sort_by_In in Hy. rewrite Hs in Hy.
    destruct Hy as [<-|Hy].
    + destruct (le_total x x); assumption.
    + apply StronglySorted_inv in Hsorted. destruct Hsorted as [_ Hall].
      rewrite List.Forall_forall in Hall. apply Hall. exact Hy.
Qed.

End Sorting.

Lemma newest_first_total (a b : Schema.manifests_row) :
  newest_first a b = true \/ newest_first b a = true.
Proof. unfold newest_first. rewrite !Z.leb_le. lia. Qed.

Lemma newest_first_trans (a b c : Schema.manifests_row) :
  newest_first a b = true -> newest_first b c = true -> newest_first a c = true.
Proof. unfold newest_first. rewrite !Z.leb_le. lia. Qed.

Section Lookup.
Context {E : Env}.

(** [getManifestByRef] when none of its external calls fails. *)
Lemma getManifestByRef_run (ref : string) (w : World) :
  fault (tick w) = None ->
  fault (S (tick w)) = None ->
  fault (S (S (tick w))) = None ->
  exists w',
    DatabaseService.getManifestByRef ref w =
    (Return
       match DatabaseService.sort_by newest_first
               (List.filter (fun r => String.eqb (Schema.manifest_id r) ref)
                            (Schema.manifests (db w))) with
       | [] => None
       | r :: _ =>
           Some {| DatabaseService.row := r;
                   DatabaseService.deliveries :=
                     DatabaseService.sort_by
                       (fun a b => Nat.leb (Schema.delivery_order a)
                                           (Schema.delivery_order b))
                       (List.filter
                          (fun d => String.eqb (Schema.d_manifest_id d)
                                               (Schema.id r))
                          (Schema.deliveries (db w))) |}
       end, w').
Proof.
  intros H0 H1 H2. unfold DatabaseService.getManifestByRef.
  rewrite bind_run, pool_connect_run, H0.
  unfold try_finally. rewrite bind_run, query_run. simpl tick. rewrite H1.
  unfold DatabaseService.SELECT_manifest_by_ref at 1. unfold visible. simpl.
  fold newest_first.
  destruct (DatabaseService.sort_by newest_first _) as [|r rs].
  - eexists. reflexivity.
  - cbn [firstn]. cbv beta iota. rewrite bind_run, query_run. simpl. rewrite H2.
    eexists. reflexivity.
Qed.

End Lookup.

(** C8.  Which lookup [GET /manifests/:manifestId] uses depends on the
    identifier alone: [getManifestById] when it has length 36 and contains
    a hyphen, [getManifestByRef] otherwise; this holds in every state.
    When no call to the store fails the handler answers: with 404 when the
    lookup finds no manifest; with the manifest of that id on the first
    path; and on the second path with a manifest of that reference that no
    other manifest of the same reference was created after. *)
Theorem manifest_lookup_dispatch {E : Env} (manifestId : string) (w : World) :
  fault (tick w) = None ->
  fault (S (tick w)) = None ->
  fault (S (S (tick w))) = None ->
  (forall w0,
     Server.get_manifest manifestId w0
     = respond (if (String.length manifestId =? 36)%nat
                   && JS.includes "-" manifestId
                then DatabaseService.getManifestById manifestId
                else DatabaseService.getManifestByRef manifestId) w0) /\
  exists resp w',
    Server.get_manifest manifestId w = (Return resp, w') /\
    if (String.length manifestId =? 36)%nat && JS.includes "-" manifestId
    then
      match List.filter (fun r => String.eqb (Schema.id r) manifestId)
                        (Schema.manifests (db w)) with
      | [] => resp = Server.Status 404 "Manifest not found"
      | r :: _ =>
          exists m, resp = Server.Json m /\ DatabaseService.row m = r /\
                    Schema.id r = manifestId
      end
    else
      match List.filter (fun r => String.eqb (Schema.manifest_id r) manifestId)
                        (Schema.manifests (db w)) with
      | [] => resp = Server.Status 404 "Manifest not found"
      | _ :: _ =>
          exists m,
            resp = Server.Json m /\
            In (DatabaseService.row m) (Schema.manifests (db w)) /\
            Schema.manifest_id (DatabaseService.row m) = manifestId /\
            forall r, In r (Schema.manifests (db w)) ->
                      Schema.manifest_id r = manifestId ->
                      (Schema.created_at r
                       <= Schema.created_at (DatabaseService.row m))%Z
      end.
Proof.
  intros H0 H1 H2. split; [reflexivity|].
  unfold Server.get_manifest, try_catch. rewrite bind_run.
  destruct ((String.length manifestId =? 36)%nat && JS.includes "-" manifestId).
  - destruct (getManifestById_run manifestId w H0 H1 H2) as [w' [Hrun _]].
    rewrite Hrun.
    destruct (List.filter _ (Schema.manifests (db w))) as [|r rs] eqn:Hf.
    + eexists _, _. split; reflexivity.
    + eexists _, _. split; [reflexivity|]. eexists. split; [reflexivity|].
      split; [reflexivity|].
      assert (Hin : In r (List.filter
                            (fun r => String.eqb (Schema.id r) manifestId)
                            (Schema.manifests (db w))))
        by (rewrite Hf; left; reflexivity).
      apply List.filter_In in Hin. destruct Hin as [_ Hid].
      apply String.eqb_eq. exact Hid.
  - destruct (getManifestByRef_run manifestId w H0 H1 H2) as [w' Hrun].
    rewrite Hrun.
    destruct (List.filter _ (Schema.manifests (db w))) as [|r0 rs0] eqn:Hf.
    + eexists _, _. split; reflexivity.
    + destruct (DatabaseService.sort_by newest_first (r0 :: rs0))
        as [|r rs] eqn:Hs.
      * exfalso.
        assert (Hin : In r0 (DatabaseService.sort_by newest_first (r0 :: rs0)))
          by (apply sort_by_In; left; reflexivity).
        rewrite Hs in Hin. exact Hin.
      * destruct (sort_by_head newest_first newest_first_total
                    newest_first_trans _ _ _ Hs) as [Hin Hleast].
        rewrite <- Hf in Hin, Hleast.
        apply List.filter_In in Hin. destruct Hin as [Hin Href].
        eexists _, _. split; [reflexivity|]. eexists. split; [reflexivity|].
        simpl. split; [exact Hin|].
        split; [apply String.eqb_eq; exact Href|].
        intros r' Hin' Href'. apply Z.leb_le.
        apply (Hleast r'). apply List.filter_In. split; [exact Hin'|].
        apply String.eqb_eq. exact Href'.
Qed.

Example manifest_lookup_dispatch_witness :
  (forall w0,
     Server.get_manifest (E := Sample.quiet) "M-100" w0
     = respond (if (String.length "M-100" =? 36)%nat && JS.includes "-" "M-100"
                then DatabaseService.getManifestById (E := Sample.quiet) "M-100"
                else DatabaseService.getManifestByRef (E := Sample.quiet) "M-100")
         w0) /\
  exists resp w',
    Server.get_manifest (E := Sample.quiet) "M-100" Sample.stored
    = (Return resp, w') /\
    if (String.length "M-100" =? 36)%nat && JS.includes "-" "M-100"
    then
      match List.filter (fun r => String.eqb (Schema.id r) "M-100")
                        (Schema.manifests (db Sample.stored)) with
      | [] => resp = Server.Status 404 "Manifest not found"
      | r :: _ =>
          exists m, resp = Server.Json m /\ DatabaseService.row m = r /\
                    Schema.id r = "M-100"
      end
    else
      match List.filter (fun r => String.eqb (Schema.manifest_id r) "M-100")
                        (Schema.manifests (db Sample.stored)) with
      | [] => resp = Server.Status 404 "Manifest not found"
      | _ :: _ =>
          exists m,
            resp = Server.Json m /\
            In (DatabaseService.row m) (Schema.manifests (db Sample.stored)) /\
            Schema.manifest_id (DatabaseService.row m) = "M-100" /\
            forall r, In r (Schema.manifests (db Sample.stored)) ->
                      Schema.manifest_id r = "M-100" ->
                      (Schema.created_at r
                       <= Schema.created_at (DatabaseService.row m))%Z
      end.
Proof.
  apply (manifest_lookup_dispatch (E := Sample.quiet) "M-100" Sample.stored);
    reflexivity.
Defined.

(** The two paths on concrete identifiers: a token of 36 characters with
    hyphens that no manifest has as its id is looked up by id and not
    found, although a manifest has it as its reference; the reference
    [M-100] is looked up by reference and found. *)
Example manifest_lookup_paths :
  let token := "123e4567-e89b-12d3-a456-426614174000" in
  let w := snd (DatabaseService.storeManifest (E := Sample.quiet)
                  (Sample.manifest token (JS.Str "15/01/2024") [])
                  Sample.info Sample.stored) in
  String.length token = 36%nat /\
  map Schema.manifest_id (Schema.manifests (db w)) = ["M-100"; token] /\
  fst (Server.get_manifest (E := Sample.quiet) token w)
  = Return (Server.Status 404 "Manifest not found") /\
  match fst (Server.get_manifest (E := Sample.quiet) "M-100" w) with
  | Return (Server.Json m) =>
      Schema.manifest_id (DatabaseService.row m) = "M-100" /\
      length (DatabaseService.deliveries m) = 2%nat
  | _ => False
  end.
Proof. vm_compute. repeat split. Qed.

(** ** C9: the statistics *)

Lemma date_eqb_eq (a b : JS.date) : JS.date_eqb a b = true <-> a = b.
Proof.
  destruct a, b; simpl; try (split; [discriminate|discriminate]);
    try (split; reflexivity).
  rewrite Z.eqb_eq. split; [intros ->; reflexivity | intros H; congruence].
Qed.

Section Distinct.
Context {A : Type} (eqb : A -> A -> bool).
Hypothesis eqb_eq : forall a b, eqb a b = true <-> a = b.

Lemma distinct_In (x : A) (l : list A) :
  In x (DatabaseService.distinct eqb l) <-> In x l.
Proof.
  induction l as [|y l IH]; simpl; [reflexivity|].
  rewrite List.filter_In, IH. split.
  - intros [H | [H _]]; auto.
  - intros [H | H]; [left; exact H|].
    destruct (eqb y x) eqn:Hyx.
    + left. apply eqb_eq. exact Hyx.
    + right. split; [exact H | reflexivity].
Qed.

Lemma distinct_NoDup (l : list A) :
  List.NoDup (DatabaseService.distinct eqb l).
Proof.
  induction l as [|y l IH]; simpl; [constructor|].
  constructor.
  - rewrite List.filter_In. intros [_ H].
    assert (Hyy : eqb y y = true) by (apply eqb_eq; reflexivity).
    rewrite Hyy in H. discriminate.
  - apply List.NoDup_filter. exact IH.
Qed.

End Distinct.

Lemma non_null_In {A} (x : A) (l : list (option A)) :
  In x (DatabaseService.non_null l) <-> In (Some x) l.
Proof.
  induction l as [|[y|] l IH]; simpl.
  - reflexivity.
  - rewrite IH. split; intros [H|H]; auto; left; congruence.
  - rewrite IH. split; [auto|]. intros [H|H]; [discriminate|exact H].
Qed.

(** [COUNT(DISTINCT col)] counts the values the column takes. *)
Lemma count_distinct_spec {A} (eqb : A -> A -> bool) (l : list (option A)) :
  (forall a b, eqb a b = true <-> a = b) ->
  exists values,
    DatabaseService.count_distinct eqb l = length values /\
    List.NoDup values /\
    forall x, In x values <-> In (Some x) l.
Proof.
  intros Heq. exists (DatabaseService.distinct eqb (DatabaseService.non_null l)).
  split; [reflexivity|]. split; [apply distinct_NoDup; exact Heq|].
  intros x. rewrite (distinct_In eqb Heq). apply non_null_In.
Qed.

Lemma Qred_ratio (s n : nat) :
  n <> 0%nat ->
  (Qred (Z.of_nat s # Pos.of_nat n) * inject_Z (Z.of_nat n)
   == inject_Z (Z.of_nat s))%Q.
Proof.
  intros Hpos. rewrite Qred_correct.
  unfold Qeq, Qmult, inject_Z. cbn [Qnum Qden].
  assert (Hn : Z.pos (Pos.of_nat n) = Z.of_nat n).
  { rewrite <- positive_nat_Z. rewrite Nat2Pos.id; [reflexivity|exact Hpos]. }
  rewrite Pos.mul_1_r, Hn. ring.
Qed.

(** [AVG(col)] is the sum over the count. *)
Lemma AVG_spec (l : list nat) (q : Q) :
  DatabaseService.AVG l = Some q ->
  (q * inject_Z (Z.of_nat (length l))
   == inject_Z (Z.of_nat (DatabaseService.sum_nat l)))%Q.
Proof.
  destruct l as [|x l]; [discriminate|].
  intros H.
  assert (Hq : q = Qred (Z.of_nat (DatabaseService.sum_nat (x :: l))
                         # Pos.of_nat (length (x :: l))))
    by (unfold DatabaseService.AVG in H; congruence).
  rewrite Hq. apply Qred_ratio. discriminate.
Qed.

Module SampleStats.

(** A manifest without a planned delivery date, of another driver. *)
Definition undated : Payload.Manifest :=
  {| Payload.manifest_id := JS.Str "M-200";
     Payload.planned_delivery_date := JS.Undefined;
     Payload.vehicle_driver := JS.Str "E. Other";
     Payload.report_time_loading := JS.Undefined;
     Payload.collection_depot := None;
     Payload.deliveries :=
       Some [Sample.delivery (JS.Str "N1 9GU") (JS.Str "7") (JS.Str "2")];
     Payload.processing_info := None;
     Payload.database_id := None;
     Payload.database_error := None |}.

(** A store that holds the dated manifest of two stops and the undated
    one. *)
Definition two_manifests : World :=
  snd (DatabaseService.storeManifest (E := Sample.quiet) undated Sample.info
         Sample.stored).

End SampleStats.

(** C9 as stated fails.  The store holds two manifests, of two drivers; one
    of them has no planned delivery date.  The statistics report one
    manifest and one driver: the restriction to manifests with a planned
    delivery date applies to all five aggregates of the first query. *)
Example statistics_skip_undated_manifests :
  map Schema.planned_delivery_date
      (Schema.manifests (db SampleStats.two_manifests))
  = [Some (JS.ValidDate 1705276800000); None] /\
  map Schema.vehicle_driver (Schema.manifests (db SampleStats.two_manifests))
  = ["D. Driver"; "E. Other"] /\
  match fst (DatabaseService.getStatistics (E := Sample.quiet)
               SampleStats.two_manifests) with
  | Return stats =>
      DatabaseService.total_manifests (DatabaseService.manifests stats) = 1%nat /\
      DatabaseService.unique_drivers (DatabaseService.manifests stats) = 1%nat /\
      DatabaseService.unique_dates (DatabaseService.manifests stats) = 1%nat /\
      DatabaseService.total_deliveries (DatabaseService.manifests stats)
      = Some 2%nat
  | Throw _ => False
  end.
Proof. vm_compute. repeat split. Qed.

(** The manifests the first query of [getStatistics] looks at. *)
Definition dated (d : Schema.Db) : list Schema.manifests_row :=
  List.filter (fun r => match Schema.planned_delivery_date r with
                        | Some _ => true
                        | None => false
                        end)
              (Schema.manifests d).

(** C9, amended.  When no call to the store fails, [getStatistics] returns:
    over the manifests that have a planned delivery date, their number, the
    number of distinct planned dates, the number of distinct drivers, and
    the total and the average of their delivery counts (null when there is
    no such manifest); over all manifests, the number of those processed in
    the last 24 hours; over all batch jobs, their number and the numbers of
    those completed, failed and processing. *)
Theorem statistics_cover_dated_manifests {E : Env} (w : World) :
  fault (tick w) = None ->
  fault (S (tick w)) = None ->
  fault (S (S (tick w))) = None ->
  fault (S (S (S (tick w)))) = None ->
  exists stats w',
    DatabaseService.getStatistics w = (Return stats, w') /\
    DatabaseService.total_manifests (DatabaseService.manifests stats)
    = length (dated (db w)) /\
    (exists dates,
       DatabaseService.unique_dates (DatabaseService.manifests stats)
       = length dates /\
       List.NoDup dates /\
       forall x, In x dates <->
                 exists r, In r (dated (db w)) /\
                           Schema.planned_delivery_date r = Some x) /\
    (exists drivers,
       DatabaseService.unique_drivers (DatabaseService.manifests stats)
       = length drivers /\
       List.NoDup drivers /\
       forall x, In x drivers <->
                 exists r, In r (dated (db w)) /\ Schema.vehicle_driver r = x) /\
    DatabaseService.total_deliveries (DatabaseService.manifests stats)
    = match dated (db w) with
      | [] => None
      | _ :: _ =>
          Some (DatabaseService.sum_nat
                  (map Schema.delivery_count (dated (db w))))
      end /\
    match DatabaseService.avg_deliveries_per_manifest
            (DatabaseService.manifests stats) with
    | None => dated (db w) = []
    | Some q =>
        (q * inject_Z (Z.of_nat (length (dated (db w))))
         == inject_Z (Z.of_nat (DatabaseService.sum_nat
                                  (map Schema.delivery_count (dated (db w))))))%Q
    end /\
    DatabaseService.recent_manifests (DatabaseService.recent_activity stats)
    = length (List.filter
                (fun r => clock (S (S (tick w))) - 24 * 3600000
                          <? Schema.processed_at r)
                (Schema.manifests (db w))) /\
    DatabaseService.total_batch_jobs (DatabaseService.batch_processing stats)
    = length (Schema.batch_jobs (db w)) /\
    DatabaseService.completed_jobs (DatabaseService.batch_processing stats)
    = length (List.filter (fun r => String.eqb (Schema.status r) "completed")
                          (Schema.batch_jobs (db w))) /\
    DatabaseService.failed_jobs (DatabaseService.batch_processing stats)
    = length (List.filter (fun r => String.eqb (Schema.status r) "failed")
                          (Schema.batch_jobs (db w))) /\
    DatabaseService.processing_jobs (DatabaseService.batch_processing stats)
    = length (List.filter (fun r => String.eqb (Schema.status r) "processing")
                          (Schema.batch_jobs (db w))).
Proof.
  intros H0 H1 H2 H3. unfold DatabaseService.getStatistics.
  rewrite bind_run, pool_connect_run, H0.
  unfold try_finally.
  rewrite bind_run, query_run. simpl tick. rewrite H1.
  unfold DatabaseService.SELECT_manifest_stats at 1. unfold visible.
  cbn [txn with_txn with_in_use with_tick db write with_db in_use tick].
  rewrite bind_run, query_run.
  cbn [txn with_txn with_in_use with_tick db write with_db in_use tick].
  rewrite H2.
  unfold DatabaseService.SELECT_recent_stats at 1. unfold visible.
  cbn [txn with_txn with_in_use with_tick db write with_db in_use tick].
  rewrite bind_run, query_run.
  cbn [txn with_txn with_in_use with_tick db write with_db in_use tick].
  rewrite H3.
  unfold DatabaseService.SELECT_batch_stats at 1. unfold visible.
  cbn [txn with_txn with_in_use with_tick db write with_db in_use tick].
  fold (dated (db w)).
  eexists _, _. split; [reflexivity|].
  cbn [DatabaseService.manifests DatabaseService.recent_activity
       DatabaseService.batch_processing DatabaseService.total_manifests
       DatabaseService.unique_dates DatabaseService.unique_drivers
       DatabaseService.total_deliveries
       DatabaseService.avg_deliveries_per_manifest
       DatabaseService.recent_manifests DatabaseService.total_batch_jobs
       DatabaseService.completed_jobs DatabaseService.failed_jobs
       DatabaseService.processing_jobs].
  split; [reflexivity|].
  split.
  { destruct (count_distinct_spec JS.date_eqb
                (map Schema.planned_delivery_date (dated (db w))) date_eqb_eq)
      as [dates [Hlen [Hnd Hin]]].
    exists dates. split; [exact Hlen|]. split; [exact Hnd|].
    intros x. rewrite Hin, in_map_iff. split.
    - intros [r [Hr Hr']]. exists r. split; assumption.
    - intros [r [Hr Hr']]. exists r. split; assumption. }
  split.
  { destruct (count_distinct_spec String.eqb
                (map (fun r => Some (Schema.vehicle_driver r)) (dated (db w)))
                String.eqb_eq)
      as [drivers [Hlen [Hnd Hin]]].
    exists drivers. split; [exact Hlen|]. split; [exact Hnd|].
    intros x. rewrite Hin, in_map_iff. split.
    - intros [r [Hr Hr']]. exists r. split; [exact Hr' | congruence].
    - intros [r [Hr Hr']]. exists r. split; [congruence | exact Hr]. }
  split.
  { unfold DatabaseService.SUM. destruct (dated (db w)); reflexivity. }
  split.
  { destruct (DatabaseService.AVG _) as [q|] eqn:Havg.
    - apply AVG_spec in Havg. rewrite length_map in Havg. exact Havg.
    - destruct (dated (db w)); [reflexivity|discriminate]. }
  repeat split.
Qed.

Example statistics_cover_dated_manifests_witness :
  exists stats w',
    DatabaseService.getStatistics (E := Sample.quiet) SampleStats.two_manifests
    = (Return stats, w') /\
    DatabaseService.total_manifests (DatabaseService.manifests stats)
    = length (dated (db SampleStats.two_manifests)) /\
    (exists dates,
       DatabaseService.unique_dates (DatabaseService.manifests stats)
       = length dates /\
       List.NoDup dates /\
       forall x, In x dates <->
                 exists r, In r (dated (db SampleStats.two_manifests)) /\
                           Schema.planned_delivery_date r = Some x) /\
    (exists drivers,
       DatabaseService.unique_drivers (DatabaseService.manifests stats)
       = length drivers /\
       List.NoDup drivers /\
       forall x, In x drivers <->
                 exists r, In r (dated (db SampleStats.two_manifests)) /\
                           Schema.vehicle_driver r = x) /\
    DatabaseService.total_deliveries (DatabaseService.manifests stats)
    = match dated (db SampleStats.two_manifests) with
      | [] => None
      | _ :: _ =>
          Some (DatabaseService.sum_nat
                  (map Schema.delivery_count
                     (dated (db SampleStats.two_manifests))))
      end /\
    match DatabaseService.avg_deliveries_per_manifest
            (DatabaseService.manifests stats) with
    | None => dated (db SampleStats.two_manifests) = []
    | Some q =>
        (q * inject_Z (Z.of_nat (length (dated (db SampleStats.two_manifests))))
         == inject_Z (Z.of_nat (DatabaseService.sum_nat
                                  (map Schema.delivery_count
                                     (dated (db SampleStats.two_manifests))))))%Q
    end /\
    DatabaseService.recent_manifests (DatabaseService.recent_activity stats)
    = length (List.filter
                (fun r => clock (Env := Sample.quiet)
                            (S (S (tick SampleStats.two_manifests)))
                          - 24 * 3600000
                          <? Schema.processed_at r)
                (Schema.manifests (db SampleStats.two_manifests))) /\
    DatabaseService.total_batch_jobs (DatabaseService.batch_processing stats)
    = length (Schema.batch_jobs (db SampleStats.two_manifests)) /\
    DatabaseService.completed_jobs (DatabaseService.batch_processing stats)
    = length (List.filter (fun r => String.eqb (Schema.status r) "completed")
                          (Schema.batch_jobs (db SampleStats.two_manifests))) /\
    DatabaseService.failed_jobs (DatabaseService.batch_processing stats)
    = length (List.filter (fun r => String.eqb (Schema.status r) "failed")
                          (Schema.batch_jobs (db SampleStats.two_manifests))) /\
    DatabaseService.processing_jobs (DatabaseService.batch_processing stats)
    = length (List.filter (fun r => String.eqb (Schema.status r) "processing")
                          (Schema.batch_jobs (db SampleStats.two_manifests))).
Proof.
  apply (statistics_cover_dated_manifests (E := Sample.quiet)
           SampleStats.two_manifests);
    reflexivity.
Defined.

(** ** [searchDeliveries] and its [WHERE] clause *)

Lemma select_where_sound params conditions rows : forall selected r,
  DatabaseService.select_where params conditions rows = Some selected ->
  (In r selected <->
   In r rows /\ DatabaseService.where_clause params conditions r = Some true).
Proof.
  induction rows as [|x rows IH]; intros selected r H; simpl in H.
  - injection H as <-. simpl. tauto.
  - destruct (DatabaseService.where_clause params conditions x) as [b|] eqn:Hx;
      [|discriminate].
    destruct (DatabaseService.select_where params conditions rows) as [l|];
      [|discriminate].
    injection H as <-. specialize (IH l r eq_refl).
    destruct b; simpl; rewrite IH; split.
    + intros [->|[H1 H2]]; auto.
    + intros [[->|H1] H2]; auto.
    + intros [H1 H2]; auto.
    + intros [[->|H1] H2]; [congruence|auto].
Qed.

Lemma In_page {A} (x : A) (l : list A) (lim off : nat) :
  In x (firstn lim (skipn off l)) -> In x l.
Proof.
  intros H.
  rewrite <- (firstn_skipn off l). apply in_or_app. right.
  rewrite <- (firstn_skipn lim (skipn off l)). apply in_or_app. left. exact H.
Qed.

(** The conditions refer to the parameters pushed with them, not to the
    limit and the offset pushed afterwards. *)
Lemma where_clause_ignores_paging (filters : DatabaseService.delivery_filters)
    (extra : list DatabaseService.param)
    (r : Schema.deliveries_row * Schema.manifests_row) :
  let '(conditions, params, _) := DatabaseService.delivery_conditions filters in
  DatabaseService.where_clause (params ++ extra) conditions r
  = DatabaseService.where_clause params conditions r.
Proof.
  unfold DatabaseService.delivery_conditions.
  destruct (DatabaseService.given (DatabaseService.postcode filters)) as [pc|];
    destruct (DatabaseService.given (DatabaseService.contactName filters))
      as [cn|];
    destruct (DatabaseService.given (DatabaseService.bookingRef filters))
      as [br|];
    try destruct (String.length pc <=? 4)%nat; reflexivity.
Qed.

Section Search.
Context {E : Env}.

(** When no call to the store fails, every delivery that
    [searchDeliveries] returns is a row of the view that satisfies the
    conditions built from the filters. *)
Lemma searchDeliveries_sound (filters : DatabaseService.delivery_filters)
    (w w' : World) rows r :
  DatabaseService.searchDeliveries filters w = (Return rows, w') ->
  In r rows ->
  In r (DatabaseService.deliveries_with_manifest (db w)) /\
  matches filters r = Some true.
Proof.
  unfold DatabaseService.searchDeliveries, matches.
  rewrite bind_run, pool_connect_run.
  destruct (fault (tick w)); [discriminate|].
  unfold try_finally.
  pose proof (where_clause_ignores_paging filters
    ([DatabaseService.PInt
        (DatabaseService.or_default (DatabaseService.limit filters) 100)] ++
     [DatabaseService.PInt
        (DatabaseService.or_default (DatabaseService.offset filters) 0)]) r)
    as Hpaging.
  destruct (DatabaseService.delivery_conditions filters)
    as [[conditions params] paramCount].
  rewrite app_assoc in Hpaging.
  rewrite query_run. simpl tick.
  destruct (fault (S (tick w))); [discriminate|].
  unfold DatabaseService.SELECT_deliveries_with_manifest, visible. simpl.
  destruct (DatabaseService.select_where _ conditions _) as [selected|] eqn:Hsel;
    [|discriminate].
  destruct (DatabaseService.int_param _ _) as [lim|]; [|discriminate].
  destruct (DatabaseService.int_param _ _) as [off|]; [|discriminate].
  destruct (_ || _); [discriminate|].
  simpl. intros Hrows Hin. injection Hrows as <- _.
  apply In_page, sort_by_In in Hin.
  apply (select_where_sound _ _ _ _ r Hsel) in Hin.
  rewrite Hpaging in Hin. exact Hin.
Qed.

End Search.


(* ===================================================================== *)
(** * Further properties of the service and of the handlers *)
(* ===================================================================== *)

(** ** What the handlers leave unchanged *)

(** A component that depends neither on the call counter nor on the
    console. *)
Class IgnoresTrace {X} (f : World -> X) : Prop := {
  trace_tick : forall n w, f (with_tick n w) = f w;
  trace_console : forall c w, f (with_console c w) = f w
}.

(** A component that does not depend on the state the handlers keep for
    themselves: the job objects, the job map, the uploaded files and the
    local variables of the batch processor. *)
Class IgnoresProcess {X} (f : World -> X) : Prop := {
  process_heap : forall h w, f (with_heap h w) = f w;
  process_batchJobs : forall b w, f (with_batchJobs b w) = f w;
  process_files : forall s w, f (with_files s w) = f w;
  process_frame : forall fr w, f (with_frame fr w) = f w
}.

#[global] Instance db_ignores_trace : IgnoresTrace db.
Proof. split; reflexivity. Qed.

#[global] Instance db_ignores_process : IgnoresProcess db.
Proof. split; reflexivity. Qed.

#[global] Instance in_use_ignores_trace : IgnoresTrace in_use.
Proof. split; reflexivity. Qed.

#[global] Instance in_use_ignores_process : IgnoresProcess in_use.
Proof. split; reflexivity. Qed.

(** A statement that only reads. *)
Definition read_only {A} (stmt : statement A) : Prop :=
  forall k d a d', stmt k d = Some (a, d') -> d' = d.

Create HintDb keeps discriminated.

Section Keeps.
Context {E : Env} {X : Type} (f : World -> X).

Section Trace.
Context {Ht : IgnoresTrace f}.

Lemma keeps_external : preserves f external.
Proof.
  intros w. rewrite external_run.
  destruct (fault (tick w)); simpl; apply trace_tick.
Qed.

Lemma keeps_now : preserves f now.
Proof. intros w; reflexivity. Qed.

Lemma keeps_uuidv4 : preserves f uuidv4.
Proof. intros w; simpl. apply trace_tick. Qed.

Lemma keeps_console_log msg : preserves f (console_log msg).
Proof. intros w; simpl. apply trace_console. Qed.

Lemma keeps_console_warn msg : preserves f (console_warn msg).
Proof. intros w; simpl. apply trace_console. Qed.

Lemma keeps_console_error msg e : preserves f (console_error msg e).
Proof. intros w; simpl. apply trace_console. Qed.

Lemma keeps_extract p : preserves f (extract p).
Proof. intros w. unfold extract. destruct (processPDF p); reflexivity. Qed.

Context {Hp : IgnoresProcess f}.

Lemma keeps_unlink p : preserves f (unlink p).
Proof.
  intros w. unfold unlink. rewrite bind_run, external_run.
  destruct (fault (tick w)); simpl; [apply trace_tick|].
  destruct (decide _); simpl; [rewrite process_files|]; apply trace_tick.
Qed.

Lemma keeps_readFile {D : Server.Disk} p : preserves f (Server.readFile p).
Proof.
  intros w. unfold Server.readFile. rewrite bind_run, external_run.
  destruct (fault (tick w)); simpl; [apply trace_tick|].
  destruct (decide _); simpl; apply trace_tick.
Qed.

End Trace.

Context {Hp : IgnoresProcess f}.

Lemma keeps_batchJobs_get jobId : preserves f (Server.batchJobs_get jobId).
Proof. intros w; reflexivity. Qed.

Lemma keeps_batchJobs_set_new jobId j :
  preserves f (Server.batchJobs_set_new jobId j).
Proof.
  intros w; simpl. rewrite process_batchJobs. apply process_heap.
Qed.

Lemma keeps_job_update job g : preserves f (Server.job_update job g).
Proof.
  intros w. unfold Server.job_update.
  destruct job as [l|]; [|reflexivity].
  destruct (heap w !! l); [|reflexivity]. simpl. apply process_heap.
Qed.

Lemma keeps_job_read {A} job (g : JobStatus -> A) :
  preserves f (Server.job_read job g).
Proof.
  intros w. unfold Server.job_read.
  destruct job as [l|]; [|reflexivity].
  destruct (heap w !! l); reflexivity.
Qed.

Lemma keeps_get_frame {A} (g : Frame -> A) : preserves f (Server.get_frame g).
Proof. intros w; reflexivity. Qed.

Lemma keeps_set_frame g : preserves f (Server.set_frame g).
Proof. intros w; simpl. apply process_frame. Qed.

Lemma keeps_update_extractedData g :
  preserves f (Server.update_extractedData g).
Proof.
  intros w. unfold Server.update_extractedData.
  destruct (extractedData (frame w)); [|reflexivity]. simpl.
  apply process_frame.
Qed.

Lemma keeps_read_extractedData : preserves f Server.read_extractedData.
Proof.
  intros w. unfold Server.read_extractedData.
  destruct (extractedData (frame w)); reflexivity.
Qed.

Lemma keeps_delete_batch jobId : preserves f (Server.delete_batch jobId).
Proof.
  intros w. unfold Server.delete_batch.
  destruct (batchJobs w !! jobId); [|reflexivity]. simpl.
  apply process_batchJobs.
Qed.

End Keeps.

#[global] Hint Resolve keeps_external keeps_now keeps_uuidv4 keeps_console_log
  keeps_console_warn keeps_console_error keeps_extract keeps_unlink
  keeps_readFile keeps_batchJobs_get keeps_batchJobs_set_new keeps_job_update
  keeps_job_read keeps_get_frame keeps_set_frame keeps_update_extractedData
  keeps_read_extractedData : keeps.

(** One step of a proof that a handler leaves a component alone: the
    control structure is taken apart, and what is called is looked up
    among the facts already known. *)
Ltac keeps_step :=
  lazymatch goal with
  | |- preserves _ (ret _) => apply preserves_ret
  | |- preserves _ (throw _) => apply preserves_throw
  | |- preserves _ (bind _ _) => apply preserves_bind; [|intro]
  | |- preserves _ (try_catch _ _) => apply preserves_try_catch; [|intro]
  | |- preserves _ (try_finally _ _) => apply preserves_try_finally
  | |- preserves _ (for_each _ _ _) => apply preserves_for_each; intros
  | |- preserves _ (detached _) => apply preserves_detached
  | |- preserves _ (match ?x with _ => _ end) => destruct x
  | |- preserves _ (if ?x then _ else _) => destruct x
  | |- preserves _ _ => solve [eauto 3 with keeps typeclass_instances]
  end.

Ltac keeps_tac := repeat keeps_step.

(** ** The store under the operations that read *)

Section Reads.
Context {E : Env}.

Lemma connect_keeps_db : preserves db pool_connect.
Proof.
  intros w. rewrite pool_connect_run. destruct (fault (tick w)); reflexivity.
Qed.

Lemma release_keeps_db c : preserves db (release c).
Proof. intros w; reflexivity. Qed.

Lemma query_keeps_db {A} c (stmt : statement A) :
  read_only stmt -> preserves db (query c stmt).
Proof.
  intros Hro w. rewrite query_run. destruct (fault (tick w)); [reflexivity|].
  destruct (stmt (tick w) (visible w)) as [[a d]|] eqn:Hs; [|reflexivity].
  apply Hro in Hs. subst d. unfold write, visible. simpl.
  destruct (txn w); reflexivity.
Qed.

Lemma SELECT_manifest_by_id_reads i :
  read_only (DatabaseService.SELECT_manifest_by_id i).
Proof. intros k d a d' H. injection H as _ <-. reflexivity. Qed.

Lemma SELECT_manifest_by_ref_reads ref :
  read_only (DatabaseService.SELECT_manifest_by_ref ref).
Proof. intros k d a d' H. injection H as _ <-. reflexivity. Qed.

Lemma SELECT_deliveries_of_reads i :
  read_only (DatabaseService.SELECT_deliveries_of i).
Proof. intros k d a d' H. injection H as _ <-. reflexivity. Qed.

Lemma SELECT_batch_job_reads jobId :
  read_only (DatabaseService.SELECT_batch_job jobId).
Proof. intros k d a d' H. injection H as _ <-. reflexivity. Qed.

Lemma SELECT_manifest_stats_reads :
  read_only DatabaseService.SELECT_manifest_stats.
Proof. intros k d a d' H. injection H as _ <-. reflexivity. Qed.

Lemma SELECT_recent_stats_reads :
  read_only DatabaseService.SELECT_recent_stats.
Proof. intros k d a d' H. injection H as _ <-. reflexivity. Qed.

Lemma SELECT_batch_stats_reads :
  read_only DatabaseService.SELECT_batch_stats.
Proof. intros k d a d' H. injection H as _ <-. reflexivity. Qed.

Lemma SELECT_NOW_reads : read_only DatabaseService.SELECT_NOW.
Proof. intros k d a d' H. injection H as _ <-. reflexivity. Qed.

Lemma SELECT_deliveries_with_manifest_reads conditions params l o :
  read_only
    (DatabaseService.SELECT_deliveries_with_manifest conditions params l o).
Proof.
  intros k d a d' H.
  unfold DatabaseService.SELECT_deliveries_with_manifest in H.
  destruct (DatabaseService.select_where _ _ _); [|discriminate].
  destruct (DatabaseService.int_param params l); [|discriminate].
  destruct (DatabaseService.int_param params o); [|discriminate].
  destruct (_ || _); [discriminate|].
  injection H as _ <-. reflexivity.
Qed.

End Reads.

#[global] Hint Resolve connect_keeps_db release_keeps_db query_keeps_db
  SELECT_manifest_by_id_reads SELECT_manifest_by_ref_reads
  SELECT_deliveries_of_reads SELECT_batch_job_reads
  SELECT_manifest_stats_reads SELECT_recent_stats_reads
  SELECT_batch_stats_reads SELECT_NOW_reads
  SELECT_deliveries_with_manifest_reads : keeps.

Section ServiceReads.
Context {E : Env}.

Lemma getManifestById_keeps_db i :
  preserves db (DatabaseService.getManifestById i).
Proof. unfold DatabaseService.getManifestById. keeps_tac. Qed.

Lemma getManifestByRef_keeps_db ref :
  preserves db (DatabaseService.getManifestByRef ref).
Proof. unfold DatabaseService.getManifestByRef. keeps_tac. Qed.

Lemma getBatchJob_keeps_db jobId :
  preserves db (DatabaseService.getBatchJob jobId).
Proof. unfold DatabaseService.getBatchJob. keeps_tac. Qed.

Lemma getStatistics_keeps_db : preserves db DatabaseService.getStatistics.
Proof. unfold DatabaseService.getStatistics. keeps_tac. Qed.

Lemma searchDeliveries_keeps_db filters :
  preserves db (DatabaseService.searchDeliveries filters).
Proof.
  unfold DatabaseService.searchDeliveries.
  destruct (DatabaseService.delivery_conditions filters) as [[cs ps] n].
  keeps_tac.
Qed.

(** Each of them gives the connection back. *)

Lemma getManifestById_in_use i :
  preserves in_use (DatabaseService.getManifestById i).
Proof.
  unfold DatabaseService.getManifestById. apply scoped_in_use. intro c.
  preserves_tac.
Qed.

Lemma getManifestByRef_in_use ref :
  preserves in_use (DatabaseService.getManifestByRef ref).
Proof.
  unfold DatabaseService.getManifestByRef. apply scoped_in_use. intro c.
  preserves_tac.
Qed.

Lemma getBatchJob_in_use jobId :
  preserves in_use (DatabaseService.getBatchJob jobId).
Proof.
  unfold DatabaseService.getBatchJob. apply scoped_in_use. intro c.
  preserves_tac.
Qed.

Lemma getStatistics_in_use : preserves in_use DatabaseService.getStatistics.
Proof.
  unfold DatabaseService.getStatistics. apply scoped_in_use. intro c.
  preserves_tac.
Qed.

Lemma searchDeliveries_in_use filters :
  preserves in_use (DatabaseService.searchDeliveries filters).
Proof.
  unfold DatabaseService.searchDeliveries. apply scoped_in_use. intro c.
  destruct (DatabaseService.delivery_conditions filters) as [[cs ps] n].
  preserves_tac.
Qed.

Lemma createBatchJob_in_use jobId n :
  preserves in_use (DatabaseService.createBatchJob jobId n).
Proof.
  unfold DatabaseService.createBatchJob. apply scoped_in_use. intro c.
  preserves_tac.
Qed.

Lemma updateBatchJob_in_use jobId updates :
  preserves in_use (DatabaseService.updateBatchJob jobId updates).
Proof.
  unfold DatabaseService.updateBatchJob. apply scoped_in_use. intro c.
  preserves_tac.
Qed.

Lemma linkBatchManifest_in_use jobId manifestId order :
  preserves in_use (DatabaseService.linkBatchManifest jobId manifestId order).
Proof.
  unfold DatabaseService.linkBatchManifest. apply scoped_in_use. intro c.
  preserves_tac.
Qed.

End ServiceReads.

#[global] Hint Resolve getManifestById_keeps_db getManifestByRef_keeps_db
  getBatchJob_keeps_db getStatistics_keeps_db searchDeliveries_keeps_db
  getManifestById_in_use getManifestByRef_in_use getBatchJob_in_use
  getStatistics_in_use searchDeliveries_in_use createBatchJob_in_use
  updateBatchJob_in_use linkBatchManifest_in_use storeManifest_in_use : keeps.

(** X1.  The lookups of the database service only read, and give back the
    connection they took: whatever they return or throw, and whichever call
    fails, the committed content of the store and the number of connections
    checked out of the pool are what they were before the call. *)
Theorem lookups_leave_the_store_alone {E : Env} (manifestId manifestRef
    jobId : string) (filters : DatabaseService.delivery_filters) (w : World) :
  (db (snd (DatabaseService.getManifestById manifestId w)) = db w /\
   in_use (snd (DatabaseService.getManifestById manifestId w)) = in_use w) /\
  (db (snd (DatabaseService.getManifestByRef manifestRef w)) = db w /\
   in_use (snd (DatabaseService.getManifestByRef manifestRef w)) = in_use w) /\
  (db (snd (DatabaseService.searchDeliveries filters w)) = db w /\
   in_use (snd (DatabaseService.searchDeliveries filters w)) = in_use w) /\
  (db (snd (DatabaseService.getBatchJob jobId w)) = db w /\
   in_use (snd (DatabaseService.getBatchJob jobId w)) = in_use w).
Proof.
  repeat split.
  - apply getManifestById_keeps_db.
  - apply getManifestById_in_use.
  - apply getManifestByRef_keeps_db.
  - apply getManifestByRef_in_use.
  - apply searchDeliveries_keeps_db.
  - apply searchDeliveries_in_use.
  - apply getBatchJob_keeps_db.
  - apply getBatchJob_in_use.
Qed.


(** ** The handlers and the pool *)

Section HandlerFrames.
Context {E : Env}.

Lemma store_extracted_in_use jobId order pi :
  preserves in_use (Server.store_extracted jobId order pi).
Proof. unfold Server.store_extracted. keeps_tac. Qed.

Lemma process_file_in_use job jobId storeInDb order file :
  preserves in_use (Server.process_file job jobId storeInDb order file).
Proof.
  unfold Server.process_file. keeps_tac. apply store_extracted_in_use.
Qed.

Lemma processBatchInBackground_in_use jobId files storeInDb :
  preserves in_use (Server.processBatchInBackground jobId files storeInDb).
Proof.
  unfold Server.processBatchInBackground, Server.complete_job, Server.fail_job.
  keeps_tac. apply process_file_in_use.
Qed.

(** With [storeInDb] false the batch processor does not go near the
    store. *)
Lemma processBatchInBackground_keeps_db jobId files :
  preserves db (Server.processBatchInBackground jobId files false).
Proof.
  unfold Server.processBatchInBackground, Server.complete_job, Server.fail_job.
  cbv iota. keeps_tac.
  unfold Server.process_file. cbv iota. keeps_tac.
Qed.

Lemma clean_up_keeps {X} (f : World -> X) `{!IgnoresTrace f}
    `{!IgnoresProcess f} path warning :
  preserves f (Server.clean_up path warning).
Proof. unfold Server.clean_up. keeps_tac. Qed.

End HandlerFrames.

(** X2.  No handler keeps a connection. Whatever a request makes the handler
    do, and whatever fails on the way, the number of connections checked out
    of the pool is afterwards what it was before; this includes the batch
    processor that [POST /extract/batch] starts. *)
Theorem handlers_return_every_connection {E : Env} {D : Server.Disk}
    (w : World) :
  (forall file store_in_db,
     in_use (snd (Server.extract_single file store_in_db w)) = in_use w) /\
  (forall files store_in_db,
     in_use (snd (Server.extract_batch files store_in_db w)) = in_use w) /\
  (forall jobId files storeInDb,
     in_use (snd (Server.processBatchInBackground jobId files storeInDb w))
     = in_use w) /\
  (forall jobId, in_use (snd (Server.batch_status jobId w)) = in_use w) /\
  (forall jobId, in_use (snd (Server.batch_results jobId w)) = in_use w) /\
  (forall manifestId,
     in_use (snd (Server.get_manifest manifestId w)) = in_use w) /\
  (forall q, in_use (snd (Server.search_deliveries q w)) = in_use w) /\
  (forall file, in_use (snd (Server.validate_pdf file w)) = in_use w) /\
  (forall jobId, in_use (snd (Server.delete_batch jobId w)) = in_use w).
Proof.
  repeat split; intros; revert w;
    match goal with
    | |- forall w, ?f (snd (?m w)) = ?f w => change (preserves f m)
    end.
  - unfold Server.extract_single. keeps_tac; apply clean_up_keeps; exact _.
  - unfold Server.extract_batch. keeps_tac.
    apply processBatchInBackground_in_use.
  - apply processBatchInBackground_in_use.
  - unfold Server.batch_status. keeps_tac.
  - unfold Server.batch_results. keeps_tac.
  - unfold Server.get_manifest. keeps_tac.
  - unfold Server.search_deliveries. keeps_tac.
  - unfold Server.validate_pdf. keeps_tac; apply clean_up_keeps; exact _.
  - apply keeps_delete_batch. exact _.
Qed.

(** The handlers that answer questions never write.  Looking up a
    manifest, searching deliveries, asking for the status or the results of
    a batch job, validating an upload and forgetting a job leave the
    committed content of the store as it was, whatever they answer. *)
Theorem query_handlers_never_write {E : Env} {D : Server.Disk} (w : World) :
  (forall manifestId, db (snd (Server.get_manifest manifestId w)) = db w) /\
  (forall q, db (snd (Server.search_deliveries q w)) = db w) /\
  (forall jobId, db (snd (Server.batch_status jobId w)) = db w) /\
  (forall jobId, db (snd (Server.batch_results jobId w)) = db w) /\
  (forall file, db (snd (Server.validate_pdf file w)) = db w) /\
  (forall jobId, db (snd (Server.delete_batch jobId w)) = db w).
Proof.
  repeat split; intros; revert w;
    match goal with
    | |- forall w, ?f (snd (?m w)) = ?f w => change (preserves f m)
    end.
  - unfold Server.get_manifest. keeps_tac.
  - unfold Server.search_deliveries. keeps_tac.
  - unfold Server.batch_status. keeps_tac.
  - unfold Server.batch_results. keeps_tac.
  - unfold Server.validate_pdf. keeps_tac; apply clean_up_keeps; exact _.
  - apply keeps_delete_batch. exact _.
Qed.

(** X3.  With [store_in_db=false] an extraction never touches the store: the
    single extraction, the batch submission and the batch processor it starts
    leave the committed content as it was, whatever the extractor and the
    clean-up do. *)
Theorem extraction_without_store_never_writes {E : Env} (w : World) :
  (forall file,
     db (snd (Server.extract_single file (Some "false") w)) = db w) /\
  (forall files,
     db (snd (Server.extract_batch files (Some "false") w)) = db w) /\
  (forall jobId files,
     db (snd (Server.processBatchInBackground jobId files false w)) = db w).
Proof.
  repeat split; intros; revert w;
    match goal with
    | |- forall w, ?f (snd (?m w)) = ?f w => change (preserves f m)
    end.
  - unfold Server.extract_single.
    change (negb (String.eqb "false" "false")) with false. cbv iota.
    keeps_tac; apply clean_up_keeps; exact _.
  - unfold Server.extract_batch.
    change (negb (String.eqb "false" "false")) with false. cbv iota.
    keeps_tac. apply processBatchInBackground_keeps_db.
  - apply processBatchInBackground_keeps_db.
Qed.


(** ** Batch jobs in the store *)

(** The row a new job gets: no progress, status [processing]. *)
Definition new_batch_row (i jobId : string) (n : nat) (t : Z)
  : Schema.batch_jobs_row :=
  {| Schema.b_id := i;
     Schema.job_id := jobId;
     Schema.total_files := n;
     Schema.processed_files := 0;
     Schema.successful_files := 0;
     Schema.failed_files := 0;
     Schema.status := "processing";
     Schema.results := [];
     Schema.errors := [];
     Schema.error_message := None;
     Schema.started_at := t;
     Schema.completed_at := None |}.

(** [d'] is [d] with one more job row, for a job id that [d] did not
    have. *)
Definition job_created (i jobId : string) (n : nat) (d d' : Schema.Db) : Prop :=
  Schema.has_job_id jobId d = false /\
  Schema.has_batch_job i d = false /\
  exists t,
    d' = Schema.with_batch_jobs
           (Schema.batch_jobs d ++ [new_batch_row i jobId n t]) d.

Lemma with_batch_jobs_same (d : Schema.Db) :
  Schema.with_batch_jobs (Schema.batch_jobs d) d = d.
Proof. destruct d; reflexivity. Qed.

Lemma no_job_id (jobId : string) (d : Schema.Db) :
  Schema.has_job_id jobId d = false <->
  forall r, In r (Schema.batch_jobs d) -> Schema.job_id r <> jobId.
Proof.
  unfold Schema.has_job_id. split.
  - intros H r Hin Heq.
    assert (existsb (fun r => String.eqb (Schema.job_id r) jobId)
                    (Schema.batch_jobs d) = true); [|congruence].
    apply existsb_exists. exists r. split; [exact Hin|].
    apply String.eqb_eq. exact Heq.
  - intros H. apply not_true_is_false. intros Hex.
    apply existsb_exists in Hex. destruct Hex as [r [Hin Heq]].
    apply String.eqb_eq in Heq. exact (H r Hin Heq).
Qed.

Section BatchService.
Context {E : Env}.

Lemma createBatchJob_spec jobId n (w : World) :
  match DatabaseService.createBatchJob jobId n w with
  | (Return i, w') => job_created i jobId n (db w) (db w')
  | (Throw _, w') => db w' = db w
  end.
Proof.
  unfold DatabaseService.createBatchJob.
  rewrite bind_run, pool_connect_run.
  destruct (fault (tick w)); [reflexivity|].
  unfold try_finally. rewrite query_run. simpl tick.
  destruct (fault (S (tick w))); [reflexivity|].
  unfold DatabaseService.INSERT_batch_jobs, visible. simpl.
  destruct (Schema.has_batch_job _ (db w)) eqn:Hb; [reflexivity|].
  destruct (Schema.has_job_id jobId (db w)) eqn:Hj; [reflexivity|].
  simpl. repeat split; try assumption. eexists. reflexivity.
Qed.

(** [getBatchJob] when neither of its two external calls fails. *)
Lemma getBatchJob_run jobId (w : World) :
  fault (tick w) = None ->
  fault (S (tick w)) = None ->
  exists w',
    DatabaseService.getBatchJob jobId w =
    (Return
       match List.filter (fun r => String.eqb (Schema.job_id r) jobId)
                         (Schema.batch_jobs (db w)) with
       | r :: _ => Some r
       | [] => None
       end, w') /\
    db w' = db w /\ batchJobs w' = batchJobs w /\ heap w' = heap w /\
    tick w' = S (S (tick w)).
Proof.
  intros H0 H1. unfold DatabaseService.getBatchJob.
  rewrite bind_run, pool_connect_run, H0.
  unfold try_finally. rewrite bind_run, query_run. simpl tick. rewrite H1.
  unfold DatabaseService.SELECT_batch_job, visible. simpl.
  eexists. split; [reflexivity|]. simpl.
  destruct w, db; repeat split.
Qed.

End BatchService.

(** X4.  A job that [createBatchJob] recorded is found by [getBatchJob]. If
    the call returned the key [i], then in any later state with the same
    committed content a lookup of the job id that reaches the store returns a
    row with that key, that job id and that number of files, in status
    [processing] and with no progress. *)
Theorem created_job_is_found {E : Env} (jobId : string) (n : nat)
    (w w1 w2 : World) (i : string) :
  DatabaseService.createBatchJob jobId n w = (Return i, w1) ->
  db w2 = db w1 ->
  fault (tick w2) = None ->
  fault (S (tick w2)) = None ->
  exists r w3,
    DatabaseService.getBatchJob jobId w2 = (Return (Some r), w3) /\
    Schema.b_id r = i /\
    Schema.job_id r = jobId /\
    Schema.total_files r = n /\
    Schema.status r = "processing" /\
    Schema.processed_files r = 0%nat /\
    Schema.successful_files r = 0%nat /\
    Schema.failed_files r = 0%nat /\
    Schema.completed_at r = None.
Proof.
  intros Hc Hdb H0 H1.
  pose proof (createBatchJob_spec jobId n w) as Hspec. rewrite Hc in Hspec.
  destruct Hspec as [Hnew [_ [t Hd]]].
  destruct (getBatchJob_run jobId w2 H0 H1) as [w3 [Hrun _]].
  rewrite Hdb, Hd in Hrun. simpl in Hrun.
  rewrite List.filter_app, (filter_none _ _ Hnew) in Hrun. simpl in Hrun.
  rewrite String.eqb_refl in Hrun.
  eexists _, w3. split; [exact Hrun|]. repeat split.
Qed.

Example created_job_is_found_witness :
  exists r w3,
    DatabaseService.getBatchJob (E := Sample.quiet) "job-7"
      (snd (DatabaseService.createBatchJob (E := Sample.quiet) "job-7" 3
              Sample.start))
    = (Return (Some r), w3) /\
    Schema.b_id r = "id1" /\
    Schema.job_id r = "job-7" /\
    Schema.total_files r = 3%nat /\
    Schema.status r = "processing" /\
    Schema.processed_files r = 0%nat /\
    Schema.successful_files r = 0%nat /\
    Schema.failed_files r = 0%nat /\
    Schema.completed_at r = None.
Proof.
  apply (created_job_is_found (E := Sample.quiet) "job-7" 3 Sample.start
           (snd (DatabaseService.createBatchJob (E := Sample.quiet) "job-7" 3
                   Sample.start))).
  - vm_compute. reflexivity.
  - reflexivity.
  - reflexivity.
  - reflexivity.
Defined.

(** X5.  [getBatchJob] answers with a row of the job asked for, or with
    [null] when the store has none: when neither call to the store fails,
    what it returns is a row of [batch_jobs] with the given job id, and it
    returns [null] only if no row has that job id. *)
Theorem getBatchJob_finds_known_jobs_only {E : Env} (jobId : string)
    (w : World) :
  fault (tick w) = None ->
  fault (S (tick w)) = None ->
  match fst (DatabaseService.getBatchJob jobId w) with
  | Return (Some r) =>
      In r (Schema.batch_jobs (db w)) /\ Schema.job_id r = jobId
  | Return None =>
      forall r, In r (Schema.batch_jobs (db w)) -> Schema.job_id r <> jobId
  | Throw _ => False
  end.
Proof.
  intros H0 H1. destruct (getBatchJob_run jobId w H0 H1) as [w' [Hrun _]].
  rewrite Hrun. simpl.
  destruct (List.filter _ _) as [|r rs] eqn:Hf.
  - intros r Hin Heq.
    assert (Hr : In r (List.filter
                         (fun r => String.eqb (Schema.job_id r) jobId)
                         (Schema.batch_jobs (db w)))).
    { apply List.filter_In. split; [exact Hin|].
      apply String.eqb_eq. exact Heq. }
    rewrite Hf in Hr. exact Hr.
  - assert (Hr : In r (List.filter
                         (fun r => String.eqb (Schema.job_id r) jobId)
                         (Schema.batch_jobs (db w))))
      by (rewrite Hf; left; reflexivity).
    apply List.filter_In in Hr. destruct Hr as [Hin Heq].
    split; [exact Hin|]. apply String.eqb_eq. exact Heq.
Qed.

Example getBatchJob_finds_known_jobs_only_witness :
  match fst (DatabaseService.getBatchJob (E := Sample.quiet) "job-9"
               SampleBatch.created) with
  | Return (Some r) =>
      In r (Schema.batch_jobs (db SampleBatch.created)) /\
      Schema.job_id r = "job-9"
  | Return None =>
      forall r, In r (Schema.batch_jobs (db SampleBatch.created)) ->
                Schema.job_id r <> "job-9"
  | Throw _ => False
  end.
Proof.
  apply (getBatchJob_finds_known_jobs_only (E := Sample.quiet) "job-9"
           SampleBatch.created); reflexivity.
Defined.


(** ** What [updateBatchJob] writes *)

(** The columns assigned when a property of [updates] is present. *)
Definition column_if {A} (x : option A) (col : DatabaseService.batch_column)
  : list DatabaseService.batch_column :=
  match x with
  | Some _ => [col]
  | None => []
  end.

(** A state of the three accumulators of [updateBatchJob]: the set clause
    assigns the columns [cols], and [paramCount] is the number of
    parameters pushed. *)
Definition shape (cols : list DatabaseService.batch_column)
    (s : list (DatabaseService.batch_column * nat) *
         list DatabaseService.param * nat) : Prop :=
  map fst (fst (fst s)) = cols /\ snd s = length (snd (fst s)).

Lemma shape_push_set {A} (x : option A) col (p : A -> DatabaseService.param)
    cols s :
  shape cols s ->
  shape (cols ++ column_if x col) (DatabaseService.push_set x col p s).
Proof.
  destruct s as [[sc ps] n]. unfold shape. simpl. intros [Hc Hn].
  destruct x as [v|]; simpl.
  - rewrite map_app, length_app, Hc, Hn. simpl. split; [reflexivity|lia].
  - rewrite app_nil_r. split; assumption.
Qed.

(** Whether a row [r'] has the same value as [r] in a column. *)
Definition untouched (col : DatabaseService.batch_column)
    (r r' : Schema.batch_jobs_row) : Prop :=
  match col with
  | DatabaseService.col_status => Schema.status r' = Schema.status r
  | DatabaseService.col_completed_at =>
      Schema.completed_at r' = Schema.completed_at r
  | DatabaseService.col_processed_files =>
      Schema.processed_files r' = Schema.processed_files r
  | DatabaseService.col_successful_files =>
      Schema.successful_files r' = Schema.successful_files r
  | DatabaseService.col_failed_files =>
      Schema.failed_files r' = Schema.failed_files r
  | DatabaseService.col_results => Schema.results r' = Schema.results r
  | DatabaseService.col_errors => Schema.errors r' = Schema.errors r
  | DatabaseService.col_error_message =>
      Schema.error_message r' = Schema.error_message r
  end.

(** [r'] is the row [r] after an update of the job [jobId] that assigned
    the columns [cols]: the key, the job id, the number of files and the
    start time are those of [r], a row of another job is [r] itself, and
    so is every column that was not assigned. *)
Definition updated_from (jobId : string)
    (cols : list DatabaseService.batch_column)
    (r r' : Schema.batch_jobs_row) : Prop :=
  Schema.b_id r' = Schema.b_id r /\
  Schema.job_id r' = Schema.job_id r /\
  Schema.total_files r' = Schema.total_files r /\
  Schema.started_at r' = Schema.started_at r /\
  (Schema.job_id r <> jobId -> r' = r) /\
  forall col, ~ In col cols -> untouched col r r'.

Lemma untouched_refl col r : untouched col r r.
Proof. destruct col; reflexivity. Qed.

Lemma untouched_trans col r1 r2 r3 :
  untouched col r1 r2 -> untouched col r2 r3 -> untouched col r1 r3.
Proof. destruct col; simpl; congruence. Qed.

Lemma updated_from_refl jobId cols r : updated_from jobId cols r r.
Proof.
  repeat split; try reflexivity. intros col _. apply untouched_refl.
Qed.

Lemma assign_frame params a r r' :
  DatabaseService.assign params a r = Some r' ->
  Schema.b_id r' = Schema.b_id r /\
  Schema.job_id r' = Schema.job_id r /\
  Schema.total_files r' = Schema.total_files r /\
  Schema.started_at r' = Schema.started_at r /\
  forall col, col <> fst a -> untouched col r r'.
Proof.
  unfold DatabaseService.assign. destruct a as [c k]. simpl.
  destruct c; destruct (nth_error params (Nat.pred k)) as [[]|];
    try discriminate; intros H; injection H as <-; simpl;
    repeat split; intros col Hne; destruct col; try reflexivity;
    contradiction.
Qed.

Lemma assign_all_frame params setClause : forall r r',
  DatabaseService.assign_all params setClause r = Some r' ->
  Schema.b_id r' = Schema.b_id r /\
  Schema.job_id r' = Schema.job_id r /\
  Schema.total_files r' = Schema.total_files r /\
  Schema.started_at r' = Schema.started_at r /\
  forall col, ~ In col (map fst setClause) -> untouched col r r'.
Proof.
  induction setClause as [|a rest IH]; intros r r' H; simpl in H.
  - injection H as <-. repeat split. intros col _. apply untouched_refl.
  - destruct (DatabaseService.assign params a r) as [r1|] eqn:Ha;
      [|discriminate].
    apply assign_frame in Ha. destruct Ha as [A1 [A2 [A3 [A4 A5]]]].
    apply IH in H. destruct H as [B1 [B2 [B3 [B4 B5]]]].
    repeat split; try congruence.
    intros col Hnin. simpl in Hnin.
    apply (untouched_trans col r r1 r').
    + apply A5. intros ->. apply Hnin. left. reflexivity.
    + apply B5. intros Hin. apply Hnin. right. exact Hin.
Qed.

Lemma update_rows_frame params setClause jobId : forall rows rows',
  DatabaseService.update_rows params setClause jobId rows = Some rows' ->
  Forall2 (updated_from jobId (map fst setClause)) rows rows'.
Proof.
  induction rows as [|r rows IH]; intros rows' H; simpl in H.
  - injection H as <-. constructor.
  - destruct (String.eqb_spec (Schema.job_id r) jobId) as [Heq|Hne].
    + destruct (DatabaseService.assign_all params setClause r) as [r1|] eqn:Ha;
        [|discriminate].
      destruct (DatabaseService.update_rows params setClause jobId rows)
        as [rs|]; [|discriminate].
      injection H as <-. constructor; [|apply IH; reflexivity].
      apply assign_all_frame in Ha. destruct Ha as [A1 [A2 [A3 [A4 A5]]]].
      repeat split; try assumption. intros Hne. contradiction.
    + destruct (DatabaseService.update_rows params setClause jobId rows)
        as [rs|]; [|discriminate].
      injection H as <-. constructor; [|apply IH; reflexivity].
      apply updated_from_refl.
Qed.

(** An update of a job that has no row rewrites nothing. *)
Lemma update_rows_unknown params setClause jobId : forall rows,
  (forall r, In r rows -> Schema.job_id r <> jobId) ->
  DatabaseService.update_rows params setClause jobId rows = Some rows.
Proof.
  induction rows as [|r rows IH]; intros H; simpl; [reflexivity|].
  destruct (String.eqb_spec (Schema.job_id r) jobId) as [Heq|_].
  - exfalso. exact (H r (or_introl eq_refl) Heq).
  - rewrite IH; [reflexivity|]. intros r' Hin. apply H. right. exact Hin.
Qed.

Lemma Forall2_refl {A} (R : A -> A -> Prop) (l : list A) :
  (forall x, R x x) -> Forall2 R l l.
Proof. intros H. induction l; constructor; auto. Qed.

(** The columns [updateBatchJob] assigns for [updates]. *)
Definition assigned_columns (updates : DatabaseService.batch_updates)
  : list DatabaseService.batch_column :=
  column_if (DatabaseService.status updates) DatabaseService.col_status ++
  (match DatabaseService.status updates with
   | Some st =>
       if String.eqb st "completed" then [DatabaseService.col_completed_at]
       else []
   | None => []
   end) ++
  column_if (DatabaseService.processedFiles updates)
            DatabaseService.col_processed_files ++
  column_if (DatabaseService.successfulFiles updates)
            DatabaseService.col_successful_files ++
  column_if (DatabaseService.failedFiles updates)
            DatabaseService.col_failed_files ++
  column_if (DatabaseService.results updates) DatabaseService.col_results ++
  column_if (DatabaseService.errors updates) DatabaseService.col_errors ++
  column_if (DatabaseService.given (DatabaseService.errorMessage updates))
            DatabaseService.col_error_message.

Section BatchUpdate.
Context {E : Env}.

(** What a call of [updateBatchJob] does: nothing to the store when it
    throws or when no property is given; otherwise one [UPDATE] whose set
    clause assigns [assigned_columns updates] and whose last parameter is
    the job id. *)
Lemma updateBatchJob_spec jobId updates (w : World) :
  let '(r, w') := DatabaseService.updateBatchJob jobId updates w in
  db w' = db w \/
  exists setClause params rows,
    r = Return tt /\
    map fst setClause = assigned_columns updates /\
    DatabaseService.update_rows params setClause jobId
      (Schema.batch_jobs (db w)) = Some rows /\
    db w' = Schema.with_batch_jobs rows (db w).
Proof.
  unfold DatabaseService.updateBatchJob.
  rewrite bind_run, pool_connect_run.
  destruct (fault (tick w)); [left; reflexivity|].
  unfold try_finally. rewrite bind_run. unfold now at 1. cbv beta iota.
  match goal with
  | |- context [DatabaseService.push_set
                  (DatabaseService.given (DatabaseService.errorMessage updates))
                  DatabaseService.col_error_message DatabaseService.PText ?s0] =>
      assert (Hs : shape (assigned_columns updates)
                     (DatabaseService.push_set
                        (DatabaseService.given
                           (DatabaseService.errorMessage updates))
                        DatabaseService.col_error_message
                        DatabaseService.PText s0));
      [|destruct (DatabaseService.push_set
                    (DatabaseService.given
                       (DatabaseService.errorMessage updates))
                    DatabaseService.col_error_message
                    DatabaseService.PText s0) as [[sc ps] n]]
  end.
  { unfold assigned_columns. rewrite !app_assoc.
    repeat apply shape_push_set.
    destruct (DatabaseService.status updates) as [st|]; simpl.
    - destruct (String.eqb st "completed"); split; reflexivity.
    - split; reflexivity. }
  destruct Hs as [Hcols Hn]. simpl in Hcols, Hn.
  destruct sc as [|a sc]; [left; reflexivity|].
  rewrite query_run. simpl tick.
  destruct (fault (S (tick w))); [left; reflexivity|].
  unfold DatabaseService.UPDATE_batch_jobs, visible. simpl.
  destruct (DatabaseService.text_param _ _) as [jobId'|] eqn:Hp;
    [|left; reflexivity].
  assert (jobId' = jobId) as ->.
  { unfold DatabaseService.text_param in Hp. simpl in Hp.
    rewrite Hn, nth_error_app2, Nat.sub_diag in Hp by lia.
    simpl in Hp. congruence. }
  destruct (DatabaseService.update_rows _ _ _ _) as [rows|] eqn:Hu;
    [|left; reflexivity].
  right. exists (a :: sc), (ps ++ [DatabaseService.PText jobId]), rows.
  repeat split; assumption.
Qed.

End BatchUpdate.


Section BatchUpdateRuns.
Context {E : Env}.

(** [updateBatchJob] once the connection is obtained: the statement, if
    one is sent, then the release. *)
Lemma updateBatchJob_run jobId updates (w : World) :
  fault (tick w) = None ->
  exists setClause params,
    map fst setClause = assigned_columns updates /\
    DatabaseService.updateBatchJob jobId updates w =
    try_finally
      (match setClause with
       | [] => ret tt
       | _ :: _ =>
           query Client
             (DatabaseService.UPDATE_batch_jobs setClause
                (params ++ [DatabaseService.PText jobId])
                (S (length params)))
       end)
      (release Client)
      (with_txn None
         (with_in_use (S (in_use w)) (with_tick (S (tick w)) w))).
Proof.
  intros H0. unfold DatabaseService.updateBatchJob.
  rewrite bind_run, pool_connect_run, H0.
  unfold try_finally. rewrite bind_run. unfold now at 1. cbv beta iota.
  match goal with
  | |- context [DatabaseService.push_set
                  (DatabaseService.given (DatabaseService.errorMessage updates))
                  DatabaseService.col_error_message DatabaseService.PText ?s0] =>
      assert (Hs : shape (assigned_columns updates)
                     (DatabaseService.push_set
                        (DatabaseService.given
                           (DatabaseService.errorMessage updates))
                        DatabaseService.col_error_message
                        DatabaseService.PText s0));
      [|destruct (DatabaseService.push_set
                    (DatabaseService.given
                       (DatabaseService.errorMessage updates))
                    DatabaseService.col_error_message
                    DatabaseService.PText s0) as [[sc ps] n]]
  end.
  { unfold assigned_columns. rewrite !app_assoc.
    repeat apply shape_push_set.
    destruct (DatabaseService.status updates) as [st|]; simpl.
    - destruct (String.eqb st "completed"); split; reflexivity.
    - split; reflexivity. }
  destruct Hs as [Hcols Hn]. simpl in Hcols, Hn. subst n.
  exists sc, ps. split; [exact Hcols|].
  destruct sc; reflexivity.
Qed.

End BatchUpdateRuns.

(** X6.  [updateBatchJob] writes what it is given and nothing else. However
    the call ends, the other three tables are as before, and the rows of
    [batch_jobs] are the same rows in the same order, each with its key, job
    id, number of files and start time; a row of another job is untouched;
    and in every row a column is left as it was when the property that would
    set it is absent from [updates]: the completion time unless the status
    given is [completed], the error message when the message given is empty.
    *)
Theorem updateBatchJob_writes_only_what_is_given {E : Env} (jobId : string)
    (updates : DatabaseService.batch_updates) (w : World) :
  let d := db w in
  let d' := db (snd (DatabaseService.updateBatchJob jobId updates w)) in
  Schema.manifests d' = Schema.manifests d /\
  Schema.deliveries d' = Schema.deliveries d /\
  Schema.batch_job_manifests d' = Schema.batch_job_manifests d /\
  Forall2
    (fun r r' =>
       Schema.b_id r' = Schema.b_id r /\
       Schema.job_id r' = Schema.job_id r /\
       Schema.total_files r' = Schema.total_files r /\
       Schema.started_at r' = Schema.started_at r /\
       (Schema.job_id r <> jobId -> r' = r) /\
       (DatabaseService.status updates = None ->
        Schema.status r' = Schema.status r) /\
       (DatabaseService.status updates <> Some "completed" ->
        Schema.completed_at r' = Schema.completed_at r) /\
       (DatabaseService.processedFiles updates = None ->
        Schema.processed_files r' = Schema.processed_files r) /\
       (DatabaseService.successfulFiles updates = None ->
        Schema.successful_files r' = Schema.successful_files r) /\
       (DatabaseService.failedFiles updates = None ->
        Schema.failed_files r' = Schema.failed_files r) /\
       (DatabaseService.results updates = None ->
        Schema.results r' = Schema.results r) /\
       (DatabaseService.errors updates = None ->
        Schema.errors r' = Schema.errors r) /\
       (DatabaseService.errorMessage updates = None \/
        DatabaseService.errorMessage updates = Some "" ->
        Schema.error_message r' = Schema.error_message r))
    (Schema.batch_jobs d) (Schema.batch_jobs d').
Proof.
  pose proof (updateBatchJob_spec jobId updates w) as Hspec.
  destruct (DatabaseService.updateBatchJob jobId updates w) as [r w'].
  simpl. destruct Hspec as [Hsame | [sc [ps [rows [_ [Hcols [Hu Hd]]]]]]].
  - rewrite Hsame. repeat split. apply Forall2_refl. intros x.
    repeat split; reflexivity.
  - rewrite Hd. simpl. repeat split.
    apply update_rows_frame in Hu. rewrite Hcols in Hu.
    eapply Forall2_impl; [exact Hu|].
    intros x y [A1 [A2 [A3 [A4 [A5 A6]]]]].
    repeat split; try assumption.
    + intros H. apply (A6 DatabaseService.col_status).
      destruct updates as [st pf sf ff rs es em]; simpl in H; subst.
      unfold assigned_columns, column_if, DatabaseService.given; simpl.
      destruct pf, sf, ff, rs, es, em as [em|];
        try destruct (String.eqb em ""); simpl; intuition discriminate.
    + intros H. apply (A6 DatabaseService.col_completed_at).
      destruct updates as [st pf sf ff rs es em]; simpl in H.
      unfold assigned_columns, column_if, DatabaseService.given; simpl.
      destruct st as [st|].
      * destruct (String.eqb_spec st "completed") as [->|_];
          [contradiction|].
        destruct pf, sf, ff, rs, es, em as [em|];
          try destruct (String.eqb em ""); simpl; intuition discriminate.
      * destruct pf, sf, ff, rs, es, em as [em|];
          try destruct (String.eqb em ""); simpl; intuition discriminate.
    + intros H. apply (A6 DatabaseService.col_processed_files).
      destruct updates as [st pf sf ff rs es em]; simpl in H; subst.
      unfold assigned_columns, column_if, DatabaseService.given; simpl.
      destruct st as [st|], sf, ff, rs, es, em as [em|];
        try destruct (String.eqb st "completed");
        try destruct (String.eqb em ""); simpl; intuition discriminate.
    + intros H. apply (A6 DatabaseService.col_successful_files).
      destruct updates as [st pf sf ff rs es em]; simpl in H; subst.
      unfold assigned_columns, column_if, DatabaseService.given; simpl.
      destruct st as [st|], pf, ff, rs, es, em as [em|];
        try destruct (String.eqb st "completed");
        try destruct (String.eqb em ""); simpl; intuition discriminate.
    + intros H. apply (A6 DatabaseService.col_failed_files).
      destruct updates as [st pf sf ff rs es em]; simpl in H; subst.
      unfold assigned_columns, column_if, DatabaseService.given; simpl.
      destruct st as [st|], pf, sf, rs, es, em as [em|];
        try destruct (String.eqb st "completed");
        try destruct (String.eqb em ""); simpl; intuition discriminate.
    + intros H. apply (A6 DatabaseService.col_results).
      destruct updates as [st pf sf ff rs es em]; simpl in H; subst.
      unfold assigned_columns, column_if, DatabaseService.given; simpl.
      destruct st as [st|], pf, sf, ff, es, em as [em|];
        try destruct (String.eqb st "completed");
        try destruct (String.eqb em ""); simpl; intuition discriminate.
    + intros H. apply (A6 DatabaseService.col_errors).
      destruct updates as [st pf sf ff rs es em]; simpl in H; subst.
      unfold assigned_columns, column_if, DatabaseService.given; simpl.
      destruct st as [st|], pf, sf, ff, rs, em as [em|];
        try destruct (String.eqb st "completed");
        try destruct (String.eqb em ""); simpl; intuition discriminate.
    + intros H. apply (A6 DatabaseService.col_error_message).
      destruct updates as [st pf sf ff rs es em]; simpl in H.
      unfold assigned_columns, column_if, DatabaseService.given; simpl.
      destruct H as [->| ->]; simpl;
        destruct st as [st|], pf, sf, ff, rs, es;
        try destruct (String.eqb st "completed");
        simpl; intuition discriminate.
Qed.

(** The properties of [updates] that make [updateBatchJob] assign
    nothing: all absent, or an empty error message. *)
Definition nothing_given (updates : DatabaseService.batch_updates) : Prop :=
  DatabaseService.status updates = None /\
  DatabaseService.processedFiles updates = None /\
  DatabaseService.successfulFiles updates = None /\
  DatabaseService.failedFiles updates = None /\
  DatabaseService.results updates = None /\
  DatabaseService.errors updates = None /\
  (DatabaseService.errorMessage updates = None \/
   DatabaseService.errorMessage updates = Some "").

(** X7.  An update that gives nothing sends no statement. Once the connection
    is obtained the call returns; the connection was its only call to the
    store, whose content is untouched. *)
Theorem empty_update_sends_no_statement {E : Env} (jobId : string)
    (updates : DatabaseService.batch_updates) (w : World) :
  nothing_given updates ->
  fault (tick w) = None ->
  exists w',
    DatabaseService.updateBatchJob jobId updates w = (Return tt, w') /\
    tick w' = S (tick w) /\ db w' = db w /\ in_use w' = in_use w.
Proof.
  intros Hn H0.
  destruct (updateBatchJob_run jobId updates w H0) as [sc [ps [Hcols Hrun]]].
  assert (Hnone : assigned_columns updates = []).
  { destruct updates as [st pf sf ff rs es em].
    destruct Hn as [H1 [H2 [H3 [H4 [H5 [H6 H7]]]]]]. simpl in *. subst.
    destruct H7 as [->| ->]; reflexivity. }
  rewrite Hnone in Hcols. apply map_eq_nil in Hcols. subst sc.
  rewrite Hrun. eexists. split; [reflexivity|]. repeat split.
Qed.

Example empty_update_sends_no_statement_witness :
  exists w',
    DatabaseService.updateBatchJob (E := Sample.quiet) "job-1"
      {| DatabaseService.status := None;
         DatabaseService.processedFiles := None;
         DatabaseService.successfulFiles := None;
         DatabaseService.failedFiles := None;
         DatabaseService.results := None;
         DatabaseService.errors := None;
         DatabaseService.errorMessage := Some "" |}
      SampleBatch.created
    = (Return tt, w') /\
    tick w' = S (tick SampleBatch.created) /\
    db w' = db SampleBatch.created /\
    in_use w' = in_use SampleBatch.created.
Proof.
  apply (empty_update_sends_no_statement (E := Sample.quiet)).
  - repeat split. right. reflexivity.
  - reflexivity.
Defined.

(** X8.  Updating a job that the store does not know is not an error. When
    neither call to the store fails and no row of [batch_jobs] has the job
    id, the call returns and the content of the store is what it was. *)
Theorem update_of_unknown_job_is_silent {E : Env} (jobId : string)
    (updates : DatabaseService.batch_updates) (w : World) :
  (forall r, In r (Schema.batch_jobs (db w)) -> Schema.job_id r <> jobId) ->
  fault (tick w) = None ->
  fault (S (tick w)) = None ->
  exists w',
    DatabaseService.updateBatchJob jobId updates w = (Return tt, w') /\
    db w' = db w.
Proof.
  intros Hunknown H0 H1.
  destruct (updateBatchJob_run jobId updates w H0) as [sc [ps [_ Hrun]]].
  rewrite Hrun. unfold try_finally. destruct sc as [|a sc].
  - eexists. split; reflexivity.
  - rewrite query_run. simpl tick. rewrite H1.
    unfold DatabaseService.UPDATE_batch_jobs, visible,
      DatabaseService.text_param. simpl.
    rewrite nth_error_app2, Nat.sub_diag by lia. simpl.
    rewrite (update_rows_unknown _ _ _ _ Hunknown).
    eexists. split; [reflexivity|]. simpl. apply with_batch_jobs_same.
Qed.

Example update_of_unknown_job_is_silent_witness :
  exists w',
    DatabaseService.updateBatchJob (E := Sample.quiet) "job-2"
      {| DatabaseService.status := Some "failed";
         DatabaseService.processedFiles := None;
         DatabaseService.successfulFiles := None;
         DatabaseService.failedFiles := None;
         DatabaseService.results := None;
         DatabaseService.errors := None;
         DatabaseService.errorMessage := Some "disk full" |}
      SampleBatch.created
    = (Return tt, w') /\
    db w' = db SampleBatch.created.
Proof.
  apply (update_of_unknown_job_is_silent (E := Sample.quiet)).
  - intros r Hin. vm_compute in Hin. destruct Hin as [<-|[]]. discriminate.
  - reflexivity.
  - reflexivity.
Defined.


(** ** Links between batch jobs and manifests *)

(** What [linkBatchManifest] does to the store: nothing when it throws,
    and when it returns nothing or the links of the job appended. *)
Lemma linkBatchManifest_spec {E : Env} (jobId manifestId : string)
    (order : nat) (w : World) :
  let links :=
    map (fun bj => {| Schema.batch_job_id := Schema.b_id bj;
                      Schema.l_manifest_id := manifestId;
                      Schema.processing_order := order |})
        (List.filter (fun bj => String.eqb (Schema.job_id bj) jobId)
                     (Schema.batch_jobs (db w))) in
  match DatabaseService.linkBatchManifest jobId manifestId order w with
  | (Return _, w') =>
      db w' = db w \/
      Schema.has_manifest manifestId (db w) = true /\
      db w' = Schema.with_batch_job_manifests
                (Schema.batch_job_manifests (db w) ++ links) (db w)
  | (Throw _, w') => db w' = db w
  end.
Proof.
  unfold DatabaseService.linkBatchManifest.
  rewrite bind_run, pool_connect_run.
  destruct (fault (tick w)); [reflexivity|].
  unfold try_finally. rewrite query_run. simpl tick.
  destruct (fault (S (tick w))); [reflexivity|].
  unfold DatabaseService.INSERT_batch_job_manifests, visible. simpl.
  destruct (map _ (List.filter _ (Schema.batch_jobs (db w)))) as [|l ls] eqn:Hl.
  - simpl. left. reflexivity.
  - destruct (Schema.has_manifest manifestId (db w)) eqn:Hm; simpl;
      [|reflexivity].
    right. split; reflexivity.
Qed.

(** X9.  [linkBatchManifest] only appends links. However the call ends, the
    tables of manifests, deliveries and batch jobs are as before, and the
    link table has gained, at its end, nothing or one link per row of
    [batch_jobs] that has the job id; each new link carries the key of such a
    row, the given manifest id and the given order, and links are only added
    to a manifest that the store has. *)
Theorem linkBatchManifest_appends_links {E : Env} (jobId manifestId : string)
    (order : nat) (w : World) :
  let d := db w in
  let d' :=
    db (snd (DatabaseService.linkBatchManifest jobId manifestId order w)) in
  Schema.manifests d' = Schema.manifests d /\
  Schema.deliveries d' = Schema.deliveries d /\
  Schema.batch_jobs d' = Schema.batch_jobs d /\
  exists links,
    Schema.batch_job_manifests d' = Schema.batch_job_manifests d ++ links /\
    Forall (fun l =>
              Schema.l_manifest_id l = manifestId /\
              Schema.processing_order l = order /\
              Schema.has_manifest manifestId d = true /\
              exists bj, In bj (Schema.batch_jobs d) /\
                         Schema.job_id bj = jobId /\
                         Schema.batch_job_id l = Schema.b_id bj)
           links /\
    (length links = 0%nat \/
     length links
     = length (List.filter (fun bj => String.eqb (Schema.job_id bj) jobId)
                           (Schema.batch_jobs d))).
Proof.
  pose proof (linkBatchManifest_spec jobId manifestId order w) as Hspec.
  destruct (DatabaseService.linkBatchManifest jobId manifestId order w)
    as [r w'].
  cbv zeta in *. simpl snd.
  assert (Hsame : db w' = db w ->
    Schema.manifests (db w') = Schema.manifests (db w) /\
    Schema.deliveries (db w') = Schema.deliveries (db w) /\
    Schema.batch_jobs (db w') = Schema.batch_jobs (db w) /\
    exists links,
      Schema.batch_job_manifests (db w')
      = Schema.batch_job_manifests (db w) ++ links /\
      Forall (fun l =>
                Schema.l_manifest_id l = manifestId /\
                Schema.processing_order l = order /\
                Schema.has_manifest manifestId (db w) = true /\
                exists bj, In bj (Schema.batch_jobs (db w)) /\
                           Schema.job_id bj = jobId /\
                           Schema.batch_job_id l = Schema.b_id bj)
             links /\
      (length links = 0%nat \/
       length links
       = length (List.filter (fun bj => String.eqb (Schema.job_id bj) jobId)
                             (Schema.batch_jobs (db w))))).
  { intros ->. repeat split. exists []. rewrite app_nil_r.
    repeat split; [constructor|left; reflexivity]. }
  destruct r as [u|e]; [|exact (Hsame Hspec)].
  destruct Hspec as [Heq | [Hman ->]]; [exact (Hsame Heq)|].
  simpl. repeat split. eexists. split; [reflexivity|]. split.
  - apply List.Forall_forall. intros l Hin.
    apply in_map_iff in Hin. destruct Hin as [bj [<- Hbj]].
    apply List.filter_In in Hbj. destruct Hbj as [Hbj Hid].
    apply String.eqb_eq in Hid. simpl. repeat split; try assumption.
    exists bj. repeat split; assumption.
  - right. apply length_map.
Qed.

(** X10.  A link to a job that the store does not know is dropped without an
    error. When neither call to the store fails and no row of [batch_jobs]
    has the job id, [linkBatchManifest] returns and the store is what it was,
    whether or not the manifest exists. *)
Theorem link_to_unknown_job_is_dropped {E : Env} (jobId manifestId : string)
    (order : nat) (w : World) :
  (forall r, In r (Schema.batch_jobs (db w)) -> Schema.job_id r <> jobId) ->
  fault (tick w) = None ->
  fault (S (tick w)) = None ->
  exists w',
    DatabaseService.linkBatchManifest jobId manifestId order w
    = (Return tt, w') /\
    db w' = db w.
Proof.
  intros Hunknown H0 H1. unfold DatabaseService.linkBatchManifest.
  rewrite bind_run, pool_connect_run, H0.
  unfold try_finally. rewrite query_run. simpl tick. rewrite H1.
  unfold DatabaseService.INSERT_batch_job_manifests, visible. simpl.
  rewrite filter_none.
  - simpl. eexists. split; [reflexivity|]. destruct w, db; reflexivity.
  - apply no_job_id in Hunknown. exact Hunknown.
Qed.

Example link_to_unknown_job_is_dropped_witness :
  exists w',
    DatabaseService.linkBatchManifest (E := Sample.quiet) "job-2" "id2" 1
      Sample.stored
    = (Return tt, w') /\
    db w' = db Sample.stored.
Proof.
  apply (link_to_unknown_job_is_dropped (E := Sample.quiet)).
  - intros r Hin. vm_compute in Hin. destruct Hin.
  - reflexivity.
  - reflexivity.
Defined.


(** ** The pages of [searchDeliveries] *)

Lemma delivery_conditions_count (filters : DatabaseService.delivery_filters) :
  let '(_, params, paramCount) := DatabaseService.delivery_conditions filters in
  paramCount = length params.
Proof.
  unfold DatabaseService.delivery_conditions.
  destruct (DatabaseService.given (DatabaseService.postcode filters)) as [pc|];
    destruct (DatabaseService.given (DatabaseService.contactName filters))
      as [cn|];
    destruct (DatabaseService.given (DatabaseService.bookingRef filters))
      as [br|];
    try destruct (String.length pc <=? 4)%nat; reflexivity.
Qed.

(** The limit and the offset that [searchDeliveries] binds. *)
Definition page_limit (filters : DatabaseService.delivery_filters) : Z :=
  DatabaseService.or_default (DatabaseService.limit filters) 100.

Definition page_offset (filters : DatabaseService.delivery_filters) : Z :=
  DatabaseService.or_default (DatabaseService.offset filters) 0.

Lemma int_param_limit params (l o : Z) :
  DatabaseService.int_param
    ((params ++ [DatabaseService.PInt l]) ++ [DatabaseService.PInt o])
    (S (S (length params)) - 1) = Some l.
Proof.
  unfold DatabaseService.int_param.
  replace (Nat.pred (S (S (length params)) - 1)) with (length params) by lia.
  rewrite <- app_assoc, nth_error_app2, Nat.sub_diag by lia. reflexivity.
Qed.

Lemma int_param_offset params (l o : Z) :
  DatabaseService.int_param
    ((params ++ [DatabaseService.PInt l]) ++ [DatabaseService.PInt o])
    (S (S (length params))) = Some o.
Proof.
  unfold DatabaseService.int_param.
  replace (Nat.pred (S (S (length params)))) with (S (length params)) by lia.
  rewrite <- app_assoc, nth_error_app2 by lia.
  replace (S (length params) - length params)%nat with 1%nat by lia.
  reflexivity.
Qed.

Lemma select_where_length params conditions rows : forall selected,
  DatabaseService.select_where params conditions rows = Some selected ->
  (length selected <= length rows)%nat.
Proof.
  induction rows as [|x rows IH]; intros selected H; simpl in H.
  - injection H as <-. reflexivity.
  - destruct (DatabaseService.where_clause params conditions x) as [b|];
      [|discriminate].
    destruct (DatabaseService.select_where params conditions rows) as [l|];
      [|discriminate].
    injection H as <-. specialize (IH l eq_refl).
    destruct b; simpl; lia.
Qed.

Section SearchRuns.
Context {E : Env}.

(** What [searchDeliveries] returns, when it returns: a page of the rows
    of the view that satisfy the conditions, put in order. *)
Lemma searchDeliveries_page (filters : DatabaseService.delivery_filters)
    (w w' : World) rows :
  DatabaseService.searchDeliveries filters w = (Return rows, w') ->
  exists selected,
    (forall r, In r selected <->
               In r (DatabaseService.deliveries_with_manifest (db w)) /\
               matches filters r = Some true) /\
    (length selected
     <= length (DatabaseService.deliveries_with_manifest (db w)))%nat /\
    0 <= page_limit filters /\ 0 <= page_offset filters /\
    rows = firstn (Z.to_nat (page_limit filters))
             (skipn (Z.to_nat (page_offset filters))
                (DatabaseService.sort_by DatabaseService.delivery_order_le
                   selected)).
Proof.
  unfold DatabaseService.searchDeliveries, matches, page_limit, page_offset.
  rewrite bind_run, pool_connect_run.
  destruct (fault (tick w)); [discriminate|].
  unfold try_finally.
  pose proof (delivery_conditions_count filters) as Hn.
  pose proof (fun r => where_clause_ignores_paging filters
    ([DatabaseService.PInt
        (DatabaseService.or_default (DatabaseService.limit filters) 100)] ++
     [DatabaseService.PInt
        (DatabaseService.or_default (DatabaseService.offset filters) 0)]) r)
    as Hpaging.
  destruct (DatabaseService.delivery_conditions filters)
    as [[conditions params] paramCount].
  subst paramCount.
  rewrite query_run. simpl tick.
  destruct (fault (S (tick w))); [discriminate|].
  unfold DatabaseService.SELECT_deliveries_with_manifest, visible.
  rewrite int_param_limit, int_param_offset. cbn [txn with_txn with_in_use with_tick].
  cbv beta iota.
  destruct (DatabaseService.select_where _ conditions _) as [selected|] eqn:Hsel;
    [|discriminate].
  destruct (_ || _) eqn:Hneg; [discriminate|].
  apply orb_false_elim in Hneg. destruct Hneg as [Hl Ho].
  apply Z.ltb_ge in Hl, Ho.
  simpl. intros Hrows. injection Hrows as <- _.
  exists selected. split;
    [|split; [exact (select_where_length _ _ _ _ Hsel)|
              repeat split; assumption]].
  intros r. rewrite (select_where_sound _ _ _ _ r Hsel).
  rewrite <- app_assoc, Hpaging. reflexivity.
Qed.

End SearchRuns.


(** The order of [ORDER BY planned_delivery_date DESC, delivery_order] is
    total and transitive. *)
Lemma delivery_order_le_total a b :
  DatabaseService.delivery_order_le a b = true \/
  DatabaseService.delivery_order_le b a = true.
Proof.
  unfold DatabaseService.delivery_order_le, DatabaseService.date_before_desc.
  destruct (Schema.planned_delivery_date (snd a)) as [[|x]|],
           (Schema.planned_delivery_date (snd b)) as [[|y]|]; simpl;
    try (left; reflexivity); try (right; reflexivity);
    try (destruct (Z.ltb_spec y x), (Z.ltb_spec x y); simpl; try lia;
         try (left; reflexivity); try (right; reflexivity));
    destruct (Nat.leb_spec (Schema.delivery_order (fst a))
                           (Schema.delivery_order (fst b))),
             (Nat.leb_spec (Schema.delivery_order (fst b))
                           (Schema.delivery_order (fst a)));
    try lia; auto.
Qed.

Lemma delivery_order_le_trans a b c :
  DatabaseService.delivery_order_le a b = true ->
  DatabaseService.delivery_order_le b c = true ->
  DatabaseService.delivery_order_le a c = true.
Proof.
  unfold DatabaseService.delivery_order_le, DatabaseService.date_before_desc.
  destruct (Schema.planned_delivery_date (snd a)) as [[|x]|],
           (Schema.planned_delivery_date (snd b)) as [[|y]|],
           (Schema.planned_delivery_date (snd c)) as [[|z]|]; simpl;
    try discriminate; try reflexivity;
    repeat match goal with
           | |- context [?p <? ?q] => destruct (Z.ltb_spec p q)
           end; simpl; try discriminate; try reflexivity; try lia;
    rewrite ?Nat.leb_le; lia.
Qed.

Lemma StronglySorted_drop {A} (R : A -> A -> Prop) (n : nat) : forall l,
  StronglySorted R l -> StronglySorted R (skipn n l).
Proof.
  induction n as [|n IH]; intros l H; [exact H|].
  destruct l as [|x l]; [constructor|]. simpl. apply IH.
  apply StronglySorted_inv in H. tauto.
Qed.

Lemma StronglySorted_take {A} (R : A -> A -> Prop) (l : list A) :
  StronglySorted R l -> forall n, StronglySorted R (firstn n l).
Proof.
  induction 1 as [|x l Hs IH Hx]; intros n; destruct n; simpl;
    try constructor.
  - apply IH.
  - apply Forall_take. exact Hx.
Qed.

Lemma insert_by_length {A} (le : A -> A -> bool) (x : A) (l : list A) :
  length (DatabaseService.insert_by le x l) = S (length l).
Proof.
  induction l as [|y l IH]; simpl; [reflexivity|].
  destruct (le x y); simpl; [reflexivity|]. rewrite IH. reflexivity.
Qed.

Lemma sort_by_length {A} (le : A -> A -> bool) (l : list A) :
  length (DatabaseService.sort_by le l) = length l.
Proof.
  unfold DatabaseService.sort_by.
  induction l as [|x l IH]; simpl; [reflexivity|].
  rewrite insert_by_length, IH. reflexivity.
Qed.

(** X11.  A page of [searchDeliveries] is in order and is not longer than the
    limit. When the call returns, the rows are sorted by planned delivery
    date, latest first, and by delivery order within a date, and there are at
    most [limit] of them; a limit that is absent or 0 stands for 100. *)
Theorem searchDeliveries_returns_an_ordered_page {E : Env}
    (filters : DatabaseService.delivery_filters) (w w' : World) rows :
  DatabaseService.searchDeliveries filters w = (Return rows, w') ->
  StronglySorted (fun a b => DatabaseService.delivery_order_le a b = true) rows /\
  (DatabaseService.limit filters = None \/
   DatabaseService.limit filters = Some 0 ->
   (length rows <= 100)%nat) /\
  (forall n, DatabaseService.limit filters = Some n -> n <> 0 ->
             Z.of_nat (length rows) <= n).
Proof.
  intros Hrun. apply searchDeliveries_page in Hrun.
  destruct Hrun as [selected [_ [_ [Hl [_ ->]]]]].
  split; [|split].
  - apply StronglySorted_take, StronglySorted_drop, sort_by_sorted.
    + apply delivery_order_le_total.
    + apply delivery_order_le_trans.
  - intros Hlim. rewrite length_take.
    assert (page_limit filters = 100) as ->; [|lia].
    unfold page_limit. destruct Hlim as [-> | ->]; reflexivity.
  - intros n Hn Hne. rewrite length_take.
    assert (page_limit filters = n) as Hp.
    { unfold page_limit. rewrite Hn. simpl.
      destruct (Z.eqb_spec n 0); [contradiction|reflexivity]. }
    rewrite Hp in *. lia.
Qed.

Example searchDeliveries_returns_an_ordered_page_witness :
  let rows :=
    match fst (DatabaseService.searchDeliveries (E := Sample.quiet)
                 (postcode_filter "SW1") Sample.stored) with
    | Return rows => rows
    | Throw _ => []
    end in
  StronglySorted (fun a b => DatabaseService.delivery_order_le a b = true) rows /\
  (DatabaseService.limit (postcode_filter "SW1") = None \/
   DatabaseService.limit (postcode_filter "SW1") = Some 0 ->
   (length rows <= 100)%nat) /\
  (forall n, DatabaseService.limit (postcode_filter "SW1") = Some n -> n <> 0 ->
             Z.of_nat (length rows) <= n).
Proof.
  apply (searchDeliveries_returns_an_ordered_page (E := Sample.quiet)
           (postcode_filter "SW1") Sample.stored
           (snd (DatabaseService.searchDeliveries (E := Sample.quiet)
                   (postcode_filter "SW1") Sample.stored))).
  vm_compute. reflexivity.
Defined.


(** X12.  [searchDeliveries] finds every match. When the call returns, the
    offset is absent or 0 and the limit is not smaller than the number of
    rows of the view, the rows returned are exactly the rows of the view that
    satisfy the conditions built from the filters. *)
Theorem searchDeliveries_finds_every_match {E : Env}
    (filters : DatabaseService.delivery_filters) (w w' : World) rows :
  DatabaseService.searchDeliveries filters w = (Return rows, w') ->
  DatabaseService.offset filters = None \/
  DatabaseService.offset filters = Some 0 ->
  Z.of_nat (length (DatabaseService.deliveries_with_manifest (db w)))
  <= page_limit filters ->
  forall r,
    In r rows <->
    In r (DatabaseService.deliveries_with_manifest (db w)) /\
    matches filters r = Some true.
Proof.
  intros Hrun Hoff Hlim r. apply searchDeliveries_page in Hrun.
  destruct Hrun as [selected [Hsel [Hlen [_ [_ ->]]]]].
  assert (page_offset filters = 0) as ->.
  { unfold page_offset. destruct Hoff as [-> | ->]; reflexivity. }
  change (Z.to_nat 0) with 0%nat. rewrite drop_0, firstn_all2.
  - rewrite sort_by_In. apply Hsel.
  - rewrite sort_by_length. lia.
Qed.

Example searchDeliveries_finds_every_match_witness :
  In (Sample.view_row "SW1B 2BB")
     (match fst (DatabaseService.searchDeliveries (E := Sample.quiet)
                   (postcode_filter "SW1B") Sample.stored) with
      | Return rows => rows
      | Throw _ => []
      end) <->
  In (Sample.view_row "SW1B 2BB")
     (DatabaseService.deliveries_with_manifest (db Sample.stored)) /\
  matches (postcode_filter "SW1B") (Sample.view_row "SW1B 2BB") = Some true.
Proof.
  apply (searchDeliveries_finds_every_match (E := Sample.quiet)
           (postcode_filter "SW1B") Sample.stored
           (snd (DatabaseService.searchDeliveries (E := Sample.quiet)
                   (postcode_filter "SW1B") Sample.stored))).
  - vm_compute. reflexivity.
  - left. reflexivity.
  - vm_compute. discriminate.
Defined.


(** ** The patterns [searchDeliveries] builds *)










(** ** The contact-name filter *)









(** ** Integers read from the query string *)

Lemma strip_zeros_value (fuel : nat) : forall m e,
  0 <= e -> m <> 0 ->
  exists m' e',
    JS.strip_zeros fuel m e = JS.Dec m' e' /\
    0 <= e' /\ m' <> 0 /\ m' * 10 ^ e' = m * 10 ^ e.
Proof.
  induction fuel as [|fuel IH]; intros m e He Hm; simpl.
  - exists m, e. repeat split; assumption.
  - destruct (Z.eqb_spec (m mod 10) 0) as [Hmod|_].
    + assert (Hdiv : m = 10 * (m / 10))
        by (pose proof (Z.div_mod m 10); lia).
      destruct (IH (m / 10) (e + 1)) as [m' [e' [Hs [He' [Hm' Hv]]]]];
        [lia|lia|].
      exists m', e'. repeat split; try assumption.
      rewrite Hv, Z.pow_add_r by lia. lia.
    + exists m, e. repeat split; assumption.
Qed.

(** An integer made into a number stands for that integer, and is falsy
    exactly when it is 0. *)
Lemma of_Z_value (z : Z) :
  exists m e,
    JS.of_Z z = JS.Dec m e /\ JS.trunc m e = z /\ (m =? 0) = (z =? 0).
Proof.
  unfold JS.of_Z, JS.mkDec. destruct (Z.eqb_spec z 0) as [->|Hz].
  - exists 0, 0. repeat split.
  - destruct (strip_zeros_value (S (Z.to_nat (Z.log2 (Z.abs z)))) z 0)
      as [m [e [Hs [He [Hm Hv]]]]]; [lia|exact Hz|].
    exists m, e. split; [exact Hs|]. split.
    + unfold JS.trunc. destruct (Z.leb_spec 0 e); lia.
    + destruct (Z.eqb_spec m 0); [contradiction|reflexivity].
Qed.

Lemma parseInt_cases (v : JS.value) :
  JS.parseInt v = JS.NaN \/ exists z, JS.parseInt v = JS.of_Z z.
Proof.
  unfold JS.parseInt.
  destruct (JS.take_sign _) as [sg r].
  match goal with
  | |- context [JS.take_digits ?radix 0 0 ?r1] =>
      destruct (JS.take_digits radix 0 0 r1) as [[x n] rest]
  | |- context [let '(radix, r1) := ?p in _] =>
      destruct p as [radix r1];
      destruct (JS.take_digits radix 0 0 r1) as [[x n] rest]
  end.
  destruct n; [left; reflexivity|right; eexists; reflexivity].
Qed.

(** [parseInt(q) || d] is the integer read from [q] when there is one and
    it is not 0, and is [d] otherwise. *)
Lemma parseInt_or_cases (q : option string) (d : Z) :
  Server.parseInt_or q d = d \/
  Server.parseInt_or q d <> 0 /\
  JS.parseInt (Server.query_param q) = JS.of_Z (Server.parseInt_or q d).
Proof.
  unfold Server.parseInt_or, JS.or.
  destruct (parseInt_cases (Server.query_param q)) as [-> | [z ->]].
  - left. simpl. destruct (of_Z_value d) as [m [e [-> [Ht _]]]]. exact Ht.
  - destruct (of_Z_value z) as [m [e [Hz [Ht Hm]]]]. rewrite Hz.
    cbn [JS.truthy]. rewrite Hm.
    destruct (Z.eqb_spec z 0) as [->|Hne]; simpl.
    + left. destruct (of_Z_value d) as [m' [e' [-> [Ht' _]]]]. exact Ht'.
    + right. rewrite Ht. split; [exact Hne|]. congruence.
Qed.

Lemma parseInt_or_missing (d : Z) : Server.parseInt_or None d = d.
Proof.
  unfold Server.parseInt_or. simpl.
  destruct (of_Z_value d) as [m [e [-> [Ht _]]]]. exact Ht.
Qed.

(** X15.  [GET /deliveries] always answers, and its page is what its
    pagination says. The handler does not throw. It answers with the rows or
    with status 500. In the first case [total_returned] is the number of
    rows, the limit it reports is positive and not smaller than that number,
    the offset it reports is not negative, and the limit is 100 when the
    request gives none. *)
Theorem search_deliveries_pagination {E : Env} (q : Server.deliveries_query)
    (w : World) :
  match fst (Server.search_deliveries q w) with
  | Return (Server.Json body) =>
      Server.total_returned body = length (Server.found body) /\
      0 < Server.pagination_limit body /\
      Z.of_nat (length (Server.found body)) <= Server.pagination_limit body /\
      0 <= Server.pagination_offset body /\
      (Server.q_limit q = None -> Server.pagination_limit body = 100) /\
      (Server.q_offset q = None -> Server.pagination_offset body = 0)
  | Return (Server.Status code _) => code = 500%nat
  | Throw _ => False
  end.
Proof.
  unfold Server.search_deliveries, try_catch. rewrite bind_run.
  match goal with
  | |- context [DatabaseService.searchDeliveries ?f w] =>
      set (filters := f);
      pose proof (searchDeliveries_page filters w) as Hpage;
      destruct (DatabaseService.searchDeliveries filters w) as [[rows|e] w1]
  end; [|reflexivity].
  simpl. specialize (Hpage w1 rows eq_refl).
  destruct Hpage as [selected [_ [_ [Hl [Ho Hrows]]]]].
  assert (Hlim : page_limit filters = Server.parseInt_or (Server.q_limit q) 100).
  { unfold page_limit, filters. simpl.
    destruct (parseInt_or_cases (Server.q_limit q) 100) as [-> | [Hne _]];
      [reflexivity|].
    destruct (Z.eqb_spec (Server.parseInt_or (Server.q_limit q) 100) 0);
      [contradiction|reflexivity]. }
  assert (Hoff : page_offset filters = Server.parseInt_or (Server.q_offset q) 0).
  { unfold page_offset, filters. simpl.
    destruct (Z.eqb_spec (Server.parseInt_or (Server.q_offset q) 0) 0) as [->|];
      reflexivity. }
  rewrite Hlim in *. rewrite Hoff in *.
  assert (Hpos : 0 < Server.parseInt_or (Server.q_limit q) 100).
  { destruct (parseInt_or_cases (Server.q_limit q) 100) as [-> | [Hne _]]; lia. }
  repeat split; try assumption.
  - rewrite Hrows, length_take. lia.
  - intros ->. apply parseInt_or_missing.
  - intros ->. apply parseInt_or_missing.
Qed.


(** ** Batch jobs, in memory and in the store *)

(** The view [GET /batch/status/:jobId] gives of a row of [batch_jobs]. *)
Definition view_of (jobId : string) (r : Schema.batch_jobs_row)
  : Server.database_job_view :=
  {| Server.v_job_id := jobId;
     Server.v_status := Schema.status r;
     Server.v_total_files := Schema.total_files r;
     Server.v_processed_files := Schema.processed_files r;
     Server.v_successful_files := Schema.successful_files r;
     Server.v_failed_files := Schema.failed_files r;
     Server.v_started_at := Schema.started_at r;
     Server.v_completed_at := Schema.completed_at r |}.

Section StatusRuns.
Context {E : Env}.

(** [GET /batch/status/:jobId] for a job that is not in memory, when
    neither call to the store fails. *)
Lemma batch_status_from_store jobId (w : World) :
  batchJobs w !! jobId = None ->
  fault (tick w) = None ->
  fault (S (tick w)) = None ->
  exists w',
    Server.batch_status jobId w =
    (Return
       match List.filter (fun r => String.eqb (Schema.job_id r) jobId)
                         (Schema.batch_jobs (db w)) with
       | r :: _ => Server.Json (Server.FromDatabase (view_of jobId r))
       | [] => Server.Status 404 "Job ID not found"
       end, w') /\
    batchJobs w' = batchJobs w.
Proof.
  intros Hmem H0 H1. unfold Server.batch_status.
  unfold try_catch at 1. rewrite bind_run.
  unfold Server.batchJobs_get at 1. rewrite Hmem.
  rewrite bind_run. unfold try_catch at 1. rewrite bind_run.
  destruct (getBatchJob_run jobId w H0 H1) as [w1 [-> [_ [Hb _]]]].
  destruct (List.filter _ _) as [|r rs]; simpl;
    (eexists; split; [reflexivity|exact Hb]).
Qed.

End StatusRuns.

(** X16.  A job that was deleted from memory is answered from the store. If
    the job is in the in-memory map, [DELETE /batch/:jobId] removes it and
    says so. A status request that follows, and reaches the store, is then
    answered from the row of the job in [batch_jobs], or with 404 if the
    store has no such row; it is never answered from memory. A second
    [DELETE] is answered with 404. *)
Theorem deleted_job_is_served_from_the_store {E : Env} (jobId : string)
    (w : World) (l : nat) :
  batchJobs w !! jobId = Some l ->
  fault (tick w) = None ->
  fault (S (tick w)) = None ->
  exists w1 w2,
    Server.delete_batch jobId w
    = (Return (Server.Json ("Job " +:+ jobId +:+ " deleted from memory")), w1) /\
    db w1 = db w /\
    snd (Server.batch_status jobId w1) = w2 /\
    match fst (Server.batch_status jobId w1) with
    | Return (Server.Json (Server.FromDatabase v)) =>
        exists r, In r (Schema.batch_jobs (db w)) /\
                  Schema.job_id r = jobId /\ v = view_of jobId r
    | Return (Server.Status code _) =>
        code = 404%nat /\
        forall r, In r (Schema.batch_jobs (db w)) -> Schema.job_id r <> jobId
    | _ => False
    end /\
    fst (Server.delete_batch jobId w2)
    = Return (Server.Status 404 "Job ID not found in memory").
Proof.
  intros Hmem H0 H1.
  set (w1 := with_batchJobs (delete jobId (batchJobs w)) w).
  assert (Hgone : batchJobs w1 !! jobId = None) by apply lookup_delete_eq.
  destruct (batch_status_from_store jobId w1 Hgone H0 H1) as [w2 [Hrun Hb]].
  exists w1, w2. split.
  { unfold Server.delete_batch. rewrite Hmem. reflexivity. }
  split; [reflexivity|]. rewrite Hrun. simpl. split; [reflexivity|]. split.
  - change (db w1) with (db w). clear Hrun.
    destruct (List.filter (fun r => String.eqb (Schema.job_id r) jobId)
                          (Schema.batch_jobs (db w))) as [|r rs] eqn:Hf.
    + split; [reflexivity|]. intros r Hin Heq.
      assert (Hr : In r (List.filter
                           (fun r => String.eqb (Schema.job_id r) jobId)
                           (Schema.batch_jobs (db w)))).
      { apply List.filter_In. split; [exact Hin|].
        apply String.eqb_eq. exact Heq. }
      rewrite Hf in Hr. exact Hr.
    + assert (Hr : In r (List.filter
                           (fun r => String.eqb (Schema.job_id r) jobId)
                           (Schema.batch_jobs (db w))))
        by (rewrite Hf; left; reflexivity).
      apply List.filter_In in Hr. destruct Hr as [Hin Heq].
      exists r. repeat split; [exact Hin|]. apply String.eqb_eq. exact Heq.
  - unfold Server.delete_batch. rewrite Hb, Hgone. reflexivity.
Qed.

Example deleted_job_is_served_from_the_store_witness :
  exists w1 w2,
    Server.delete_batch "job-1" SampleBatch.created
    = (Return (Server.Json ("Job " +:+ "job-1" +:+ " deleted from memory")),
       w1) /\
    db w1 = db SampleBatch.created /\
    snd (Server.batch_status (E := Sample.quiet) "job-1" w1) = w2 /\
    match fst (Server.batch_status (E := Sample.quiet) "job-1" w1) with
    | Return (Server.Json (Server.FromDatabase v)) =>
        exists r, In r (Schema.batch_jobs (db SampleBatch.created)) /\
                  Schema.job_id r = "job-1" /\ v = view_of "job-1" r
    | Return (Server.Status code _) =>
        code = 404%nat /\
        forall r, In r (Schema.batch_jobs (db SampleBatch.created)) ->
                  Schema.job_id r <> "job-1"
    | _ => False
    end /\
    fst (Server.delete_batch "job-1" w2)
    = Return (Server.Status 404 "Job ID not found in memory").
Proof.
  apply (deleted_job_is_served_from_the_store (E := Sample.quiet) "job-1"
           SampleBatch.created 0%nat); reflexivity.
Defined.

(** X17.  The results of a submitted batch add up. A batch of at least one
    file is answered with the id of a new job; once the batch processor has
    run, [GET /batch/results/:jobId] for that id answers from memory with as
    many results as it counts successes, as many errors as it counts
    failures, and successes and failures that add up to the number of files
    submitted. *)
Theorem results_of_a_submitted_batch {E : Env} (files : list Server.file)
    (store_in_db : option string) (w : World) :
  files <> [] ->
  exists started w' body w'',
    Server.extract_batch files store_in_db w
    = (Return (Server.Json started), w') /\
    Server.batch_results (Server.job_id started) w'
    = (Return (Server.Json body), w'') /\
    Server.results_job_id body = Server.job_id started /\
    Server.source body = None /\
    Server.summary_total_files (Server.summary body) = length files /\
    Server.summary_successful (Server.summary body)
    = length (Server.results_ body) /\
    Server.summary_failed (Server.summary body)
    = length (Server.summary_errors (Server.summary body)) /\
    (Server.summary_successful (Server.summary body) +
     Server.summary_failed (Server.summary body))%nat = length files.
Proof.
  intros Hne.
  destruct (submitted_batch_completes files store_in_db w Hne)
    as [started [w' [l [j' [Hrun [_ [_ [_ [Hreg [Hj [Hst [_ [Htot Hsum]]]]]]]]]]]]].
  exists started, w'. rewrite Hrun.
  unfold Server.batch_results, try_catch. rewrite bind_run.
  unfold Server.batchJobs_get at 1. rewrite Hreg.
  rewrite bind_run, (job_read_run l j' _ w' Hj). rewrite Hst. simpl.
  eexists _, _. split; [reflexivity|]. split; [reflexivity|].
  simpl. repeat split; assumption.
Qed.

Example results_of_a_submitted_batch_witness :
  exists started w' body w'',
    Server.extract_batch (E := SampleBatch.extractor)
      [SampleBatch.upload "1"; SampleBatch.upload "2"] None Sample.start
    = (Return (Server.Json started), w') /\
    Server.batch_results (E := SampleBatch.extractor)
      (Server.job_id started) w'
    = (Return (Server.Json body), w'') /\
    Server.results_job_id body = Server.job_id started /\
    Server.source body = None /\
    Server.summary_total_files (Server.summary body)
    = length [SampleBatch.upload "1"; SampleBatch.upload "2"] /\
    Server.summary_successful (Server.summary body)
    = length (Server.results_ body) /\
    Server.summary_failed (Server.summary body)
    = length (Server.summary_errors (Server.summary body)) /\
    (Server.summary_successful (Server.summary body) +
     Server.summary_failed (Server.summary body))%nat
    = length [SampleBatch.upload "1"; SampleBatch.upload "2"].
Proof.
  apply (results_of_a_submitted_batch (E := SampleBatch.extractor)
           [SampleBatch.upload "1"; SampleBatch.upload "2"] None Sample.start).
  discriminate.
Defined.

(** X18.  When the store cannot be read, the two batch endpoints disagree
    about a job that is not in memory: the status request says 404, as if the
    job did not exist, and the results request says 500. *)
Theorem unreadable_store_status_404_results_500 {E : Env} (jobId : string)
    (w : World) (e : JS.error) :
  batchJobs w !! jobId = None ->
  fst (DatabaseService.getBatchJob jobId w) = Throw e ->
  fst (Server.batch_status jobId w)
  = Return (Server.Status 404 "Job ID not found") /\
  fst (Server.batch_results jobId w)
  = Return (Server.Status 500 "Error retrieving batch results").
Proof.
  intros Hmem Hthrow. split.
  - unfold Server.batch_status. unfold try_catch at 1. rewrite bind_run.
    unfold Server.batchJobs_get at 1. rewrite Hmem.
    rewrite bind_run. unfold try_catch at 1. rewrite bind_run.
    destruct (DatabaseService.getBatchJob jobId w) as [r w1].
    simpl in Hthrow. subst r. reflexivity.
  - unfold Server.batch_results. unfold try_catch at 1. rewrite bind_run.
    unfold Server.batchJobs_get at 1. rewrite Hmem.
    unfold try_catch at 1. rewrite bind_run.
    destruct (DatabaseService.getBatchJob jobId w) as [r w1].
    simpl in Hthrow. subst r. reflexivity.
Qed.

Example unreadable_store_status_404_results_500_witness :
  fst (Server.batch_status (E := SampleBatch.store_down) "job-5" Sample.start)
  = Return (Server.Status 404 "Job ID not found") /\
  fst (Server.batch_results (E := SampleBatch.store_down) "job-5" Sample.start)
  = Return (Server.Status 500 "Error retrieving batch results").
Proof.
  apply (unreadable_store_status_404_results_500 (E := SampleBatch.store_down)
           "job-5" Sample.start (JS.Error "connection refused"));
    reflexivity.
Defined.


(** ** [POST /extract/single] *)

(** X19.  The answers of [POST /extract/single]. Without an upload the answer
    is 400 and nothing else happens. When the extractor rejects the upload
    the answer is 500 with its message, and the store is not written. When
    the extractor accepts it the answer is always the extraction with its
    processing metadata, whatever the store and the clean-up do: with
    [store_in_db=false] the store is left alone; otherwise either
    [storeManifest] returned, the answer carries its key as [database_id] and
    the store has gained the manifest, or it threw, the answer carries the
    message as [database_error] and the store is what it was. *)
Theorem extract_single_answers {E : Env} (file : Server.file)
    (store_in_db : option string) (w : World) :
  Server.extract_single None store_in_db w
  = (Return (Server.Status 400 "No PDF file provided"), w) /\
  let '(r, w') := Server.extract_single (Some file) store_in_db w in
  match processPDF (Server.path file) with
  | inr e =>
      r = Return (Server.Status 500
                    ("Error processing PDF: " +:+ JS.message e)) /\
      db w' = db w
  | inl data =>
      let pi := processing_info_of file data (clock (tick w)) in
      let x0 := Payload.set_processing_info pi data in
      if match store_in_db with
         | Some q => negb (String.eqb q "false")
         | None => true
         end
      then
        match DatabaseService.storeManifest x0 pi w with
        | (Return i, _) =>
            r = Return (Server.Json (Payload.set_database_id i x0)) /\
            committed x0 i (db w) (db w')
        | (Throw e, _) =>
            r = Return (Server.Json
                          (Payload.set_database_error (JS.message e) x0)) /\
            db w' = db w
        end
      else r = Return (Server.Json x0) /\ db w' = db w
  end.
Proof.
  split; [reflexivity|].
  unfold Server.extract_single. unfold try_catch at 1.
  unfold try_finally. rewrite bind_run. unfold extract at 1.
  destruct (processPDF (Server.path file)) as [data|e].
  - rewrite bind_run. unfold now at 1. cbv beta iota.
    fold (processing_info_of file data (clock (tick w))).
    set (pi := processing_info_of file data (clock (tick w))).
    set (x0 := Payload.set_processing_info pi data).
    destruct (match store_in_db with
              | Some q => negb (String.eqb q "false")
              | None => true
              end).
    + rewrite bind_run. unfold try_catch at 1. rewrite bind_run.
      pose proof (storeManifest_spec x0 pi w) as Hspec.
      destruct (DatabaseService.storeManifest x0 pi w) as [[i|e] w1].
      * rewrite bind_run. unfold console_log at 1. unfold ret.
        cbv beta iota.
        match goal with
        | |- context [Server.clean_up ?p ?n ?w0] =>
            destruct (clean_up_run p n w0) as [w2 [Hc [_ [_ [_ Hdb]]]]];
            unfold Server.clean_up; rewrite Hc
        end.
        split; [reflexivity|]. rewrite Hdb. exact Hspec.
      * rewrite bind_run. unfold console_error at 1. unfold ret.
        cbv beta iota.
        match goal with
        | |- context [Server.clean_up ?p ?n ?w0] =>
            destruct (clean_up_run p n w0) as [w2 [Hc [_ [_ [_ Hdb]]]]];
            unfold Server.clean_up; rewrite Hc
        end.
        split; [reflexivity|]. rewrite Hdb. exact Hspec.
    + rewrite bind_run. unfold ret. cbv beta iota.
      match goal with
      | |- context [Server.clean_up ?p ?n ?w0] =>
          destruct (clean_up_run p n w0) as [w2 [Hc [_ [_ [_ Hdb]]]]];
          unfold Server.clean_up; rewrite Hc
      end.
      split; [reflexivity|]. exact Hdb.
  - match goal with
    | |- context [Server.clean_up ?p ?n w] =>
        destruct (clean_up_run p n w) as [w1 [Hc [_ [_ [_ Hdb]]]]];
        unfold Server.clean_up at 1; rewrite Hc
    end.
    rewrite bind_run. unfold console_error at 1. cbv beta iota.
    rewrite bind_run.
    destruct (JS.truthy (JS.Str (Server.path file))).
    + match goal with
      | |- context [Server.clean_up ?p ?n ?w0] =>
          destruct (clean_up_run p n w0) as [w2 [Hc2 [_ [_ [_ Hdb2]]]]];
          unfold Server.clean_up; rewrite Hc2
      end.
      split; [reflexivity|]. simpl. rewrite Hdb2. exact Hdb.
    + split; [reflexivity|]. exact Hdb.
Qed.


(** ** What is written to the console *)

(** [logs m]: running [m] only adds lines to the console. *)
Definition logs {A} (m : M A) : Prop :=
  forall w, exists c, console (snd (m w)) = console w ++ c.

Section Logs.
Context {E : Env}.

Lemma logs_silent {A} (m : M A) : preserves console m -> logs m.
Proof. intros H w. exists []. rewrite app_nil_r. apply H. Qed.

Lemma logs_ret {A} (a : A) : logs (ret a).
Proof. apply logs_silent, preserves_ret. Qed.

Lemma logs_throw {A} (e : JS.error) : logs (@throw A e).
Proof. apply logs_silent, preserves_throw. Qed.

Lemma logs_bind {A B} (m : M A) (k : A -> M B) :
  logs m -> (forall a, logs (k a)) -> logs (bind m k).
Proof.
  intros Hm Hk w. unfold bind. destruct (Hm w) as [c Hc].
  destruct (m w) as [[a|e] w1]; simpl in *.
  - destruct (Hk a w1) as [c' Hc']. exists (c ++ c').
    rewrite Hc', Hc, app_assoc. reflexivity.
  - exists c. exact Hc.
Qed.

Lemma logs_try_catch {A} (m : M A) (h : JS.error -> M A) :
  logs m -> (forall e, logs (h e)) -> logs (try_catch m h).
Proof.
  intros Hm Hh w. unfold try_catch. destruct (Hm w) as [c Hc].
  destruct (m w) as [[a|e] w1]; simpl in *.
  - exists c. exact Hc.
  - destruct (Hh e w1) as [c' Hc']. exists (c ++ c').
    rewrite Hc', Hc, app_assoc. reflexivity.
Qed.

Lemma logs_try_finally {A} (m : M A) (fin : M unit) :
  logs m -> logs fin -> logs (try_finally m fin).
Proof.
  intros Hm Hf w. unfold try_finally. destruct (Hm w) as [c Hc].
  destruct (m w) as [r w1]; simpl in *.
  destruct (Hf w1) as [c' Hc'].
  destruct (fin w1) as [[u|e] w2]; simpl in *; exists (c ++ c');
    rewrite Hc', Hc, app_assoc; reflexivity.
Qed.

Lemma logs_for_each {A} (body : nat -> A -> M unit) (l : list A) :
  (forall i x, logs (body i x)) -> forall i, logs (for_each i l body).
Proof.
  intros Hb. induction l as [|x l IH]; intros i; simpl.
  - apply logs_ret.
  - apply logs_bind; [apply Hb | intros _; apply IH].
Qed.

Lemma logs_console_log msg : logs (console_log msg).
Proof. intros w. eexists. reflexivity. Qed.

Lemma logs_console_warn msg : logs (console_warn msg).
Proof. intros w. eexists. reflexivity. Qed.

Lemma logs_console_error msg e : logs (console_error msg e).
Proof. intros w. eexists. reflexivity. Qed.

Lemma silent_external : preserves console external.
Proof.
  intros w. rewrite external_run. destruct (fault (tick w)); reflexivity.
Qed.

Lemma silent_query {A} c (stmt : statement A) : preserves console (query c stmt).
Proof.
  intros w. rewrite query_run. destruct (fault (tick w)); [reflexivity|].
  destruct (stmt _ _) as [[a d]|]; [|reflexivity].
  unfold write. simpl. destruct (txn w); reflexivity.
Qed.

Lemma silent_BEGIN c : preserves console (BEGIN c).
Proof.
  intros w. rewrite BEGIN_run. destruct (fault (tick w)); reflexivity.
Qed.

Lemma silent_COMMIT c : preserves console (COMMIT c).
Proof.
  intros w. rewrite COMMIT_run. destruct (fault (tick w)); reflexivity.
Qed.

Lemma silent_ROLLBACK c : preserves console (ROLLBACK c).
Proof.
  intros w. rewrite ROLLBACK_run. destruct (fault (tick w)); reflexivity.
Qed.

Lemma silent_pool_connect : preserves console pool_connect.
Proof.
  intros w. rewrite pool_connect_run. destruct (fault (tick w)); reflexivity.
Qed.

Lemma silent_release c : preserves console (release c).
Proof. intros w; reflexivity. Qed.

Lemma silent_extract p : preserves console (extract p).
Proof. intros w. unfold extract. destruct (processPDF p); reflexivity. Qed.

Lemma silent_now : preserves console now.
Proof. intros w; reflexivity. Qed.

End Logs.

Create HintDb logs discriminated.

#[global] Hint Resolve logs_ret logs_throw logs_console_log logs_console_warn
  logs_console_error : logs.
#[global] Hint Resolve silent_external silent_query silent_BEGIN silent_COMMIT
  silent_ROLLBACK silent_pool_connect silent_release silent_extract silent_now
  : logs.

Ltac logs_step :=
  lazymatch goal with
  | |- logs (bind _ _) => apply logs_bind; [|intro]
  | |- logs (try_catch _ _) => apply logs_try_catch; [|intro]
  | |- logs (try_finally _ _) => apply logs_try_finally
  | |- logs (for_each _ _ _) => apply logs_for_each; intros
  | |- logs (match ?x with _ => _ end) => destruct x
  | |- logs (if ?x then _ else _) => destruct x
  | |- logs _ => solve [eauto 2 with logs | apply logs_silent; eauto 2 with logs]
  end.

Ltac logs_tac := repeat logs_step.

Section LogsService.
Context {E : Env}.

Lemma storeManifest_logs md pi : logs (DatabaseService.storeManifest md pi).
Proof.
  unfold DatabaseService.storeManifest, DatabaseService.parse_planned_date,
    DatabaseService.storeDelivery.
  logs_tac.
Qed.

(** Removing a file either removes it and says nothing, or leaves the
    files as they are and writes the warning. *)
Lemma clean_up_cases (path warning : string) (w : World) :
  exists w',
    Server.clean_up path warning w = (Return tt, w') /\
    (files w' = files w ∖ {[path]} /\ console w' = console w \/
     files w' = files w /\
     console w' = console w ++ [ConsoleWarn warning]) /\
    (fault (tick w) = None -> path ∉ files w').
Proof.
  unfold Server.clean_up, try_catch, unlink. rewrite bind_run, external_run.
  destruct (fault (tick w)); simpl.
  - eexists. split; [reflexivity|]. split; [right; split; reflexivity|].
    discriminate.
  - destruct (decide (path ∈ files w)) as [Hin|Hnin]; simpl.
    + eexists. split; [reflexivity|]. split; [left; split; reflexivity|].
      intros _. simpl. apply not_elem_of_difference. right.
      apply elem_of_singleton. reflexivity.
    + eexists. split; [reflexivity|]. split; [right; split; reflexivity|].
      intros _. exact Hnin.
Qed.

End LogsService.


(** ** The uploaded file *)

Lemma preserves_files {A} (m : M A) :
  preserves process_state m -> preserves files m.
Proof.
  intros H w. specialize (H w). unfold process_state in H. congruence.
Qed.

Section Uploads.
Context {E : Env}.

Lemma clean_up_logs path warning : logs (Server.clean_up path warning).
Proof.
  intros w. destruct (clean_up_cases path warning w) as [w' [-> [H _]]].
  simpl. destruct H as [[_ ->] | [_ ->]].
  - exists []. rewrite app_nil_r. reflexivity.
  - eexists. reflexivity.
Qed.

(** An upload that is removed in a [finally] block, and once more by the
    handler of the enclosing [catch]: if no call fails the file is gone
    afterwards, and if it is still there afterwards the first removal was
    tried, failed and left its warning. *)
Lemma guarded_upload {A} (body : M A) (h : JS.error -> M A)
    (p warning : string) (w : World) :
  preserves files body ->
  logs body ->
  (forall e, logs (h e)) ->
  (forall e w1, p ∉ files w1 -> p ∉ files (snd (h e w1))) ->
  let w' :=
    snd (try_catch (try_finally body (Server.clean_up p warning)) h w) in
  ((forall k, fault k = None) -> p ∉ files w') /\
  (p ∈ files w' ->
   exists before after,
     console w' = console w ++ before ++ ConsoleWarn warning :: after).
Proof.
  intros Hfiles Hlogs Hh Hkeep. unfold try_catch, try_finally.
  specialize (Hfiles w). destruct (Hlogs w) as [c0 Hc0].
  destruct (body w) as [r w0]. simpl in Hfiles, Hc0.
  destruct (clean_up_cases p warning w0) as [w1 [-> [Hcase Hgone]]].
  assert (Hwarn : p ∈ files w1 ->
                  console w1 = console w ++ c0 ++ [ConsoleWarn warning]).
  { intros Hin. destruct Hcase as [[Hf _] | [_ Hc]].
    - rewrite Hf in Hin. apply elem_of_difference in Hin.
      destruct Hin as [_ Hne]. exfalso. apply Hne.
      apply elem_of_singleton. reflexivity.
    - rewrite Hc, Hc0, <- app_assoc. reflexivity. }
  destruct r as [a|e]; simpl.
  - split.
    + intros Hq. apply Hgone, Hq.
    + intros Hin. exists c0, []. apply Hwarn, Hin.
  - split.
    + intros Hq. apply Hkeep, Hgone, Hq.
    + intros Hin. destruct (Hh e w1) as [c1 Hc1].
      assert (Hin1 : p ∈ files w1).
      { destruct (decide (p ∈ files w1)) as [H|H]; [exact H|].
        exfalso. exact (Hkeep e w1 H Hin). }
      exists c0, c1. rewrite Hc1, (Hwarn Hin1), <- !app_assoc. reflexivity.
Qed.

Lemma clean_up_keeps_gone (p path warning : string) (w : World) :
  p ∉ files w -> p ∉ files (snd (Server.clean_up path warning w)).
Proof.
  intros Hnin. destruct (clean_up_cases path warning w) as [w' [-> [H _]]].
  simpl. destruct H as [[-> _] | [-> _]]; [|exact Hnin].
  intros Hin. apply elem_of_difference in Hin. tauto.
Qed.

End Uploads.

(** X20.  [POST /extract/single] does not lose track of the upload. If no
    call to the outside fails, the uploaded file is gone when the handler is
    done, whether the extraction succeeded or not. If the file is still there
    when the handler is done, the handler has written the warning that the
    removal failed. *)
Theorem extract_single_removes_the_upload {E : Env} (file : Server.file)
    (store_in_db : option string) (w : World) :
  let w' := snd (Server.extract_single (Some file) store_in_db w) in
  ((forall k, fault k = None) -> Server.path file ∉ files w') /\
  (Server.path file ∈ files w' ->
   exists before after,
     console w' =
     console w ++ before ++
     ConsoleWarn "Failed to clean up uploaded file:" :: after).
Proof.
  unfold Server.extract_single. apply guarded_upload.
  - apply preserves_files. preserves_tac. apply storeManifest_process_state.
  - logs_tac; apply storeManifest_logs.
  - intros e. logs_tac; apply clean_up_logs.
  - intros e w1 Hnin. rewrite bind_run. unfold console_error at 1.
    cbv beta iota. rewrite bind_run.
    destruct (JS.truthy (JS.Str (Server.path file))).
    + match goal with
      | |- context [Server.clean_up ?p ?n ?w0] =>
          pose proof (clean_up_keeps_gone (Server.path file) p n w0 Hnin) as H;
          destruct (Server.clean_up p n w0) as [[u|e'] w2]
      end; exact H.
    + exact Hnin.
Qed.


(** ** [POST /validate/pdf] *)

Section ValidationRuns.
Context {E : Env} {D : Server.Disk}.

Lemma readFile_run (p : string) (w : World) :
  Server.readFile p w =
  match fault (tick w) with
  | Some msg => (Throw (JS.Error msg), with_tick (S (tick w)) w)
  | None =>
      if decide (p ∈ files w)
      then (Return (Server.content p), with_tick (S (tick w)) w)
      else (Throw (JS.Error "ENOENT: no such file or directory"),
            with_tick (S (tick w)) w)
  end.
Proof.
  unfold Server.readFile. rewrite bind_run, external_run.
  destruct (fault (tick w)); [reflexivity|]. simpl.
  destruct (decide _); reflexivity.
Qed.

Lemma readFile_process_state p : preserves process_state (Server.readFile p).
Proof.
  intros w. rewrite readFile_run. destruct (fault (tick w)); [reflexivity|].
  destruct (decide _); reflexivity.
Qed.

Lemma readFile_silent p : preserves console (Server.readFile p).
Proof.
  intros w. rewrite readFile_run. destruct (fault (tick w)); [reflexivity|].
  destruct (decide _); reflexivity.
Qed.

End ValidationRuns.

(** X21.  The verdict of [POST /validate/pdf]. The handler always answers
    with a verdict, never with an error status. The verdict is [valid]
    exactly when the name of the upload ends in [.pdf], in any case of the
    letters, the file could be read, and its first four bytes, their high
    bits cleared, are [%PDF]; it then reports the size and the name of the
    upload. *)
Theorem validate_pdf_verdict {E : Env} {D : Server.Disk} (file : Server.file)
    (w : World) :
  exists v,
    fst (Server.validate_pdf (Some file) w) = Return (Server.Json v) /\
    match v with
    | Server.Valid s n =>
        s = Server.size file /\ n = Server.originalname file /\
        JS.endsWith ".pdf" (JS.toLowerCase (Server.originalname file)) = true /\
        fault (tick w) = None /\
        Server.path file ∈ files w /\
        JS.startsWith "%PDF"
          (Server.toString_ascii 0 4 (Server.content (Server.path file)))
        = true
    | Server.Invalid _ =>
        ~ (JS.endsWith ".pdf" (JS.toLowerCase (Server.originalname file))
           = true /\
           fault (tick w) = None /\
           Server.path file ∈ files w /\
           JS.startsWith "%PDF"
             (Server.toString_ascii 0 4 (Server.content (Server.path file)))
           = true)
    end.
Proof.
  unfold Server.validate_pdf. unfold try_catch at 1.
  destruct (JS.endsWith ".pdf" (JS.toLowerCase (Server.originalname file)))
    eqn:Hname; cbn [negb]; cbv iota.
  2:{ eexists. split; [reflexivity|]. simpl. intros [H _]. discriminate. }
  unfold try_finally. rewrite bind_run, readFile_run.
  destruct (fault (tick w)) as [msg|] eqn:Hfault.
  - destruct (clean_up_cases (Server.path file)
                "Failed to clean up validation file:"
                (with_tick (S (tick w)) w)) as [w1 [-> _]].
    rewrite bind_run.
    destruct (JS.truthy (JS.Str (Server.path file))).
    + match goal with
      | |- context [Server.clean_up ?p ?n ?w0] =>
          destruct (clean_up_cases p n w0) as [w2 [-> _]]
      end.
      eexists. split; [reflexivity|]. simpl. intros [_ [H _]]. discriminate.
    + eexists. split; [reflexivity|]. simpl. intros [_ [H _]]. discriminate.
  - destruct (decide (Server.path file ∈ files w)) as [Hin|Hnin].
    + destruct (JS.startsWith "%PDF" _) eqn:Hsig; cbn [negb]; cbv iota;
        unfold ret at 1; cbv beta iota;
        destruct (clean_up_cases (Server.path file)
                    "Failed to clean up validation file:"
                    (with_tick (S (tick w)) w)) as [w1 [-> _]];
        eexists; (split; [reflexivity|]); simpl.
      * repeat split; assumption.
      * intros [_ [_ [_ H]]]. congruence.
    + destruct (clean_up_cases (Server.path file)
                  "Failed to clean up validation file:"
                  (with_tick (S (tick w)) w)) as [w1 [-> _]].
      rewrite bind_run.
      destruct (JS.truthy (JS.Str (Server.path file))).
      * match goal with
        | |- context [Server.clean_up ?p ?n ?w0] =>
            destruct (clean_up_cases p n w0) as [w2 [-> _]]
        end.
        eexists. split; [reflexivity|]. simpl. intros [_ [_ [H _]]].
        contradiction.
      * eexists. split; [reflexivity|]. simpl. intros [_ [_ [H _]]].
        contradiction.
Qed.

(** X22.  What [POST /validate/pdf] does with the upload. An upload whose
    name does not end in [.pdf] is answered and left where it is: the handler
    changes nothing and writes nothing. Any other upload is removed: if no
    call to the outside fails the file is gone when the handler is done, and
    if it is still there the handler has written the warning that the removal
    failed. *)
Theorem validate_pdf_upload {E : Env} {D : Server.Disk} (file : Server.file)
    (w : World) :
  let w' := snd (Server.validate_pdf (Some file) w) in
  if JS.endsWith ".pdf" (JS.toLowerCase (Server.originalname file)) then
    ((forall k, fault k = None) -> Server.path file ∉ files w') /\
    (Server.path file ∈ files w' ->
     exists before after,
       console w' =
       console w ++ before ++
       ConsoleWarn "Failed to clean up validation file:" :: after)
  else
    Server.validate_pdf (Some file) w
    = (Return (Server.Json (Server.Invalid "File is not a PDF")), w).
Proof.
  unfold Server.validate_pdf.
  destruct (JS.endsWith ".pdf" (JS.toLowerCase (Server.originalname file)));
    cbn [negb]; cbv iota; [|reflexivity].
  apply guarded_upload.
  - apply preserves_files. apply preserves_bind;
      [apply readFile_process_state|].
    intros b. destruct (negb _); apply preserves_ret.
  - apply logs_bind; [apply logs_silent, readFile_silent|].
    intros b. destruct (negb _); apply logs_ret.
  - intros e. logs_tac; apply clean_up_logs.
  - intros e w1 Hnin. rewrite bind_run.
    destruct (JS.truthy (JS.Str (Server.path file))).
    + match goal with
      | |- context [Server.clean_up ?p ?n ?w0] =>
          pose proof (clean_up_keeps_gone (Server.path file) p n w0 Hnin) as H;
          destruct (Server.clean_up p n w0) as [[u|e'] w2]
      end; exact H.
    + exact Hnin.
Qed.


(** ** The configuration and the start of the service *)

(** X23.  The pool is never created without TLS. Whatever options are given
    and whatever the environment holds, the [ssl] option with which
    [initialize] creates the pool is truthy: it is the [ssl] option given to
    [DatabaseConfig] when that is truthy, and [{ rejectUnauthorized: false }]
    otherwise, in production and out of it. *)
Theorem pool_ssl_is_always_on (options : DatabaseService.config)
    (env : string -> option string) :
  let pool := DatabaseService.new_Pool
                (DatabaseService.DatabaseConfig options env) in
  DatabaseService.setting_truthy (DatabaseService.pool_ssl pool) = true /\
  DatabaseService.pool_ssl pool =
    (if DatabaseService.setting_truthy (DatabaseService.ssl options)
     then DatabaseService.ssl options
     else DatabaseService.no_verify).
Proof.
  unfold DatabaseService.new_Pool, DatabaseService.DatabaseConfig,
    DatabaseService.setting_or. simpl.
  destruct (DatabaseService.setting_truthy (DatabaseService.ssl options))
    eqn:Hs.
  - rewrite Hs. split; [exact Hs|reflexivity].
  - destruct (JS.value_eqb _ _); split; reflexivity.
Qed.

(** X24.  [initialize] keeps the connection of a failed probe. The call never
    writes to the store. If the connection cannot be obtained it throws that
    error and no connection is held. If the probe query fails it throws that
    error and the connection of the probe stays checked out. If both succeed
    it returns and the connection has been given back. Whenever it throws,
    the last line on the console is the error it throws. *)
Theorem initialize_keeps_the_connection_of_a_failed_probe {E : Env}
    (w : World) :
  let '(r, w') := DatabaseService.initialize w in
  db w' = db w /\
  match fault (tick w), fault (S (tick w)) with
  | Some msg, _ =>
      r = Throw (JS.Error msg) /\ in_use w' = in_use w /\
      console w' =
      console w ++
      [ConsoleError "Failed to initialize database pool:" (JS.Error msg)]
  | None, Some msg =>
      r = Throw (JS.Error msg) /\ in_use w' = S (in_use w) /\
      console w' =
      console w ++
      [ConsoleError "Failed to initialize database pool:" (JS.Error msg)]
  | None, None =>
      r = Return tt /\ in_use w' = in_use w /\
      console w' =
      console w ++ [ConsoleLog "Database connection pool initialized"]
  end.
Proof.
  unfold DatabaseService.initialize, try_catch.
  rewrite bind_run, pool_connect_run.
  destruct (fault (tick w)) as [msg|].
  - simpl. repeat split.
  - rewrite bind_run, query_run. simpl tick.
    destruct (fault (S (tick w))) as [msg|].
    + simpl. repeat split.
    + unfold DatabaseService.SELECT_NOW. simpl. repeat split.
Qed.


(** ** The statistics, taken together *)

Lemma filter_length_le {A} (p : A -> bool) (l : list A) :
  (length (List.filter p l) <= length l)%nat.
Proof.
  induction l as [|x l IH]; simpl; [lia|]. destruct (p x); simpl; lia.
Qed.

Lemma distinct_length_le {A} (eqb : A -> A -> bool) (l : list A) :
  (length (DatabaseService.distinct eqb l) <= length l)%nat.
Proof.
  induction l as [|x l IH]; simpl; [lia|].
  pose proof (filter_length_le (fun y => negb (eqb x y))
                (DatabaseService.distinct eqb l)). lia.
Qed.

Lemma non_null_length_le {A} (l : list (option A)) :
  (length (DatabaseService.non_null l) <= length l)%nat.
Proof.
  induction l as [|[x|] l IH]; simpl; lia.
Qed.

Lemma count_distinct_le {A} (eqb : A -> A -> bool) (l : list (option A)) :
  (DatabaseService.count_distinct eqb l <= length l)%nat.
Proof.
  unfold DatabaseService.count_distinct.
  pose proof (distinct_length_le eqb (DatabaseService.non_null l)).
  pose proof (non_null_length_le l). lia.
Qed.

(** The three statuses that are counted exclude each other. *)
Lemma count_status_disjoint (rows : list Schema.batch_jobs_row) :
  (DatabaseService.count_status "completed" rows +
   DatabaseService.count_status "failed" rows +
   DatabaseService.count_status "processing" rows <= length rows)%nat.
Proof.
  unfold DatabaseService.count_status.
  induction rows as [|r rows IH]; simpl; [lia|].
  destruct (String.eqb_spec (Schema.status r) "completed") as [->|_];
    [simpl; lia|].
  destruct (String.eqb_spec (Schema.status r) "failed") as [->|_];
    [simpl; lia|].
  destruct (String.eqb (Schema.status r) "processing"); simpl; lia.
Qed.

Section StatisticsRuns.
Context {E : Env}.

(** What [getStatistics] returns, when it returns. *)
Lemma getStatistics_returns (w w' : World) stats :
  DatabaseService.getStatistics w = (Return stats, w') ->
  exists ms rs bs,
    DatabaseService.SELECT_manifest_stats (S (tick w)) (db w)
    = Some (ms, db w) /\
    DatabaseService.SELECT_recent_stats (S (S (tick w))) (db w)
    = Some (rs, db w) /\
    DatabaseService.SELECT_batch_stats (S (S (S (tick w)))) (db w)
    = Some (bs, db w) /\
    stats = {| DatabaseService.manifests := ms;
               DatabaseService.recent_activity := rs;
               DatabaseService.batch_processing := bs |}.
Proof.
  unfold DatabaseService.getStatistics.
  rewrite bind_run, pool_connect_run.
  destruct (fault (tick w)); [discriminate|].
  unfold try_finally.
  rewrite bind_run, query_run. simpl tick.
  destruct (fault (S (tick w))); [discriminate|].
  unfold DatabaseService.SELECT_manifest_stats at 1. unfold visible.
  cbn [txn with_txn with_in_use with_tick db write with_db in_use tick].
  rewrite bind_run, query_run.
  cbn [txn with_txn with_in_use with_tick db write with_db in_use tick].
  destruct (fault (S (S (tick w)))); [discriminate|].
  unfold DatabaseService.SELECT_recent_stats at 1. unfold visible.
  cbn [txn with_txn with_in_use with_tick db write with_db in_use tick].
  rewrite bind_run, query_run.
  cbn [txn with_txn with_in_use with_tick db write with_db in_use tick].
  destruct (fault (S (S (S (tick w))))); [discriminate|].
  unfold DatabaseService.SELECT_batch_stats at 1. unfold visible.
  cbn [txn with_txn with_in_use with_tick db write with_db in_use tick].
  simpl. intros H. injection H as <- _.
  eexists _, _, _. repeat split.
Qed.

End StatisticsRuns.

(** X25.  The statistics agree with each other. In what [getStatistics]
    returns, the numbers of distinct dates and of distinct drivers are not
    larger than the number of manifests counted, and are at least 1 when a
    manifest is counted; the time of the last processing is [null] exactly
    when no manifest is recent; and the numbers of completed, failed and
    processing jobs together are not larger than the number of batch jobs. *)
Theorem statistics_are_consistent {E : Env} (w w' : World)
    (stats : DatabaseService.statistics) :
  DatabaseService.getStatistics w = (Return stats, w') ->
  let ms := DatabaseService.manifests stats in
  let rs := DatabaseService.recent_activity stats in
  let bs := DatabaseService.batch_processing stats in
  (DatabaseService.unique_dates ms <= DatabaseService.total_manifests ms)%nat /\
  (DatabaseService.unique_drivers ms <= DatabaseService.total_manifests ms)%nat /\
  (0 < DatabaseService.total_manifests ms ->
   0 < DatabaseService.unique_dates ms /\
   0 < DatabaseService.unique_drivers ms)%nat /\
  (DatabaseService.recent_manifests rs = 0%nat <->
   DatabaseService.last_processed rs = None) /\
  (DatabaseService.completed_jobs bs + DatabaseService.failed_jobs bs +
   DatabaseService.processing_jobs bs
   <= DatabaseService.total_batch_jobs bs)%nat.
Proof.
  intros Hrun. apply getStatistics_returns in Hrun.
  destruct Hrun as [ms [rs [bs [Hm [Hr [Hb ->]]]]]].
  injection Hm as <-. injection Hr as <-. injection Hb as <-.
  cbn [DatabaseService.manifests DatabaseService.recent_activity
       DatabaseService.batch_processing DatabaseService.unique_dates
       DatabaseService.total_manifests DatabaseService.unique_drivers
       DatabaseService.recent_manifests DatabaseService.last_processed
       DatabaseService.completed_jobs DatabaseService.failed_jobs
       DatabaseService.processing_jobs DatabaseService.total_batch_jobs].
  set (rows := List.filter _ (Schema.manifests (db w))).
  assert (Hdated : Forall (fun r => Schema.planned_delivery_date r <> None) rows).
  { apply List.Forall_forall. intros r Hin. subst rows.
    apply List.filter_In in Hin. destruct Hin as [_ Hd].
    destruct (Schema.planned_delivery_date r); [discriminate|discriminate]. }
  split; [|split; [|split; [|split]]].
  - pose proof (count_distinct_le JS.date_eqb
                  (map Schema.planned_delivery_date rows)) as H.
    rewrite length_map in H. exact H.
  - pose proof (count_distinct_le String.eqb
                  (map (fun r => Some (Schema.vehicle_driver r)) rows)) as H.
    rewrite length_map in H. exact H.
  - intros Hpos. destruct rows as [|r rows']; [simpl in Hpos; lia|].
    apply Forall_inv in Hdated.
    unfold DatabaseService.count_distinct. simpl.
    destruct (Schema.planned_delivery_date r); [|contradiction].
    simpl. lia.
  - match goal with
    | |- context [DatabaseService.MAX (map _ ?l)] => destruct l; simpl
    end; split; intros H; try reflexivity; discriminate.
  - apply count_status_disjoint.
Qed.

Example statistics_are_consistent_witness :
  let stats :=
    match fst (DatabaseService.getStatistics (E := Sample.quiet)
                 SampleStats.two_manifests) with
    | Return stats => stats
    | Throw _ =>
        {| DatabaseService.manifests :=
             {| DatabaseService.total_manifests := 0;
                DatabaseService.unique_dates := 0;
                DatabaseService.unique_drivers := 0;
                DatabaseService.total_deliveries := None;
                DatabaseService.avg_deliveries_per_manifest := None |};
           DatabaseService.recent_activity :=
             {| DatabaseService.recent_manifests := 0;
                DatabaseService.last_processed := None |};
           DatabaseService.batch_processing :=
             {| DatabaseService.total_batch_jobs := 0;
                DatabaseService.completed_jobs := 0;
                DatabaseService.failed_jobs := 0;
                DatabaseService.processing_jobs := 0 |} |}
    end in
  let ms := DatabaseService.manifests stats in
  let rs := DatabaseService.recent_activity stats in
  let bs := DatabaseService.batch_processing stats in
  (DatabaseService.unique_dates ms <= DatabaseService.total_manifests ms)%nat /\
  (DatabaseService.unique_drivers ms <= DatabaseService.total_manifests ms)%nat /\
  (0 < DatabaseService.total_manifests ms ->
   0 < DatabaseService.unique_dates ms /\
   0 < DatabaseService.unique_drivers ms)%nat /\
  (DatabaseService.recent_manifests rs = 0%nat <->
   DatabaseService.last_processed rs = None) /\
  (DatabaseService.completed_jobs bs + DatabaseService.failed_jobs bs +
   DatabaseService.processing_jobs bs
   <= DatabaseService.total_batch_jobs bs)%nat.
Proof.
  apply (statistics_are_consistent (E := Sample.quiet)
           SampleStats.two_manifests
           (snd (DatabaseService.getStatistics (E := Sample.quiet)
                   SampleStats.two_manifests))).
  vm_compute. reflexivity.
Defined.


(** ** The integrity of the store *)






(** Integrity carried over to a store with the same keys or more. *)
Lemma consistent_links (d d' : Schema.Db) :
  (forall i, Schema.has_manifest i d = true -> Schema.has_manifest i d' = true) ->
  (forall i, Schema.has_batch_job i d = true ->
             Schema.has_batch_job i d' = true) ->
  Forall (fun l => Schema.has_manifest (Schema.l_manifest_id l) d = true /\
                   Schema.has_batch_job (Schema.batch_job_id l) d = true)
         (Schema.batch_job_manifests d) ->
  Forall (fun l => Schema.has_manifest (Schema.l_manifest_id l) d' = true /\
                   Schema.has_batch_job (Schema.batch_job_id l) d' = true)
         (Schema.batch_job_manifests d).
Proof.
  intros Hm Hb H. eapply List.Forall_impl; [|exact H].
  intros l [H1 H2]. split; auto.
Qed.







(** ** Numbers written in decimal *)



















(** ** The planned delivery date *)

Lemma rev_app_rev_app (a : string) : forall b c,
  String.rev_app (String.rev_app a b) c = String.rev_app b (a +:+ c).
Proof.
  induction a as [|x a IH]; intros b c; [reflexivity|].
  cbn [String.rev_app]. rewrite IH. reflexivity.
Qed.

Lemma append_empty (a : string) : a +:+ "" = a.
Proof.
  induction a as [|x a IH]; [reflexivity|].
  change (String x a +:+ "") with (String x (a +:+ "")).
  rewrite IH. reflexivity.
Qed.

(** Splitting goes over a field that does not contain the separator. *)
Lemma split_go_field (sep : ascii) (a : string) : forall cur rest,
  JS.includes sep a = false ->
  JS.split_go sep cur (a +:+ String sep rest)
  = String.rev (String.rev_app a cur) :: JS.split_go sep "" rest.
Proof.
  induction a as [|x a IH]; intros cur rest H.
  - change ("" +:+ String sep rest) with (String sep rest).
    cbn [JS.split_go]. rewrite Ascii.eqb_refl. reflexivity.
  - cbn [JS.includes] in H. apply orb_false_elim in H. destruct H as [Hx Ha].
    change (String x a +:+ String sep rest)
      with (String x (a +:+ String sep rest)).
    cbn [JS.split_go]. rewrite Hx. rewrite (IH _ _ Ha). reflexivity.
Qed.

Lemma split_go_last (sep : ascii) (a : string) : forall cur,
  JS.includes sep a = false ->
  JS.split_go sep cur a = [String.rev (String.rev_app a cur)].
Proof.
  induction a as [|x a IH]; intros cur H; [reflexivity|].
  cbn [JS.includes] in H. apply orb_false_elim in H. destruct H as [Hx Ha].
  cbn [JS.split_go]. rewrite Hx. rewrite (IH _ Ha). reflexivity.
Qed.

Lemma rev_rev_app (a : string) : String.rev (String.rev_app a "") = a.
Proof.
  unfold String.rev. rewrite rev_app_rev_app. cbn [String.rev_app].
  apply append_empty.
Qed.

(** The first three fields of a date. *)
Lemma split_three (a b c : string) :
  JS.includes "/" a = false ->
  JS.includes "/" b = false ->
  exists rest, JS.split "/" (a +:+ "/" +:+ b +:+ "/" +:+ c)
               = a :: b :: rest /\
               (JS.includes "/" c = false -> rest = [c]) /\
               (forall c1 c2, JS.includes "/" c1 = false ->
                              c = c1 +:+ "/" +:+ c2 ->
                              exists rest', rest = c1 :: rest').
Proof.
  intros Ha Hb. unfold JS.split.
  change (a +:+ "/" +:+ b +:+ "/" +:+ c)
    with (a +:+ String "/" (b +:+ String "/" c)).
  rewrite (split_go_field _ _ _ _ Ha), rev_rev_app.
  rewrite (split_go_field _ _ _ _ Hb), rev_rev_app.
  eexists. split; [reflexivity|]. split.
  - intros Hc. rewrite (split_go_last _ _ _ Hc), rev_rev_app. reflexivity.
  - intros c1 c2 Hc1 ->.
    change (c1 +:+ "/" +:+ c2) with (c1 +:+ String "/" c2).
    rewrite (split_go_field _ _ _ _ Hc1), rev_rev_app.
    eexists. reflexivity.
Qed.

Lemma date_string_truthy (a r : string) :
  JS.truthy (JS.Str (a +:+ "/" +:+ r)) = true.
Proof. destruct a; reflexivity. Qed.

(** The planned delivery date is read from three fields: the day, the
    month and the year, in that order, the month counted from 1.  For a
    date string whose first two fields are [day] and [month] and whose
    third is [year], the date bound is [new Date(year, month - 1, day)],
    nothing is written to the console, and whatever follows a third [/] is
    not looked at. *)
Theorem planned_date_is_read_from_three_fields (day month year rest : string)
    (w : World) :
  JS.includes "/" day = false ->
  JS.includes "/" month = false ->
  JS.includes "/" year = false ->
  let bound :=
    JS.new_Date (JS.Str year)
      (JS.Num (JS.sub (JS.to_number (JS.Str month)) (JS.of_Z 1)))
      (JS.Str day) in
  DatabaseService.parse_planned_date
    (JS.Str (day +:+ "/" +:+ month +:+ "/" +:+ year)) w
  = (Return (Some bound), w) /\
  DatabaseService.parse_planned_date
    (JS.Str (day +:+ "/" +:+ month +:+ "/" +:+ year +:+ "/" +:+ rest)) w
  = (Return (Some bound), w).
Proof.
  intros Hd Hm Hy. cbv zeta. unfold DatabaseService.parse_planned_date.
  rewrite !date_string_truthy. unfold try_catch. split.
  - destruct (split_three day month year Hd Hm) as [l [-> [Hl _]]].
    rewrite (Hl Hy). reflexivity.
  - destruct (split_three day month (year +:+ "/" +:+ rest) Hd Hm)
      as [l [-> [_ Hl]]].
    destruct (Hl year rest Hy eq_refl) as [l' ->]. reflexivity.
Qed.

Example planned_date_is_read_from_three_fields_witness :
  let bound :=
    JS.new_Date (JS.Str "2024")
      (JS.Num (JS.sub (JS.to_number (JS.Str "01")) (JS.of_Z 1)))
      (JS.Str "15") in
  DatabaseService.parse_planned_date
    (JS.Str ("15" +:+ "/" +:+ "01" +:+ "/" +:+ "2024")) Sample.start
  = (Return (Some bound), Sample.start) /\
  DatabaseService.parse_planned_date
    (JS.Str ("15" +:+ "/" +:+ "01" +:+ "/" +:+ "2024" +:+ "/" +:+ "x"))
    Sample.start
  = (Return (Some bound), Sample.start).
Proof.
  apply (planned_date_is_read_from_three_fields "15" "01" "2024" "x"
           Sample.start); reflexivity.
Defined.

(** X28.  A year written with two digits is read as a year of the 1900s. If
    the year field of a date stands for an integer from 0 to 99, the date
    bound is the one bound for the same day and month of the year 1900 later:
    the date [15/01/24] is stored as 15 January 1924. *)
Theorem two_digit_year_is_read_as_19xx (day month year year' : string)
    (y : Z) (w : World) :
  JS.includes "/" day = false ->
  JS.includes "/" month = false ->
  JS.includes "/" year = false ->
  JS.includes "/" year' = false ->
  JS.to_number (JS.Str year) = JS.of_Z y ->
  0 <= y <= 99 ->
  JS.to_number (JS.Str year') = JS.of_Z (1900 + y) ->
  DatabaseService.parse_planned_date
    (JS.Str (day +:+ "/" +:+ month +:+ "/" +:+ year)) w
  = DatabaseService.parse_planned_date
      (JS.Str (day +:+ "/" +:+ month +:+ "/" +:+ year')) w.
Proof.
  intros Hd Hm Hy Hy' Hval Hrange Hval'.
  unfold DatabaseService.parse_planned_date.
  rewrite !date_string_truthy. unfold try_catch.
  destruct (split_three day month year Hd Hm) as [l [-> [Hl _]]].
  destruct (split_three day month year' Hd Hm) as [l' [-> [Hl' _]]].
  rewrite (Hl Hy), (Hl' Hy'). cbn [JS.nth_value nth_error ret].
  do 3 f_equal. unfold JS.new_Date. rewrite Hval, Hval'.
  destruct (of_Z_value y) as [m [e [-> [Ht _]]]].
  destruct (of_Z_value (1900 + y)) as [m' [e' [-> [Ht' _]]]].
  rewrite Ht, Ht'.
  destruct (JS.to_number (JS.Num _)) as [| | |mm me]; try reflexivity.
  destruct (JS.to_number (JS.Str day)) as [| | |dm de]; try reflexivity.
  replace ((0 <=? y) && (y <=? 99)) with true
    by (symmetry; apply andb_true_intro; split; apply Z.leb_le; lia).
  replace ((0 <=? 1900 + y) && (1900 + y <=? 99)) with false
    by (symmetry; apply andb_false_intro2; apply Z.leb_gt; lia).
  reflexivity.
Qed.

Example two_digit_year_is_read_as_19xx_witness :
  DatabaseService.parse_planned_date
    (JS.Str ("15" +:+ "/" +:+ "01" +:+ "/" +:+ "24")) Sample.start
  = DatabaseService.parse_planned_date
      (JS.Str ("15" +:+ "/" +:+ "01" +:+ "/" +:+ "1924")) Sample.start.
Proof.
  apply (two_digit_year_is_read_as_19xx "15" "01" "24" "1924" 24 Sample.start);
    [reflexivity | reflexivity | reflexivity | reflexivity | reflexivity
    | lia | reflexivity].
Defined.


(** ** The durable row of a finished batch *)




(** ** The batch processor without a job *)

(** [throws e m]: [m] always throws [e]. *)
Definition throws {A} (e : JS.error) (m : M A) : Prop :=
  forall w, exists w', m w = (Throw e, w').

(** [never_returns m]: [m] always throws something. *)
Definition never_returns {A} (m : M A) : Prop :=
  forall w, exists e w', m w = (Throw e, w').

Section Throws.
Context {E : Env}.

Lemma throws_never_returns {A} e (m : M A) : throws e m -> never_returns m.
Proof. intros H w. destruct (H w) as [w' ->]. eexists _, _. reflexivity. Qed.

Lemma throws_bind {A B} e (m : M A) (k : A -> M B) :
  throws e m -> throws e (bind m k).
Proof.
  intros H w. unfold bind. destruct (H w) as [w' ->]. eexists. reflexivity.
Qed.

Lemma never_returns_bind {A B} (m : M A) (k : A -> M B) :
  (forall a, never_returns (k a)) -> never_returns (bind m k).
Proof.
  intros H w. unfold bind. destruct (m w) as [[a|e] w1].
  - apply H.
  - eexists _, _. reflexivity.
Qed.

Lemma never_returns_bind_l {A B} (m : M A) (k : A -> M B) :
  never_returns m -> never_returns (bind m k).
Proof.
  intros H w. unfold bind. destruct (H w) as [e [w' ->]].
  eexists _, _. reflexivity.
Qed.

Lemma throws_try_catch {A} e (m : M A) (h : JS.error -> M A) :
  never_returns m -> (forall e', throws e (h e')) -> throws e (try_catch m h).
Proof.
  intros Hm Hh w. unfold try_catch. destruct (Hm w) as [e' [w1 ->]].
  apply Hh.
Qed.

Lemma throws_after_now {A} e (k : Z -> M A) :
  (forall t, throws e (k t)) -> throws e (bind now k).
Proof. intros H w. unfold bind, now. apply H. Qed.

Lemma job_update_undefined f :
  throws Server.TypeError_undefined (Server.job_update None f).
Proof. intros w. eexists. reflexivity. Qed.

Lemma process_file_undefined jobId storeInDb order file :
  throws Server.TypeError_undefined
    (Server.process_file None jobId storeInDb order file).
Proof.
  unfold Server.process_file. apply throws_bind. apply throws_try_catch.
  - repeat first
      [ solve [apply never_returns_bind_l;
               apply (throws_never_returns Server.TypeError_undefined);
               apply job_update_undefined]
      | apply never_returns_bind; intro ].
  - intros e'. apply throws_after_now. intros t.
    apply throws_bind, job_update_undefined.
Qed.

End Throws.

(** X30.  Without a job the batch processor throws. If the job id is not in
    the in-memory map, [processBatchInBackground] throws the TypeError of a
    property access on [undefined], whatever files it is given and whether or
    not they can be extracted and stored. *)
Theorem batch_processor_throws_without_a_job {E : Env} (jobId : string)
    (files : list Server.file) (storeInDb : bool) (w : World) :
  batchJobs w !! jobId = None ->
  exists w',
    Server.processBatchInBackground jobId files storeInDb w
    = (Throw Server.TypeError_undefined, w').
Proof.
  intros Hmem. unfold Server.processBatchInBackground.
  rewrite bind_run. unfold Server.batchJobs_get at 1. rewrite Hmem.
  rewrite bind_run. unfold Server.set_frame at 1.
  apply (throws_try_catch Server.TypeError_undefined).
  - destruct files as [|f fs].
    + apply never_returns_bind; intros _.
      apply never_returns_bind_l.
      apply (throws_never_returns Server.TypeError_undefined).
      apply job_update_undefined.
    + apply never_returns_bind_l. cbn [for_each].
      apply never_returns_bind_l.
      apply (throws_never_returns Server.TypeError_undefined).
      apply process_file_undefined.
  - intros e'. apply throws_bind, job_update_undefined.
Qed.

Example batch_processor_throws_without_a_job_witness :
  exists w',
    Server.processBatchInBackground (E := SampleBatch.extractor) "job-9"
      [SampleBatch.upload "1"] true SampleBatch.created
    = (Throw Server.TypeError_undefined, w').
Proof.
  apply (batch_processor_throws_without_a_job (E := SampleBatch.extractor));
    reflexivity.
Defined.
